(** * footprint: a shallow embedding of [footprint.py]

    The library builds footprints for the gEDA [pcb] editor: pads, pins and
    silkscreen shapes with derived coordinates, inheritance from a [base]
    shape, array placement, and serialization relative to a mark.

    Python objects are dynamically typed and mutable.  The embedding keeps
    that: a [value] is what a Python expression of the library can evaluate
    to, keyword arguments and instance dictionaries are finite maps from
    attribute names to values, objects live in a heap and are referred to by
    their address, and every operation that can raise returns in [res].

    The interpreter is CPython 3: [round] returns an int and rounds halves
    to even, and an ordering comparison with a non-number raises.  A float
    is an IEEE-754 double; see the section on binary64 for how its
    arithmetic is embedded and where the embedding stops. *)

From Stdlib Require Import ZArith QArith Qround Qabs String Lia.
From Stdlib Require Import PrimFloat FloatOps SpecFloat.
From stdpp Require Import gmap strings list fin_maps.

Set Warnings "-register-all,-inexact-float".

Open Scope string_scope.
Open Scope list_scope.

(** ** binary64

    A finite double is the rational [m * 2^e] with [|m| < 2^53] and
    [e >= -1074].  The embedding carries a float as the rational it denotes,
    in lowest terms, and rounds the exact result of every float operation to
    the nearest double, ties to the even significand, as the hardware does
    in its default mode.  It has no signed zero and no NaN, and a result of
    magnitude [2^1024] or more is not replaced by an infinity: it stands for
    one, and the conversions to an integer ([round], [%d]) raise
    [OverflowError] on it as they do on an infinity. *)

(** [floor (log2 (n/d))] *)
Definition log2_floor (n d : positive) : Z :=
  let c := (Z.log2 (Zpos n) - Z.log2 (Zpos d))%Z in
  if (0 <=? c)%Z
  then (if (Zpos d * 2 ^ c <=? Zpos n)%Z then c else c - 1)%Z
  else (if (Zpos d <=? Zpos n * 2 ^ (- c))%Z then c else c - 1)%Z.

(** The integer nearest to [N/D], for [D > 0]; a half goes to the even
    neighbour. *)
Definition div_half_even (N D : Z) : Z :=
  let f := (N / D)%Z in
  match (2 * (N mod D) ?= D)%Z with
  | Lt => f
  | Gt => (f + 1)%Z
  | Eq => if Z.even f then f else (f + 1)%Z
  end.

(** The exponent of the last place of the doubles around [n/d]. *)
Definition ulp_exp (n d : positive) : Z := Z.max (log2_floor n d - 52) (-1074).

(** The multiple of [2^e] nearest to [q]. *)
Definition rnd_at (e : Z) (q : Q) : Q :=
  if (0 <=? e)%Z then
    inject_Z (div_half_even (Qnum q) (Zpos (Qden q) * 2 ^ e) * 2 ^ e)
  else
    Qmake (div_half_even (Qnum q * 2 ^ (- e)) (Zpos (Qden q))) (Z.to_pos (2 ^ (- e))).

(** The double nearest to [q]. *)
Definition rnd (q : Q) : Q :=
  let q := Qred q in
  match Qnum q with
  | Z0 => 0%Q
  | Zpos n | Zneg n => Qred (rnd_at (ulp_exp n (Qden q)) q)
  end.

(** Below the threshold at which a double operation overflows. *)
Definition finite (q : Q) : bool := negb (Qle_bool (inject_Z (2 ^ 1024)) (Qabs q)).

(** The rational a primitive float of the proof assistant denotes; the
    theorems use it to compare [rnd] with the machine's own binary64
    arithmetic. *)
Definition F2Q (f : float) : option Q :=
  match Prim2SF f with
  | S754_zero _ => Some 0%Q
  | S754_finite s m e =>
      let z := if s then Zneg m else Zpos m in
      Some (Qred (if (0 <=? e)%Z then inject_Z (z * 2 ^ e)
                  else Qmake z (Z.to_pos (2 ^ (- e)))))
  | _ => None
  end.

(** [rnd] against the machine: what an operation of the proof assistant's
    primitive binary64 floats returns on the doubles [x] and [y] is the
    rounding of the exact result, or an infinity when that is not finite. *)
Definition agrees (fop : float -> float -> float) (qop : Q -> Q -> Q)
    (x y : float) : bool :=
  match F2Q x, F2Q y with
  | Some a, Some b =>
      Qeq_bool (rnd a) a && Qeq_bool (rnd b) b &&
      match F2Q (fop x y) with
      | Some c => finite (rnd (qop a b)) && Qeq_bool (rnd (qop a b)) c
      | None => negb (finite (rnd (qop a b)))
      end
  | _, _ => false
  end.

Definition samples : list (float * float) :=
  [ (0.1, 0.2); (0.1, 0.4); (0.3, 0.1); (0.015, 100); (1e16, 1); (1, 1e16);
    (10, 0.1); (0.2, 2); (0.6, 2); (0.65, 39.370078740157481);
    (1, 0.0254); (9007199254740993, 1); (4503599627370497, 0.5);
    (5e-324, 2); (2.2250738585072014e-308, 3); (1e-320, 1e-3);
    (1.7976931348623157e308, 1e-3); (-0.1, 0.7); (123456789.125, -0.333) ]%float.

(** ** Values, exceptions *)

(** A Python number: [int] or [float].  Arithmetic between two ints stays
    an int and is exact, anything involving a float is a float.  Floats are
    kept in lowest terms so that equal floats are equal terms. *)
Inductive num :=
| Int (z : Z)
| Float (q : Q).

Inductive value :=
| VNone
| VBool (b : bool)
| VNum (n : num)
| VStr (s : string)
| VTuple (l : list value)
| VObj (l : nat).

Inductive exn :=
| AttributeError (attr : string)
| KeyError (key : string)
| NameError (name : string)
| TypeError
| IndexError
| ZeroDivisionError
| OverflowError.

Inductive res (A : Type) :=
| Ok (a : A)
| Err (e : exn).
Arguments Ok {A} a.
Arguments Err {A} e.

#[export] Instance res_ret : MRet res := @Ok.
#[export] Instance res_bind : MBind res :=
  fun A B f m => match m with Ok a => f a | Err e => Err e end.

Definition is_ok {A} (r : res A) : bool :=
  match r with Ok _ => true | Err _ => false end.

(** ** Arithmetic *)

(** The exact value of a number. *)
Definition num_Q (n : num) : Q :=
  match n with Int z => inject_Z z | Float q => q end.

(** [float(n)]: what an operand is converted to when the other operand is
    a float.  (CPython raises [OverflowError] when an int beyond the range
    of a double meets a float; the embedding lets such an int stand for an
    infinity, as above.) *)
Definition num_F (n : num) : Q :=
  match n with Int z => rnd (inject_Z z) | Float q => q end.

Definition num_add (a b : num) : num :=
  match a, b with
  | Int x, Int y => Int (x + y)
  | _, _ => Float (rnd (num_F a + num_F b))
  end.

Definition num_sub (a b : num) : num :=
  match a, b with
  | Int x, Int y => Int (x - y)
  | _, _ => Float (rnd (num_F a - num_F b))
  end.

Definition num_mul (a b : num) : num :=
  match a, b with
  | Int x, Int y => Int (x * y)
  | _, _ => Float (rnd (num_F a * num_F b))
  end.

Definition num_neg (a : num) : num :=
  match a with
  | Int x => Int (- x)
  | Float q => Float (Qred (- q))
  end.

(** [bool] is a subclass of [int]: [True] counts as 1 in arithmetic. *)
Definition as_num (v : value) : option num :=
  match v with
  | VNum n => Some n
  | VBool b => Some (Int (Z.b2z b))
  | _ => None
  end.

(** [a + b]: numbers add, strings and tuples concatenate. *)
Definition py_add (a b : value) : res value :=
  match as_num a, as_num b with
  | Some x, Some y => Ok (VNum (num_add x y))
  | _, _ =>
      match a, b with
      | VStr s, VStr t => Ok (VStr (s ++ t)%string)
      | VTuple s, VTuple t => Ok (VTuple (s ++ t))
      | _, _ => Err TypeError
      end
  end.

(** [a - b] *)
Definition py_sub (a b : value) : res value :=
  match as_num a, as_num b with
  | Some x, Some y => Ok (VNum (num_sub x y))
  | _, _ => Err TypeError
  end.

(** [- a] *)
Definition py_neg (a : value) : res value :=
  match as_num a with
  | Some x => Ok (VNum (num_neg x))
  | None => Err TypeError
  end.

(** [a * b].  The library multiplies a difference by [t] in [between];
    the difference is a number.  (Python repeats a string or a tuple that
    is multiplied by an int; in [between] the sum that follows then raises
    the [TypeError] that the embedding raises here.) *)
Definition py_mul (a b : value) : res value :=
  match as_num a, as_num b with
  | Some x, Some y => Ok (VNum (num_mul x y))
  | _, _ => Err TypeError
  end.

(** [a / d] where [d] is a float literal of the source ([2.]). *)
Definition py_div_float (a : value) (d : Q) : res value :=
  match as_num a with
  | Some x =>
      if Qeq_bool d 0 then Err ZeroDivisionError
      else Ok (VNum (Float (rnd (num_F x / d))))
  | None => Err TypeError
  end.

(** [a * 2] with an int literal, as in [self.radius*2]. *)
Definition py_mul_int (a : value) (k : Z) : res value :=
  match as_num a with
  | Some x => Ok (VNum (num_mul x (Int k)))
  | None => Err TypeError
  end.

(** [a > b] on numbers.  The library compares a pad's width with its
    height only.  An int and a float are compared by their exact values.
    When one operand is not a number the comparison raises [TypeError]. *)
Definition py_gt (a b : value) : res bool :=
  match as_num a, as_num b with
  | Some x, Some y => Ok (negb (Qle_bool (num_Q x) (num_Q y)))
  | _, _ => Err TypeError
  end.

(** Truth value of an object, as tested by [if] and the conditional
    expression. *)
Definition py_truthy (v : value) : bool :=
  match v with
  | VNone => false
  | VBool b => b
  | VNum n => negb (Qeq_bool (num_Q n) 0)
  | VStr s => negb (String.eqb s "")
  | VTuple l => match l with [] => false | _ => true end
  | VObj _ => true
  end.

Definition is_none (v : value) : bool :=
  match v with VNone => true | _ => false end.

(** [a == b]: numbers by value ([True] counting as 1), strings and tuples
    by content, objects by identity. *)
Fixpoint py_eq (a b : value) : bool :=
  match a, b with
  | VNone, VNone => true
  | VStr s, VStr t => String.eqb s t
  | VTuple l, VTuple m =>
      (fix eq_items (l m : list value) : bool :=
         match l, m with
         | [], [] => true
         | x :: l, y :: m => py_eq x y && eq_items l m
         | _, _ => false
         end) l m
  | VObj i, VObj j => Nat.eqb i j
  | _, _ =>
      match as_num a, as_num b with
      | Some x, Some y => Qeq_bool (num_Q x) (num_Q y)
      | _, _ => false
      end
  end.

(** The integer nearest to [q], halves to even. *)
Definition py_round (q : Q) : Z :=
  let q := Qred q in div_half_even (Qnum q) (Zpos (Qden q)).

(** [round(x)] on a number: an int is returned as it is, a float is
    rounded to the nearest int. *)
Definition round_num (n : num) : res Z :=
  match n with
  | Int z => Ok z
  | Float q => if finite q then Ok (py_round q) else Err OverflowError
  end.

(** [%d] applied to a value: the integer part of a number. *)
Definition fmt_d (v : value) : res Z :=
  match as_num v with
  | Some (Int z) => Ok z
  | Some (Float q) =>
      if finite q then Ok (Qnum q ÷ Zpos (Qden q))%Z else Err OverflowError
  | None => Err TypeError
  end.

(** ** Module-level helpers *)

(** The float a decimal literal of a script denotes. *)
Definition lit (q : Q) : num := Float (rnd q).

(** [mm = 1.0/0.0254] *)
Definition mm : num := Float (rnd (1 / rnd (254 # 10000))%Q).

(** The default [t=0.5] of [between]. *)
Definition t_default : value := VNum (Float (1 # 2)).

(** [between(a, b, t=0.5)] returns [a + (b-a)*t]. *)
Definition between (a b t : value) : res value :=
  d ← py_sub b a;
  s ← py_mul d t;
  py_add a s.

(** [__mil_to_unit(mil)] returns [round(mil * 100)], which the callers
    format with [%d].  (A string or a tuple times 100 is a sequence, on
    which [round] raises the [TypeError] raised here.) *)
Definition mil_to_unit (mil : value) : res Z :=
  match as_num mil with
  | Some x => round_num (num_mul x (Int 100))
  | None => Err TypeError
  end.

(** ** Global names and private-name mangling

    A method body refers to the module's helper by a name with two leading
    underscores.  An identifier of that form that occurs textually inside a
    class definition is rewritten by the compiler to [_Class__name] before
    it is looked up, whatever its syntactic role.  The lookup then goes
    through the module's global names. *)

Inductive binding :=
| BConst (v : value)           (* a constant or an object *)
| BUnary (f : value -> res Z)  (* a one-argument function whose result is formatted with %d *)
| BOther.                      (* a module, a class, a function of another arity *)

Definition ends_with_dunder (s : string) : bool :=
  let n := String.length s in
  (2 <=? n)%nat && String.eqb (substring (n - 2) 2 s) "__".

Definition is_private (name : string) : bool :=
  String.prefix "__" name && negb (ends_with_dunder name).

Definition mangle (cls name : string) : string :=
  if is_private name then ("_" ++ cls ++ name)%string else name.

(** The names bound at module level once [footprint.py] has been executed. *)
Definition footprint_globals : gmap string binding :=
  list_to_map
    [ ("sys", BOther); ("os", BOther);
      ("__author__", BConst (VStr "Matt Sarnoff (msarnoff.org)"));
      ("__version__", BConst (VStr "1.0"));
      ("mm", BConst (VNum mm));
      ("between", BOther);
      ("__mil_to_unit", BUnary mil_to_unit);
      ("Shape", BOther); ("Pad", BOther); ("Pin", BOther);
      ("SilkLine", BOther); ("SilkPolyline", BOther); ("SilkArc", BOther);
      ("Footprint", BOther) ].

(** Loading the global [name] from inside class [cls].  (A name the module
    does not bind is then looked up among the builtins, which have none of
    the mangled names.) *)
Definition load_global (G : gmap string binding) (cls name : string) : res binding :=
  match G !! mangle cls name with
  | Some b => Ok b
  | None => Err (NameError (mangle cls name))
  end.

(** [name(arg)] inside class [cls]: the callee is loaded first, then the
    argument is evaluated, then the call is made. *)
Definition call_global (G : gmap string binding) (cls name : string)
    (arg : res value) : res Z :=
  b ← load_global G cls name;
  v ← arg;
  match b with
  | BUnary f => f v
  | _ => Err TypeError
  end.

(** ** Serialized records

    A shape is written as one bracketed record per primitive.  The embedding
    keeps a record's fields in the order the format string lists them; a
    field written with [%d] is an integer, one written with [%s] is the value
    handed to the formatter. *)

Inductive pcb_record :=
| PadRecord (x1 y1 x2 y2 thickness clearance mask : Z) (name number : value) (flags : Z)
| PinRecord (x y diameter clearance mask hole : Z) (name number : value) (flags : Z)
| ElementLine (x1 y1 x2 y2 thickness : Z)
| ElementArc (x y x_radius y_radius start_angle delta_angle thickness : Z).

(** ** Instance dictionaries *)

Definition attr (a : gmap string value) (k : string) : res value :=
  match a !! k with
  | Some v => Ok v
  | None => Err (AttributeError k)
  end.

(** [kwargs.get(key)] *)
Definition kwargs_get (kw : gmap string value) (k : string) : value :=
  default VNone (kw !! k).

(** [Shape.__init__] *)
Definition Shape_init : gmap string value :=
  <["number" := VStr ""]> (<["name" := VStr ""]> ∅).

(** The two loops every pad and pin initializer runs: copy the keys of the
    base, then apply the keyword arguments that are not [None].  [getattr3]
    is the builtin [getattr(base, key, None)]. *)
Section InitLoops.
Variable getattr3 : value -> string -> res value.
Variable setattr : gmap string value -> string -> value -> res (gmap string value).

Fixpoint copy_from_base (base : value) (keys : list string)
    (self : gmap string value) : res (gmap string value) :=
  match keys with
  | [] => Ok self
  | key :: keys =>
      v ← getattr3 base key;
      self ← setattr self key v;
      copy_from_base base keys self
  end.

Fixpoint apply_kwargs (kw : gmap string value) (keys : list string)
    (self : gmap string value) : res (gmap string value) :=
  match keys with
  | [] => Ok self
  | key :: keys =>
      let v := kwargs_get kw key in
      self ← (if is_none v then Ok self else setattr self key v);
      apply_kwargs kw keys self
  end.

Definition init_from (self : gmap string value) (kw : gmap string value)
    (inheritable keys : list string) : res (gmap string value) :=
  let base := kwargs_get kw "base" in
  self ← (if is_none base then Ok self
          else copy_from_base base inheritable self);
  apply_kwargs kw keys self.
End InitLoops.

(** ** Pad *)

Module Pad.
Definition clearance : value := VNum (Int 1).

Definition inheritable_keys : list string :=
  ["left"; "width"; "top"; "height"; "number"; "name"; "round"].
Definition all_keys : list string :=
  inheritable_keys ++ ["right"; "x"; "bottom"; "y"].

Definition right (self : gmap string value) : res value :=
  l ← attr self "left"; w ← attr self "width"; py_add l w.

Definition set_right (self : gmap string value) (v : value) : res (gmap string value) :=
  w ← attr self "width";
  if negb (is_none w) then
    d ← py_sub v w; Ok (<["left" := d]> self)
  else
    l ← attr self "left"; d ← py_sub v l; Ok (<["width" := d]> self).

Definition x (self : gmap string value) : res value :=
  l ← attr self "left"; r ← right self; between l r t_default.

Definition set_x (self : gmap string value) (v : value) : res (gmap string value) :=
  w ← attr self "width"; hw ← py_div_float w 2; d ← py_sub v hw;
  Ok (<["left" := d]> self).

Definition bottom (self : gmap string value) : res value :=
  t ← attr self "top"; hh ← attr self "height"; py_add t hh.

Definition set_bottom (self : gmap string value) (v : value) : res (gmap string value) :=
  hh ← attr self "height";
  if negb (is_none hh) then
    d ← py_sub v hh; Ok (<["top" := d]> self)
  else
    t ← attr self "top"; d ← py_sub v t; Ok (<["height" := d]> self).

Definition y (self : gmap string value) : res value :=
  t ← attr self "top"; b ← bottom self; between t b t_default.

Definition set_y (self : gmap string value) (v : value) : res (gmap string value) :=
  hh ← attr self "height"; h2 ← py_div_float hh 2; d ← py_sub v h2;
  Ok (<["top" := d]> self).

(** Attribute access: the four properties, then the instance dictionary,
    then the class attribute. *)
Definition getattr (self : gmap string value) (k : string) : res value :=
  if String.eqb k "right" then right self
  else if String.eqb k "x" then x self
  else if String.eqb k "bottom" then bottom self
  else if String.eqb k "y" then y self
  else match self !! k with
       | Some v => Ok v
       | None => if String.eqb k "clearance" then Ok clearance
                 else Err (AttributeError k)
       end.

Definition setattr (self : gmap string value) (k : string) (v : value)
    : res (gmap string value) :=
  if String.eqb k "right" then set_right self v
  else if String.eqb k "x" then set_x self v
  else if String.eqb k "bottom" then set_bottom self v
  else if String.eqb k "y" then set_y self v
  else Ok (<[k := v]> self).

(** [Pad.__init__] *)
Definition init (getattr3 : value -> string -> res value)
    (kw : gmap string value) : res (gmap string value) :=
  let self := <["round" := VBool false]> Shape_init in
  init_from getattr3 setattr self kw inheritable_keys all_keys.

(** The first half of [pcb_repr]: the line segment that stands for the
    pad, [(x1, y1, x2, y2, thickness)]. *)
Definition pcb_segment (self : gmap string value)
    : res (value * value * value * value * value) :=
  w ← attr self "width"; hh ← attr self "height";
  c ← py_gt w hh;
  if (c : bool) then
    thickness ← attr self "height";
    l ← attr self "left"; t2 ← py_div_float thickness 2; x1 ← py_add l t2;
    y1 ← y self;
    r ← right self; t2 ← py_div_float thickness 2; x2 ← py_sub r t2;
    y2 ← y self;
    Ok (x1, y1, x2, y2, thickness)
  else
    thickness ← attr self "width";
    x1 ← x self;
    t ← attr self "top"; t2 ← py_div_float thickness 2; y1 ← py_add t t2;
    x2 ← x self;
    b ← bottom self; t2 ← py_div_float thickness 2; y2 ← py_sub b t2;
    Ok (x1, y1, x2, y2, thickness).

Definition flags (round : value) : Z :=
  if py_truthy round then 0 else 256.

(** [Pad.pcb_repr(tx, ty)] *)
Definition pcb_repr (G : gmap string binding) (self : gmap string value)
    (tx ty : value) : res pcb_record :=
  '(x1, y1, x2, y2, thickness) ← pcb_segment self;
  c ← getattr self "clearance";
  mask ← py_add thickness c;
  u1 ← call_global G "Pad" "__mil_to_unit" (py_add x1 tx);
  u2 ← call_global G "Pad" "__mil_to_unit" (py_add y1 ty);
  u3 ← call_global G "Pad" "__mil_to_unit" (py_add x2 tx);
  u4 ← call_global G "Pad" "__mil_to_unit" (py_add y2 ty);
  u5 ← call_global G "Pad" "__mil_to_unit" (Ok thickness);
  u6 ← call_global G "Pad" "__mil_to_unit" (getattr self "clearance");
  u7 ← call_global G "Pad" "__mil_to_unit" (Ok mask);
  name ← getattr self "name";
  number ← getattr self "number";
  round ← getattr self "round";
  Ok (PadRecord u1 u2 u3 u4 u5 u6 u7 name number (flags round)).
End Pad.

(** ** Pin *)

Module Pin.
Definition clearance : value := VNum (Int 2).
Definition mask_offset : value := VNum (Int 1).

Definition keys : list string :=
  ["x"; "y"; "hole"; "diameter"; "number"; "name"; "round"].

Definition left (self : gmap string value) : res value :=
  x ← attr self "x"; d ← attr self "diameter"; h ← py_div_float d 2; py_sub x h.
Definition set_left (self : gmap string value) (v : value) : res (gmap string value) :=
  d ← attr self "diameter"; h ← py_div_float d 2; x ← py_add v h;
  Ok (<["x" := x]> self).

Definition right (self : gmap string value) : res value :=
  x ← attr self "x"; d ← attr self "diameter"; h ← py_div_float d 2; py_add x h.
Definition set_right (self : gmap string value) (v : value) : res (gmap string value) :=
  d ← attr self "diameter"; h ← py_div_float d 2; x ← py_sub v h;
  Ok (<["x" := x]> self).

Definition top (self : gmap string value) : res value :=
  y ← attr self "y"; d ← attr self "diameter"; h ← py_div_float d 2; py_sub y h.
Definition set_top (self : gmap string value) (v : value) : res (gmap string value) :=
  d ← attr self "diameter"; h ← py_div_float d 2; y ← py_add v h;
  Ok (<["y" := y]> self).

Definition bottom (self : gmap string value) : res value :=
  y ← attr self "y"; d ← attr self "diameter"; h ← py_div_float d 2; py_add y h.
Definition set_bottom (self : gmap string value) (v : value) : res (gmap string value) :=
  d ← attr self "diameter"; h ← py_div_float d 2; y ← py_sub v h;
  Ok (<["y" := y]> self).

Definition getattr (self : gmap string value) (k : string) : res value :=
  if String.eqb k "left" then left self
  else if String.eqb k "right" then right self
  else if String.eqb k "top" then top self
  else if String.eqb k "bottom" then bottom self
  else match self !! k with
       | Some v => Ok v
       | None => if String.eqb k "clearance" then Ok clearance
                 else if String.eqb k "mask_offset" then Ok mask_offset
                 else Err (AttributeError k)
       end.

Definition setattr (self : gmap string value) (k : string) (v : value)
    : res (gmap string value) :=
  if String.eqb k "left" then set_left self v
  else if String.eqb k "right" then set_right self v
  else if String.eqb k "top" then set_top self v
  else if String.eqb k "bottom" then set_bottom self v
  else Ok (<[k := v]> self).

(** [Pin.__init__] *)
Definition init (getattr3 : value -> string -> res value)
    (kw : gmap string value) : res (gmap string value) :=
  let self := <["round" := VBool true]> Shape_init in
  init_from getattr3 setattr self kw keys keys.

Definition flags (round : value) : Z :=
  Z.lor 1 (if py_truthy round then 0 else 256).

(** [Pin.pcb_repr(tx, ty)].  The name written into the record is read
    from the global [__self], not from [self]; [getattr2] is attribute
    access on an arbitrary value. *)
Definition pcb_repr (G : gmap string binding)
    (getattr2 : value -> string -> res value)
    (self : gmap string value) (tx ty : value) : res pcb_record :=
  u1 ← call_global G "Pin" "__mil_to_unit" (x ← getattr self "x"; py_add x tx);
  u2 ← call_global G "Pin" "__mil_to_unit" (y ← getattr self "y"; py_add y ty);
  u3 ← call_global G "Pin" "__mil_to_unit" (getattr self "diameter");
  u4 ← call_global G "Pin" "__mil_to_unit" (getattr self "clearance");
  u5 ← call_global G "Pin" "__mil_to_unit"
         (d ← getattr self "diameter"; m ← getattr self "mask_offset"; py_add d m);
  u6 ← call_global G "Pin" "__mil_to_unit" (getattr self "hole");
  g ← load_global G "Pin" "__self";
  name ← match g with
         | BConst v => getattr2 v "name"
         | _ => Err (AttributeError "name")
         end;
  number ← getattr self "number";
  round ← getattr self "round";
  Ok (PinRecord u1 u2 u3 u4 u5 u6 name number (flags round)).
End Pin.

(** ** Silkscreen shapes *)

Module SilkLine.
Record t := mk { x1 : value; y1 : value; x2 : value; y2 : value; thickness : value }.

Definition default_thickness : value := VNum (Int 10).

(** [SilkLine.__init__] *)
Definition init (x1 y1 x2 y2 : value) (kw : gmap string value) : t :=
  mk x1 y1 x2 y2 (default default_thickness (kw !! "thickness")).

Definition getattr (self : t) (k : string) : res value :=
  if String.eqb k "x1" then Ok (x1 self)
  else if String.eqb k "y1" then Ok (y1 self)
  else if String.eqb k "x2" then Ok (x2 self)
  else if String.eqb k "y2" then Ok (y2 self)
  else if String.eqb k "thickness" then Ok (thickness self)
  else if String.eqb k "default_thickness" then Ok default_thickness
  else Err (AttributeError k).

(** [SilkLine.pcb_repr(tx, ty)] *)
Definition pcb_repr (G : gmap string binding) (self : t) (tx ty : value)
    : res pcb_record :=
  u1 ← call_global G "SilkLine" "__mil_to_unit" (py_add (x1 self) tx);
  u2 ← call_global G "SilkLine" "__mil_to_unit" (py_add (y1 self) ty);
  u3 ← call_global G "SilkLine" "__mil_to_unit" (py_add (x2 self) tx);
  u4 ← call_global G "SilkLine" "__mil_to_unit" (py_add (y2 self) ty);
  u5 ← call_global G "SilkLine" "__mil_to_unit" (Ok (thickness self));
  Ok (ElementLine u1 u2 u3 u4 u5).
End SilkLine.

Module SilkPolyline.
Record t := mk { segments : list SilkLine.t }.

(** The loop [for x, y in points] with its two variables [segments] and
    [last_point]. *)
Fixpoint loop (thickness : value) (points : list (value * value))
    (segments : list SilkLine.t) (last_point : option (value * value))
    : list SilkLine.t * option (value * value) :=
  match points with
  | [] => (segments, last_point)
  | (x, y) :: rest =>
      let segments :=
        match last_point with
        | Some (lx, ly) =>
            segments ++ [SilkLine.init lx ly x y (<["thickness" := thickness]> ∅)]
        | None => segments
        end in
      loop thickness rest segments (Some (x, y))
  end.

(** [SilkPolyline.__init__]: the positional arguments are the points. *)
Definition init (points : list (value * value)) (kw : gmap string value) : res t :=
  let thickness := default SilkLine.default_thickness (kw !! "thickness") in
  let '(segments, last_point) := loop thickness points [] None in
  match kwargs_get kw "closed" with
  | VBool true =>
      match last_point with
      | None => Err TypeError
      | Some (lx, ly) =>
          match segments with
          | [] => Err IndexError
          | s0 :: _ =>
              Ok (mk (segments ++
                [SilkLine.init lx ly (SilkLine.x1 s0) (SilkLine.y1 s0)
                   (<["thickness" := thickness]> ∅)]))
          end
      end
  | _ => Ok (mk segments)
  end.

(** [SilkPolyline.pcb_repr(tx, ty)]: the records of the segments, joined
    by newlines. *)
Fixpoint pcb_repr_segments (G : gmap string binding) (segs : list SilkLine.t)
    (tx ty : value) : res (list pcb_record) :=
  match segs with
  | [] => Ok []
  | s :: rest =>
      r ← SilkLine.pcb_repr G s tx ty;
      rs ← pcb_repr_segments G rest tx ty;
      Ok (r :: rs)
  end.

Definition pcb_repr (G : gmap string binding) (self : t) (tx ty : value)
    : res (list pcb_record) :=
  pcb_repr_segments G (segments self) tx ty.
End SilkPolyline.

Module SilkArc.
Record t := mk {
  x : value; y : value;
  x_radius : value; y_radius : value;
  start_angle : value; delta_angle : value;
  thickness : value }.

(** property [radius] *)
Definition radius (self : t) : res value :=
  between (x_radius self) (y_radius self) t_default.
Definition set_radius (self : t) (v : value) : t :=
  mk (x self) (y self) v v (start_angle self) (delta_angle self) (thickness self).

(** property [diameter] *)
Definition diameter (self : t) : res value :=
  r ← radius self; py_mul_int r 2.
Definition set_diameter (self : t) (v : value) : res t :=
  r ← py_div_float v 2; Ok (set_radius self r).

(** [SilkArc.__init__] *)
Definition init (x y : value) (kw : gmap string value) : res t :=
  let self :=
    mk x y (kwargs_get kw "x_radius") (kwargs_get kw "y_radius")
       (default (VNum (Int 0)) (kw !! "start_angle"))
       (default (VNum (Int 360)) (kw !! "delta_angle"))
       (default SilkLine.default_thickness (kw !! "thickness")) in
  let radius := kwargs_get kw "radius" in
  let self := if is_none radius then self else set_radius self radius in
  let diameter := kwargs_get kw "diameter" in
  if is_none diameter then Ok self else set_diameter self diameter.

Definition getattr (self : t) (k : string) : res value :=
  if String.eqb k "x" then Ok (x self)
  else if String.eqb k "y" then Ok (y self)
  else if String.eqb k "x_radius" then Ok (x_radius self)
  else if String.eqb k "y_radius" then Ok (y_radius self)
  else if String.eqb k "start_angle" then Ok (start_angle self)
  else if String.eqb k "delta_angle" then Ok (delta_angle self)
  else if String.eqb k "thickness" then Ok (thickness self)
  else if String.eqb k "radius" then radius self
  else if String.eqb k "diameter" then diameter self
  else Err (AttributeError k).

(** [SilkArc.pcb_repr(tx, ty)] *)
Definition pcb_repr (G : gmap string binding) (self : t) (tx ty : value)
    : res pcb_record :=
  u1 ← call_global G "SilkArc" "__mil_to_unit" (py_add (x self) tx);
  u2 ← call_global G "SilkArc" "__mil_to_unit" (py_add (y self) ty);
  u3 ← call_global G "SilkArc" "__mil_to_unit" (Ok (x_radius self));
  u4 ← call_global G "SilkArc" "__mil_to_unit" (Ok (y_radius self));
  u5 ← call_global G "SilkArc" "__mil_to_unit" (Ok (thickness self));
  sa ← fmt_d (start_angle self);
  da ← fmt_d (delta_angle self);
  Ok (ElementArc u1 u2 u3 u4 sa da u5).
End SilkArc.

(** ** The heap

    Shapes are objects: a footprint holds references to them, and so does
    the [base] keyword.  An object's address is its index in the heap. *)

Inductive obj :=
| OPad (a : gmap string value)
| OPin (a : gmap string value)
| OLine (s : SilkLine.t)
| OPolyline (p : SilkPolyline.t)
| OArc (c : SilkArc.t).

(** Attribute access on an object, for the data attributes and properties
    the library reads: the constructor keys, [x], [y] and [name]. *)
Definition obj_getattr (o : obj) (k : string) : res value :=
  match o with
  | OPad a => Pad.getattr a k
  | OPin a => Pin.getattr a k
  | OLine s => SilkLine.getattr s k
  | OPolyline _ => Err (AttributeError k)
  | OArc c => SilkArc.getattr c k
  end.

(** [v.k] on an arbitrary value. *)
Definition getattr (h : list obj) (v : value) (k : string) : res value :=
  match v with
  | VObj l =>
      match h !! l with
      | Some o => obj_getattr o k
      | None => Err (AttributeError k)
      end
  | _ => Err (AttributeError k)
  end.

(** [getattr(v, k, None)]: only [AttributeError] is replaced by the
    default. *)
Definition getattr3 (h : list obj) (v : value) (k : string) : res value :=
  match getattr h v k with
  | Err (AttributeError _) => Ok VNone
  | r => r
  end.

(** ** Footprint *)

(** How a call that touches the disk ends: it returns, it raises one of
    the exceptions above, or [open] fails with an [IOError]. *)
Inductive outcome :=
| Returned
| Raised (e : exn)
| IOFailed.

Inductive header :=
| Element (description name : value)
          (mark_x mark_y text_x text_y text_direction text_scale : Z).

Module Footprint.
Record t := mk {
  name : value; description : value;
  mark_x : value; mark_y : value;
  text_x : value; text_y : value;
  text_direction : value; text_scale : value;
  shapes : list nat;
  pinpadcounter : Z }.

(** [Footprint.__init__] *)
Definition init (name : value) (kw : gmap string value) : t :=
  mk name (default (VStr "") (kw !! "description"))
     (VNum (Int 0)) (VNum (Int 0)) (VNum (Int 0)) (VNum (Int 0))
     (VNum (Int 0)) (VNum (Int 100)) [] 1.

(** [self.shapes.append(s)] *)
Definition append (self : t) (l : nat) : t :=
  mk (name self) (description self) (mark_x self) (mark_y self)
     (text_x self) (text_y self) (text_direction self) (text_scale self)
     (shapes self ++ [l]) (pinpadcounter self).

(** [self.pinpadcounter += 1] *)
Definition count_up (self : t) : t :=
  mk (name self) (description self) (mark_x self) (mark_y self)
     (text_x self) (text_y self) (text_direction self) (text_scale self)
     (shapes self) (pinpadcounter self + 1).

Definition set_mark (self : t) (mx my : value) : t :=
  mk (name self) (description self) mx my
     (text_x self) (text_y self) (text_direction self) (text_scale self)
     (shapes self) (pinpadcounter self).

(** The keyword arguments as [add_pad] and [add_pin] pass them on. *)
Definition numbered (self : t) (kw : gmap string value) : gmap string value :=
  match kw !! "base" with
  | Some _ => kw
  | None =>
      <["number" := default (VNum (Int (pinpadcounter self))) (kw !! "number")]> kw
  end.

(** [add_pad]: returns the new pad, the footprint and the heap. *)
Definition add_pad (kw : gmap string value) (self : t) (h : list obj)
    : res (nat * t * list obj) :=
  pad ← Pad.init (getattr3 h) (numbered self kw);
  let l := length h in
  Ok (l, count_up (append self l), h ++ [OPad pad]).

(** [add_pin] *)
Definition add_pin (kw : gmap string value) (self : t) (h : list obj)
    : res (nat * t * list obj) :=
  pin ← Pin.init (getattr3 h) (numbered self kw);
  let l := length h in
  Ok (l, count_up (append self l), h ++ [OPin pin]).

(** [kwargs[k]] *)
Definition item (kw : gmap string value) (k : string) : res value :=
  match kw !! k with
  | Some v => Ok v
  | None => Err (KeyError k)
  end.

(** [d if not isinstance(d, tuple) else d[i % len(d)]] *)
Definition step (d : value) (i : nat) : res value :=
  match d with
  | VTuple l =>
      match length l with
      | O => Err ZeroDivisionError
      | S _ =>
          match l !! (i mod length l)%nat with
          | Some v => Ok v
          | None => Err IndexError
          end
      end
  | _ => Ok d
  end.

(** The loop [for i in range(0, count)] of [__add_shapes]: [n] iterations
    remain, [i] is the index of the next one. *)
Fixpoint add_shapes_loop
    (fn : gmap string value -> t -> list obj -> res (nat * t * list obj))
    (dx dy : value) (n i : nat) (added_shapes : list nat) (number : value)
    (kw : gmap string value) (self : t) (h : list obj)
    : res (list nat * t * list obj) :=
  match n with
  | O => Ok (added_shapes, self, h)
  | S n =>
      let kw := <["number" := number]> kw in
      '(l, self, h) ← fn kw self h;
      let added_shapes := added_shapes ++ [l] in
      x ← item kw "x"; sx ← step dx i; x ← py_add x sx;
      let kw := <["x" := x]> kw in
      y ← item kw "y"; sy ← step dy i; y ← py_add y sy;
      let kw := <["y" := y]> kw in
      number ← py_add number (VNum (Int 1));
      add_shapes_loop fn dx dy n (S i) added_shapes number kw self h
  end.

(** [__add_shapes] *)
Definition add_shapes (count : nat)
    (fn : gmap string value -> t -> list obj -> res (nat * t * list obj))
    (kw : gmap string value) (self : t) (h : list obj)
    : res (list nat * t * list obj) :=
  let number := default (VNum (Int (pinpadcounter self))) (kw !! "number") in
  let dx := default (VNum (Int 0)) (kw !! "dx") in
  let dy := default (VNum (Int 0)) (kw !! "dy") in
  add_shapes_loop fn dx dy count 0 [] number kw self h.

(** [add_pads] and [add_pins] *)
Definition add_pads (count : nat) (kw : gmap string value) (self : t) (h : list obj) :=
  add_shapes count add_pad kw self h.
Definition add_pins (count : nat) (kw : gmap string value) (self : t) (h : list obj) :=
  add_shapes count add_pin kw self h.

(** [add_line], [add_polyline], [add_arc] *)
Definition add_line (x1 y1 x2 y2 : value) (kw : gmap string value)
    (self : t) (h : list obj) : nat * t * list obj :=
  let l := length h in
  (l, append self l, h ++ [OLine (SilkLine.init x1 y1 x2 y2 kw)]).

Definition add_polyline (points : list (value * value)) (kw : gmap string value)
    (self : t) (h : list obj) : res (nat * t * list obj) :=
  pline ← SilkPolyline.init points kw;
  let l := length h in
  Ok (l, append self l, h ++ [OPolyline pline]).

Definition add_arc (x y : value) (kw : gmap string value)
    (self : t) (h : list obj) : res (nat * t * list obj) :=
  arc ← SilkArc.init x y kw;
  let l := length h in
  Ok (l, append self l, h ++ [OArc arc]).

(** [mark(pin_or_pad)] *)
Definition mark (pin_or_pad : value) (self : t) (h : list obj) : res t :=
  mx ← getattr h pin_or_pad "x";
  my ← getattr h pin_or_pad "y";
  Ok (set_mark self mx my).

(** [s.pcb_repr(tx, ty)] for a shape of the footprint: the records of
    the shape, one but for a polyline. *)
Definition shape_pcb_repr (G : gmap string binding) (h : list obj) (o : obj)
    (tx ty : value) : res (list pcb_record) :=
  match o with
  | OPad a => r ← Pad.pcb_repr G a tx ty; Ok [r]
  | OPin a => r ← Pin.pcb_repr G (getattr h) a tx ty; Ok [r]
  | OLine s => r ← SilkLine.pcb_repr G s tx ty; Ok [r]
  | OPolyline p => SilkPolyline.pcb_repr G p tx ty
  | OArc c => r ← SilkArc.pcb_repr G c tx ty; Ok [r]
  end.

(** The generator [s.pcb_repr(-self.mark_x, -self.mark_y) for s in
    self.shapes]. *)
Fixpoint body (G : gmap string binding) (h : list obj) (self : t)
    (ls : list nat) : res (list (list pcb_record)) :=
  match ls with
  | [] => Ok []
  | l :: ls =>
      o ← match h !! l with Some o => Ok o | None => Err TypeError end;
      tx ← py_neg (mark_x self);
      ty ← py_neg (mark_y self);
      r ← shape_pcb_repr G h o tx ty;
      rs ← body G h self ls;
      Ok (r :: rs)
  end.

(** [Footprint.__str__]: the header record and, per shape, its records. *)
Definition str (G : gmap string binding) (self : t) (h : list obj)
    : res (header * list (list pcb_record)) :=
  mx ← call_global G "Footprint" "__mil_to_unit" (Ok (mark_x self));
  my ← call_global G "Footprint" "__mil_to_unit" (Ok (mark_y self));
  tx ← call_global G "Footprint" "__mil_to_unit" (Ok (text_x self));
  ty ← call_global G "Footprint" "__mil_to_unit" (Ok (text_y self));
  td ← fmt_d (text_direction self);
  ts ← fmt_d (text_scale self);
  b ← body G h self (shapes self);
  Ok (Element (description self) (name self) mx my tx ty td ts, b).

(** [Footprint.__getitem__(number)]: the first shape, in insertion order,
    whose [getattr(s, "number", None)] equals [number]; [None] when the
    generator is exhausted. *)
Fixpoint first_numbered (h : list obj) (number : value) (ls : list nat)
    : res value :=
  match ls with
  | [] => Ok VNone
  | l :: ls =>
      n ← getattr3 h (VObj l) "number";
      if py_eq n number then Ok (VObj l) else first_numbered h number ls
  end.

Definition getitem (number : value) (self : t) (h : list obj) : res value :=
  first_numbered h number (shapes self).

(** Writing to disk.  The files are a map from paths to contents.  Three
    things come from outside the library: the text that the format strings
    make of the header and the records ([render]), what
    [os.path.splitext(sys.argv[0])[0] + ".fp"] evaluates to
    ([default_filename]), and whether [open(path, "w")] succeeds
    ([writable]). *)
Section Persistence.
Variable render : header * list (list pcb_record) -> string.
Variable default_filename : string.
Variable writable : string -> bool.

(** [Footprint.write(filename=None)]: the file is opened, which creates or
    empties it, before the footprint is converted to text. *)
Definition write (G : gmap string binding) (filename : value) (self : t)
    (h : list obj) (fs : gmap string string) : gmap string string * outcome :=
  let filename := if is_none filename then VStr default_filename else filename in
  match filename with
  | VStr path =>
      if writable path then
        let fs := <[path := ""]> fs in
        match str G self h with
        | Ok r => (<[path := render r]> fs, Returned)
        | Err e => (fs, Raised e)
        end
      else (fs, IOFailed)
  | _ => (fs, Raised TypeError)
  end.

(** [Footprint.__exit__(type, value, traceback)]; [type] is the exception
    the body of the [with] statement raised, if any.  The method returns
    [None] in every case. *)
Definition exit_ (G : gmap string binding) (type : option exn) (self : t)
    (h : list obj) (fs : gmap string string) : gmap string string * outcome :=
  match type with
  | Some _ => (fs, Returned)
  | None =>
      if py_truthy (name self) then
        match py_add (name self) (VStr ".fp") with
        | Ok filename => write G filename self h fs
        | Err e => (fs, Raised e)
        end
      else (fs, Returned)
  end.

(** The statement [with Footprint(name, ...) as f: body]: [__enter__]
    hands the new footprint to the body; [__exit__] runs on the way out, and
    since it returns [None] an exception of the body is raised again. *)
Definition with_footprint (G : gmap string binding) (name : value)
    (kw : gmap string value) (body : t -> list obj -> res (t * list obj))
    (h : list obj) (fs : gmap string string) : gmap string string * outcome :=
  let f := init name kw in
  match body f h with
  | Ok (f, h) => exit_ G None f h fs
  | Err e =>
      let '(fs, o) := exit_ G (Some e) f h fs in
      (fs, match o with Returned => Raised e | _ => o end)
  end.
End Persistence.
End Footprint.

(** * Specification-side definitions *)

(** The chain of segments through [p] and then [pts], each of thickness
    [th]. *)
Fixpoint chain (th : value) (p : value * value) (pts : list (value * value))
    : list SilkLine.t :=
  match pts with
  | [] => []
  | q :: rest => SilkLine.mk p.1 p.2 q.1 q.2 th :: chain th q rest
  end.

(** What a polyline through [points] is made of: the chain, and when
    closed the segment from the last point back to the first. *)
Definition polyline_segments (th : value) (closed : bool)
    (points : list (value * value)) : list SilkLine.t :=
  match points with
  | [] => []
  | p :: rest =>
      chain th p rest ++
      (if closed then [SilkLine.mk (List.last rest p).1 (List.last rest p).2 p.1 p.2 th]
       else [])
  end.

(** [closed=True] was passed. *)
Definition is_closed (kw : gmap string value) : bool :=
  match kwargs_get kw "closed" with VBool true => true | _ => false end.

(** A pad whose four stored coordinates are numbers. *)
Definition resolved (a : gmap string value) (L W T H : num) : Prop :=
  a !! "left" = Some (VNum L) /\ a !! "width" = Some (VNum W) /\
  a !! "top" = Some (VNum T) /\ a !! "height" = Some (VNum H).

(** A number that is [k/2] exactly and small enough to be a double: an
    int or a half-integer float of magnitude below [2^52]. *)
Definition on_grid (n : num) (k : Z) : Prop :=
  (Z.abs k < 2 ^ 53)%Z /\ (num_Q n == k # 2)%Q.

(** An int that lengths in mils stay far below. *)
Definition small (z : Z) : Prop := (Z.abs z <= 2 ^ 50)%Z.

(** [n / 2.] and [between(a, b)] on numbers. *)
Definition half (n : num) : num := Float (rnd (num_F n / 2)).
Definition midpoint (a b : num) : num :=
  num_add a (num_mul (num_sub b a) (Float (1 # 2))).

(** The names of the properties of a pad and of a pin. *)
Definition pad_property (k : string) : bool :=
  String.eqb k "right" || String.eqb k "x" || String.eqb k "bottom" || String.eqb k "y".
Definition pin_property (k : string) : bool :=
  String.eqb k "left" || String.eqb k "right" || String.eqb k "top" || String.eqb k "bottom".

(** The dictionary a pad, and a pin, starts from, before any keyword is applied. *)
Definition Pad_blank : gmap string value := <["round" := VBool false]> Shape_init.
Definition Pin_blank : gmap string value := <["round" := VBool true]> Shape_init.

(** The two kinds of shape that take a [base] and a number; the
    initializer, assignment, heap object, inheritable keys and builder of
    each. *)
Inductive kind := KPad | KPin.

Definition shape_init (k : kind) :=
  match k with KPad => Pad.init | KPin => Pin.init end.
Definition shape_obj (k : kind) : gmap string value -> obj :=
  match k with KPad => OPad | KPin => OPin end.
Definition shape_keys (k : kind) : list string :=
  match k with KPad => Pad.inheritable_keys | KPin => Pin.keys end.
Definition add_shape (k : kind) :=
  match k with KPad => Footprint.add_pad | KPin => Footprint.add_pin end.

(** The conversion helper is reachable from inside class [cls]. *)
Definition resolves (G : gmap string binding) (cls : string) : Prop :=
  G !! mangle cls "__mil_to_unit" = Some (BUnary mil_to_unit).

(** A length in native units: [round(n * 100)]. *)
Definition units (n : num) : res Z := mil_to_unit (VNum n).

(** ** Array placement, in the words of the specification *)

(** A step is a number, or a non-empty tuple of numbers. *)
Definition is_num (v : value) : bool :=
  match v with VNum _ => true | _ => false end.
Definition is_step (d : value) : bool :=
  match d with
  | VNum _ => true
  | VTuple l => negb (Nat.eqb (length l) 0) && forallb is_num l
  | _ => false
  end.

(** The step taken after placing the shape of index [i]: the scalar, or
    the element of the tuple at [i] modulo its length. *)
Definition step_num (d : value) (i : nat) : num :=
  match d with
  | VNum n => n
  | VTuple l =>
      match l !! (i mod length l)%nat with
      | Some (VNum n) => n
      | _ => Int 0
      end
  | _ => Int 0
  end.

(** The coordinate of the shape of index [i]: the start plus the steps
    taken after the shapes before it. *)
Fixpoint position (d : value) (x0 : num) (i : nat) : num :=
  match i with
  | O => x0
  | S i => num_add (position d x0 i) (step_num d i)
  end.

(** The number of the shape of index [i] when the first is numbered [n]. *)
Fixpoint nth_number (n : num) (i : nat) : num :=
  match i with
  | O => n
  | S i => num_add (nth_number n i) (Int 1)
  end.

(** The keyword arguments of an array of pads give the size of the pads
    and place them by their centre; an array of pins needs nothing more
    than the centre. *)
Definition array_kwargs (kd : kind) (kw : gmap string value) : Prop :=
  match kd with
  | KPin => True
  | KPad =>
      (exists w, kw !! "width" = Some (VNum w)) /\
      (exists hh, kw !! "height" = Some (VNum hh)) /\
      kwargs_get kw "left" = VNone /\ kwargs_get kw "top" = VNone /\
      kwargs_get kw "right" = VNone /\ kwargs_get kw "bottom" = VNone
  end.

(** ** Scripts

    A script builds a footprint by a sequence of calls of its builder
    methods; each call sees the footprint and the heap the calls before it
    left. *)
Inductive call :=
| AddPad (kw : gmap string value)
| AddPin (kw : gmap string value)
| AddPads (count : nat) (kw : gmap string value)
| AddPins (count : nat) (kw : gmap string value)
| AddLine (x1 y1 x2 y2 : value) (kw : gmap string value)
| AddPolyline (points : list (value * value)) (kw : gmap string value)
| AddArc (x y : value) (kw : gmap string value)
| Mark (pin_or_pad : value).

Definition run_call (c : call) (f : Footprint.t) (h : list obj)
    : res (Footprint.t * list obj) :=
  match c with
  | AddPad kw => '(_, f, h) ← Footprint.add_pad kw f h; Ok (f, h)
  | AddPin kw => '(_, f, h) ← Footprint.add_pin kw f h; Ok (f, h)
  | AddPads n kw => '(_, f, h) ← Footprint.add_pads n kw f h; Ok (f, h)
  | AddPins n kw => '(_, f, h) ← Footprint.add_pins n kw f h; Ok (f, h)
  | AddLine x1 y1 x2 y2 kw =>
      let '(_, f, h) := Footprint.add_line x1 y1 x2 y2 kw f h in Ok (f, h)
  | AddPolyline pts kw => '(_, f, h) ← Footprint.add_polyline pts kw f h; Ok (f, h)
  | AddArc x y kw => '(_, f, h) ← Footprint.add_arc x y kw f h; Ok (f, h)
  | Mark v => f ← Footprint.mark v f h; Ok (f, h)
  end.

Fixpoint run (cs : list call) (f : Footprint.t) (h : list obj)
    : res (Footprint.t * list obj) :=
  match cs with
  | [] => Ok (f, h)
  | c :: cs => '(f, h) ← run_call c f h; run cs f h
  end.

(** The pads and pins among the objects of a heap. *)
Definition is_numbered (o : obj) : bool :=
  match o with OPad _ | OPin _ => true | _ => false end.

Definition numbered_count (objs : list obj) : nat :=
  length (List.filter is_numbered objs).

(** The number a shape answers with when it is looked up: what
    [getattr(s, "number", None)] reads. *)
Definition number_of (h : list obj) (l : nat) : value :=
  match getattr3 h (VObj l) "number" with Ok v => v | Err _ => VNone end.

(** A footprint after [n] shapes were appended from address [start] on,
    [k] of them pads or pins. *)
Definition grown (f : Footprint.t) (start n k : nat) : Footprint.t :=
  Footprint.mk (Footprint.name f) (Footprint.description f)
    (Footprint.mark_x f) (Footprint.mark_y f)
    (Footprint.text_x f) (Footprint.text_y f)
    (Footprint.text_direction f) (Footprint.text_scale f)
    (Footprint.shapes f ++ seq start n)
    (Footprint.pinpadcounter f + Z.of_nat k).

(** The keywords an initializer reads. *)
Definition accepted_keys (kd : kind) : list string :=
  "base" :: match kd with KPad => Pad.all_keys | KPin => Pin.keys end.

(** * Theorems *)

(** Membership of a literal key in one of the key lists, and a
    contradiction from an impossible membership. *)
Ltac key_in :=
  cbn [shape_keys]; unfold Pad.all_keys, Pad.inheritable_keys, Pin.keys;
  cbn [app]; rewrite !elem_of_cons; tauto.
Ltac key_out H :=
  revert H; cbn [shape_keys]; unfold Pad.all_keys, Pad.inheritable_keys, Pin.keys;
  cbn [app]; rewrite !elem_of_cons, elem_of_nil;
  intros H; repeat (destruct H as [H|H]; [discriminate|]); done.

(** ** Silkscreen shapes *)

Lemma SilkLine_init_thickness lx ly x y th :
  SilkLine.init lx ly x y (<["thickness" := th]> ∅) = SilkLine.mk lx ly x y th.
Proof. unfold SilkLine.init. by rewrite lookup_insert_eq. Qed.

Lemma last_default_irrelevant {A} (l : list A) : forall a d d',
  List.last (a :: l) d = List.last (a :: l) d'.
Proof.
  induction l as [|b l IH]; intros a d d'; [done|].
  change (List.last (a :: b :: l) d) with (List.last (b :: l) d).
  change (List.last (a :: b :: l) d') with (List.last (b :: l) d').
  apply IH.
Qed.

Lemma loop_chain th pts : forall segs lp,
  SilkPolyline.loop th pts segs (Some lp) =
  (segs ++ chain th lp pts, Some (List.last pts lp)).
Proof.
  induction pts as [|[x y] pts IH]; intros segs [lx ly]; simpl.
  - by rewrite app_nil_r.
  - rewrite SilkLine_init_thickness, IH, <- app_assoc. simpl.
    f_equal. f_equal. destruct pts; [done | apply last_default_irrelevant].
Qed.

Lemma chain_length th pts : forall p, length (chain th p pts) = length pts.
Proof. induction pts as [|q pts IH]; intros p; simpl; [done | by rewrite IH]. Qed.

Lemma chain_thickness th pts : forall p,
  Forall (fun s => SilkLine.thickness s = th) (chain th p pts).
Proof.
  induction pts as [|q pts IH]; intros p; simpl; constructor; [done | apply IH].
Qed.

(** C10: a SilkArc constructed without the keywords [start_angle] and
    [delta_angle] has start angle 0 and sweep 360, whatever the other
    keywords are; and construction succeeds whenever the [diameter] keyword,
    if given, is a number. *)
Theorem SilkArc_default_angles (x y : value) (kw : gmap string value) :
  kw !! "start_angle" = None ->
  kw !! "delta_angle" = None ->
  (forall arc, SilkArc.init x y kw = Ok arc ->
     SilkArc.start_angle arc = VNum (Int 0) /\
     SilkArc.delta_angle arc = VNum (Int 360)) /\
  (is_none (kwargs_get kw "diameter") = true \/
   is_Some (as_num (kwargs_get kw "diameter")) ->
   is_ok (SilkArc.init x y kw) = true).
Proof.
  intros Hs Hd. unfold SilkArc.init. rewrite Hs, Hd. simpl.
  split.
  - intros arc.
    destruct (is_none (kwargs_get kw "radius"));
      destruct (is_none (kwargs_get kw "diameter")); simpl.
    1,3: by intros [= <-].
    all: unfold SilkArc.set_diameter;
      destruct (py_div_float (kwargs_get kw "diameter") 2) as [r|e]; simpl;
      [by intros [= <-] | done].
  - intros [Hn | [n Hn]].
    + by rewrite Hn.
    + destruct (is_none (kwargs_get kw "diameter")); [done|].
      unfold SilkArc.set_diameter, py_div_float. by rewrite Hn.
Qed.

Lemma SilkArc_default_angles_witness :
  let kw : gmap string value := {["diameter" := VNum (Int 400)]} in
  (forall arc, SilkArc.init (VNum (Int 0)) (VNum (Int 0)) kw = Ok arc ->
     SilkArc.start_angle arc = VNum (Int 0) /\
     SilkArc.delta_angle arc = VNum (Int 360)) /\
  (is_none (kwargs_get kw "diameter") = true \/
   is_Some (as_num (kwargs_get kw "diameter")) ->
   is_ok (SilkArc.init (VNum (Int 0)) (VNum (Int 0)) kw) = true).
Proof.
  apply (SilkArc_default_angles (VNum (Int 0)) (VNum (Int 0))
           {["diameter" := VNum (Int 400)]}); reflexivity.
Defined.

(** C4, as stated, fails: a polyline of a single point is constructed
    without error, and holds no segment. *)
Lemma SilkPolyline_single_point_accepted :
  let points := [(VNum (Int 0), VNum (Int 0))] in
  (length points < 2)%nat /\
  SilkPolyline.init points ∅ = Ok (SilkPolyline.mk []).
Proof. split; [simpl; lia | reflexivity]. Qed.

(** C4, amended: from n >= 2 points the constructor returns the chain of
    n-1 segments of one thickness, and n segments when closed, the last one
    joining the last point to the first.  From fewer than 2 points it
    returns an empty polyline, unless [closed=True], where it raises
    [TypeError] (no point) or [IndexError] (one point). *)
Theorem SilkPolyline_init_spec (points : list (value * value))
    (kw : gmap string value) :
  let th := default SilkLine.default_thickness (kw !! "thickness") in
  let n := length points in
  ((2 <= n)%nat ->
     SilkPolyline.init points kw =
       Ok (SilkPolyline.mk (polyline_segments th (is_closed kw) points)) /\
     length (polyline_segments th (is_closed kw) points) =
       (if is_closed kw then n else n - 1)%nat /\
     Forall (fun s => SilkLine.thickness s = th)
       (polyline_segments th (is_closed kw) points)) /\
  ((n < 2)%nat ->
     SilkPolyline.init points kw =
       if is_closed kw
       then Err (match points with [] => TypeError | _ => IndexError end)
       else Ok (SilkPolyline.mk [])).
Proof.
  intros th n. subst n. split.
  - destruct points as [|p [|q rest]]; cbn [length]; [lia | lia | intros _].
    assert (Hinit : SilkPolyline.init (p :: q :: rest) kw =
      Ok (SilkPolyline.mk (polyline_segments th (is_closed kw) (p :: q :: rest)))).
    { unfold SilkPolyline.init. fold th.
      destruct p as [px py], q as [qx qy]. cbn [SilkPolyline.loop app].
      rewrite SilkLine_init_thickness, loop_chain. cbn [app].
      unfold is_closed, polyline_segments.
      destruct (kwargs_get kw "closed") as [|[]| | | |]; cbn [chain];
        rewrite ?app_nil_r; try done.
      destruct (List.last rest (qx, qy)) as [lx ly] eqn:Hl.
      cbn -[List.last]. rewrite SilkLine_init_thickness.
      rewrite (last_default_irrelevant rest (qx, qy) (px, py) (qx, qy)).
      replace (List.last ((qx, qy) :: rest) (qx, qy)) with (lx, ly); [done|].
      rewrite <- Hl. by destruct rest. }
    split; [exact Hinit|]. split.
    + unfold polyline_segments. rewrite length_app. cbn [chain length].
      rewrite chain_length. destruct (is_closed kw); simpl; lia.
    + unfold polyline_segments. apply Forall_app. split.
      * apply chain_thickness.
      * destruct (is_closed kw); by repeat constructor.
  - destruct points as [|[px py] [|q rest]]; simpl; [intros _ | intros _ | lia];
      unfold SilkPolyline.init, is_closed; simpl;
      by destruct (kwargs_get kw "closed") as [|[]| | | |].
Qed.

Lemma SilkPolyline_init_spec_witness :
  let pts := [(VNum (Int 0), VNum (Int 0)); (VNum (Int 1), VNum (Int 0));
              (VNum (Int 1), VNum (Int 1))] in
  let kw : gmap string value := {["closed" := VBool true]} in
  SilkPolyline.init pts kw =
    Ok (SilkPolyline.mk (polyline_segments (VNum (Int 10)) true pts)) /\
  length (polyline_segments (VNum (Int 10)) true pts) = 3%nat /\
  SilkPolyline.init [(VNum (Int 0), VNum (Int 0))] ∅ = Ok (SilkPolyline.mk []).
Proof.
  intros pts kw.
  destruct (SilkPolyline_init_spec pts kw) as [H2 _].
  destruct (H2 ltac:(simpl; lia)) as (Hi & Hl & _).
  destruct (SilkPolyline_init_spec [(VNum (Int 0), VNum (Int 0))] ∅) as [_ H1].
  specialize (H1 ltac:(simpl; lia)).
  split; [exact Hi|]. split; [exact Hl | exact H1].
Defined.

(** ** binary64: what rounding leaves exact *)

(** [e] evaluated: the hypothesis [H : e = v] with [v] the value of [e]. *)
Ltac evaluated e H :=
  let v := eval vm_compute in e in
  assert (H : e = v) by (vm_compute; reflexivity).

(** Linear arithmetic over the bounds of the grid, quotients by 2
    included. *)
Ltac bnd :=
  unfold small in *;
  change (2 ^ 50)%Z with 1125899906842624%Z in *;
  change (2 ^ 52)%Z with 4503599627370496%Z in *;
  change (2 ^ 53)%Z with 9007199254740992%Z in *;
  Z.to_euclidean_division_equations; lia.

Lemma log2_floor_sound n d :
  (if (0 <=? log2_floor n d)%Z
   then Zpos d * 2 ^ log2_floor n d <= Zpos n
   else Zpos d <= Zpos n * 2 ^ (- log2_floor n d))%Z.
Proof.
  unfold log2_floor.
  destruct (Z.log2_spec (Zpos n)) as [Hn1 Hn2]; [done|].
  destruct (Z.log2_spec (Zpos d)) as [Hd1 Hd2]; [done|].
  pose proof (Z.log2_nonneg (Zpos n)) as Ha.
  pose proof (Z.log2_nonneg (Zpos d)) as Hb.
  set (a := Z.log2 (Zpos n)) in *. set (b := Z.log2 (Zpos d)) in *.
  rewrite Z.pow_succ_r in Hn2, Hd2 by done.
  destruct (Z.leb_spec 0 (a - b)) as [Hc|Hc].
  - destruct (Z.leb_spec (Zpos d * 2 ^ (a - b)) (Zpos n)) as [Ht|Ht].
    + destruct (Z.leb_spec 0 (a - b)); [done|lia].
    + destruct (Z.leb_spec 0 (a - b - 1)) as [Hc'|Hc'].
      * replace a with (b + 1 + (a - b - 1))%Z in Hn1 by lia.
        rewrite Z.pow_add_r, Z.pow_add_r, Z.pow_1_r in Hn1 by lia.
        assert (0 < 2 ^ (a - b - 1))%Z by (apply Z.pow_pos_nonneg; lia).
        nia.
      * replace (- (a - b - 1))%Z with 1%Z by lia.
        replace a with b in Hn1 by lia. lia.
  - destruct (Z.leb_spec (Zpos d) (Zpos n * 2 ^ (- (a - b)))) as [Ht|Ht].
    + destruct (Z.leb_spec 0 (a - b)); [lia|done].
    + destruct (Z.leb_spec 0 (a - b - 1)); [lia|].
      replace (- (a - b - 1))%Z with (b - a + 1)%Z by lia.
      replace (b + 1)%Z with (a + (b - a + 1))%Z in Hd2 at 1 by lia.
      replace (2 * 2 ^ b)%Z with (2 ^ (a + (b - a + 1)))%Z in Hd2.
      2:{ replace (a + (b - a + 1))%Z with (Z.succ b) by lia.
          by rewrite Z.pow_succ_r. }
      rewrite Z.pow_add_r in Hd2 by lia.
      assert (0 < 2 ^ (b - a + 1))%Z by (apply Z.pow_pos_nonneg; lia).
      nia.
Qed.

Lemma ulp_exp_le n d s :
  (0 <= s <= 1074)%Z -> (Zpos n * 2 ^ s < 2 ^ 53 * Zpos d)%Z ->
  (ulp_exp n d <= - s)%Z.
Proof.
  intros Hs Hlt. unfold ulp_exp. apply Z.max_lub; [|lia].
  pose proof (log2_floor_sound n d) as Hc.
  set (c := log2_floor n d) in *.
  assert (0 < 2 ^ s)%Z by (apply Z.pow_pos_nonneg; lia).
  destruct (Z.leb_spec 0 c) as [H0|H0].
  - assert (2 ^ (c + s) < 2 ^ 53)%Z as Hp.
    { rewrite Z.pow_add_r by lia.
      assert (0 < 2 ^ c)%Z by (apply Z.pow_pos_nonneg; lia). nia. }
    apply Z.pow_lt_mono_r_iff in Hp; lia.
  - assert (2 ^ s < 2 ^ (53 - c))%Z as Hp.
    { replace (53 - c)%Z with (53 + - c)%Z by lia. rewrite Z.pow_add_r by lia.
      assert (0 < 2 ^ (- c))%Z by (apply Z.pow_pos_nonneg; lia). nia. }
    apply Z.pow_lt_mono_r_iff in Hp; lia.
Qed.

Lemma div_half_even_mult m D : (0 < D)%Z -> div_half_even (m * D) D = m.
Proof.
  intros HD. unfold div_half_even.
  rewrite Z.div_mul, Z.mod_mul by lia.
  by destruct (Z.compare_spec (2 * 0)%Z D); try lia.
Qed.

Lemma rnd_at_exact e q k s :
  (0 <= s)%Z -> (e <= - s)%Z ->
  (Qnum q * 2 ^ s = k * Zpos (Qden q))%Z ->
  rnd_at e q == q.
Proof.
  intros Hs He Hq. unfold rnd_at.
  assert (0 < 2 ^ s)%Z as Hps by (apply Z.pow_pos_nonneg; lia).
  destruct (Z.leb_spec 0 e) as [H0|H0].
  - assert (e = 0%Z) as -> by lia. assert (s = 0%Z) as -> by lia.
    rewrite Z.pow_0_r, !Z.mul_1_r in *. rewrite Hq, div_half_even_mult by done.
    unfold Qeq. cbn. lia.
  - assert (0 < 2 ^ (- e))%Z as Hpe by (apply Z.pow_pos_nonneg; lia).
    assert (Hpow : (2 ^ (- e) = 2 ^ s * 2 ^ (- e - s))%Z).
    { rewrite <- Z.pow_add_r by lia. f_equal. lia. }
    replace (Qnum q * 2 ^ (- e))%Z with (k * 2 ^ (- e - s) * Zpos (Qden q))%Z.
    2:{ rewrite Hpow, Z.mul_assoc, Hq. ring. }
    rewrite div_half_even_mult by done.
    unfold Qeq. cbn [Qnum Qden]. rewrite Z2Pos.id by done.
    rewrite Hpow, (Z.mul_assoc (Qnum q)), Hq. ring.
Qed.

Lemma rnd_comp q q' : q == q' -> rnd q = rnd q'.
Proof. intros E. unfold rnd. by rewrite (Qred_complete q q' E). Qed.

#[export] Instance rnd_proper : Proper (Qeq ==> Qeq) rnd.
Proof. intros q q' E. by rewrite (rnd_comp q q' E). Qed.

(** A rational with at most 53 significant bits above the least exponent
    is a double: rounding returns it. *)
Lemma rnd_exact q k s :
  (0 <= s <= 1074)%Z -> (Z.abs k < 2 ^ 53)%Z ->
  q == k # Z.to_pos (2 ^ s) -> rnd q == q.
Proof.
  intros Hs Hk Hq. unfold rnd.
  assert (0 < 2 ^ s)%Z as Hps by (apply Z.pow_pos_nonneg; lia).
  assert (Hq' : Qred q == k # Z.to_pos (2 ^ s)) by (by rewrite Qred_correct).
  assert (Heq : (Qnum (Qred q) * 2 ^ s = k * Zpos (Qden (Qred q)))%Z).
  { unfold Qeq in Hq'. cbn [Qnum Qden] in Hq'. by rewrite Z2Pos.id in Hq'. }
  destruct (Qnum (Qred q)) as [|n|n] eqn:En.
  - rewrite <- (Qred_correct q). unfold Qeq. rewrite En. reflexivity.
  - etransitivity; [apply Qred_correct|].
    etransitivity; [|apply (Qred_correct q)].
    apply (rnd_at_exact _ _ k s); [lia| |by rewrite En].
    apply ulp_exp_le; [done|]. rewrite Heq. nia.
  - etransitivity; [apply Qred_correct|].
    etransitivity; [|apply (Qred_correct q)].
    apply (rnd_at_exact _ _ k s); [lia| |by rewrite En].
    apply ulp_exp_le; [done|].
    replace (Zpos n) with (- Zneg n)%Z by lia. 
    replace (- Z.neg n * 2 ^ s)%Z with (- (Z.neg n * 2 ^ s))%Z by lia.
    rewrite Heq. nia.
Qed.


(** On the samples, [rnd] returns what the machine returns, for the four
    operations; among them are halves in the last place, subnormal
    results, an overflow and the operations of the examples below. *)
Example rnd_is_binary64 :
  forallb (fun p => agrees PrimFloat.add Qplus p.1 p.2) samples = true /\
  forallb (fun p => agrees PrimFloat.sub Qminus p.1 p.2) samples = true /\
  forallb (fun p => agrees PrimFloat.mul Qmult p.1 p.2) samples = true /\
  forallb (fun p => agrees PrimFloat.div Qdiv p.1 p.2) samples = true.
Proof. repeat split; vm_compute; reflexivity. Qed.

Lemma rnd_half_int q k : q == k # 2 -> (Z.abs k < 2 ^ 53)%Z -> rnd q == k # 2.
Proof.
  intros E Hk. transitivity q; [|exact E]. by apply (rnd_exact q k 1).
Qed.

Lemma rnd_int z : (Z.abs z < 2 ^ 53)%Z -> rnd (inject_Z z) == inject_Z z.
Proof. intros Hz. by apply (rnd_exact _ z 0). Qed.

(** ** Numbers on the grid of halves *)

Lemma grid_F n k : on_grid n k -> num_F n == num_Q n.
Proof.
  intros [Hk E]. destruct n as [z|q]; cbn [num_F num_Q] in *; [|reflexivity].
  apply rnd_int. unfold Qeq in E. cbn in E. lia.
Qed.

Lemma grid_Q n k : on_grid n k -> num_Q n == k # 2.
Proof. by intros [_ E]. Qed.

Lemma grid_Int z : (Z.abs z < 2 ^ 52)%Z -> on_grid (Int z) (2 * z).
Proof. intros Hz. split; [lia|]. unfold Qeq. cbn. lia. Qed.

Lemma grid_add a b ka kb :
  on_grid a ka -> on_grid b kb -> (Z.abs (ka + kb) < 2 ^ 53)%Z ->
  on_grid (num_add a b) (ka + kb).
Proof.
  intros Ha Hb Hk. split; [done|].
  assert (E : num_Q a + num_Q b == (ka + kb) # 2).
  { rewrite (grid_Q _ _ Ha), (grid_Q _ _ Hb). unfold Qeq. cbn. lia. }
  assert (E' : rnd (num_F a + num_F b) == (ka + kb) # 2).
  { apply rnd_half_int; [|done]. by rewrite (grid_F _ _ Ha), (grid_F _ _ Hb). }
  destruct a as [x|p], b as [y|q]; cbn [num_add num_Q]; try exact E'.
  rewrite <- E. cbn. by rewrite inject_Z_plus.
Qed.

Lemma grid_sub a b ka kb :
  on_grid a ka -> on_grid b kb -> (Z.abs (ka - kb) < 2 ^ 53)%Z ->
  on_grid (num_sub a b) (ka - kb).
Proof.
  intros Ha Hb Hk. split; [done|].
  assert (E : num_Q a - num_Q b == (ka - kb) # 2).
  { rewrite (grid_Q _ _ Ha), (grid_Q _ _ Hb). unfold Qeq. cbn. lia. }
  assert (E' : rnd (num_F a - num_F b) == (ka - kb) # 2).
  { apply rnd_half_int; [|done]. by rewrite (grid_F _ _ Ha), (grid_F _ _ Hb). }
  destruct a as [x|p], b as [y|q]; cbn [num_sub num_Q]; try exact E'.
  rewrite <- E. cbn. unfold Z.sub. by rewrite inject_Z_plus, inject_Z_opp.
Qed.

(** Half an int, as [n / 2.] computes it, and half a whole number, as
    [n * 0.5] computes it. *)
Lemma grid_half z : (Z.abs z < 2 ^ 53)%Z -> on_grid (half (Int z)) z.
Proof.
  intros Hz. split; [done|]. unfold half. cbn [num_Q num_F].
  apply rnd_half_int; [|done]. rewrite (rnd_int z Hz).
  unfold Qeq. cbn. lia.
Qed.

Lemma grid_mul_half a k :
  on_grid a k -> (k mod 2 = 0)%Z -> on_grid (num_mul a (Float (1 # 2))) (k / 2).
Proof.
  intros Ha Hk. assert (Hz : (Z.abs (k / 2) < 2 ^ 53)%Z) by (destruct Ha; bnd).
  split; [done|].
  assert (E : rnd (num_F a * (1 # 2)) == (k / 2) # 2).
  { apply rnd_half_int; [|done]. rewrite (grid_F _ _ Ha), (grid_Q _ _ Ha).
    unfold Qeq. cbn. bnd. }
  by destruct a.
Qed.

Lemma grid_double a k :
  on_grid a k -> (Z.abs (2 * k) < 2 ^ 53)%Z -> on_grid (num_mul a (Int 2)) (2 * k).
Proof.
  intros Ha Hk. split; [done|].
  assert (E : num_Q a * 2 == (2 * k) # 2).
  { destruct Ha as [_ ->]. unfold Qeq. cbn. lia. }
  destruct a as [x|p]; cbn [num_mul num_Q num_F].
  - rewrite <- E. cbn. by rewrite inject_Z_mult.
  - apply rnd_half_int; [|done]. rewrite <- E.
    by change (rnd (inject_Z 2)) with (inject_Z 2).
Qed.

Lemma on_grid_eq n k k' : on_grid n k -> k = k' -> on_grid n k'.
Proof. by intros H <-. Qed.

(** Deriving [on_grid e ?k] along the arithmetic of [e]; the bounds are
    left to [lia]. *)
Ltac grid :=
  lazymatch goal with
  | |- on_grid (Int _) _ => apply grid_Int; bnd
  | |- on_grid (half (Int _)) _ => apply grid_half; bnd
  | |- on_grid (midpoint _ _) _ => unfold midpoint; grid
  | |- on_grid (num_add _ _) _ => eapply grid_add; [grid | grid | bnd]
  | |- on_grid (num_sub _ _) _ => eapply grid_sub; [grid | grid | bnd]
  | |- on_grid (num_mul _ (Float (1 # 2))) _ => eapply grid_mul_half; [grid | bnd]
  | |- on_grid (num_mul _ (Int 2)) _ => eapply grid_double; [grid | bnd]
  end.

(** The exact value of an expression over small ints: [num_Q e == k/2]. *)
Ltac grid_value k :=
  transitivity (k # 2);
  [ apply grid_Q; eapply on_grid_eq; [grid | bnd]
  | unfold Qeq, Qdiv, Qplus, Qminus, Qopp, Qmult, Qinv; cbn; lia ].

(** ** Rounding to an integer *)

Lemma div_half_even_bounds N D :
  (0 < D)%Z ->
  (D * (2 * div_half_even N D - 1) <= 2 * N <= D * (2 * div_half_even N D + 1))%Z.
Proof.
  intros HD. unfold div_half_even.
  pose proof (Z.div_mod N D ltac:(lia)) as E.
  pose proof (Z.mod_pos_bound N D HD) as Hr.
  destruct (Z.compare_spec (2 * (N mod D))%Z D) as [Hc|Hc|Hc];
    [destruct (Z.even (N / D)%Z)|..]; nia.
Qed.

Lemma div_half_even_opp N D :
  (0 < D)%Z -> div_half_even (- N) D = (- div_half_even N D)%Z.
Proof.
  intros HD. unfold div_half_even.
  destruct (Z.eq_dec (N mod D)%Z 0%Z) as [Hz|Hnz].
  - rewrite Z.div_opp_l_z, Z.mod_opp_l_z, Hz by lia.
    by destruct (Z.compare_spec (2 * 0)%Z D); try lia.
  - rewrite Z.div_opp_l_nz, Z.mod_opp_l_nz by lia.
    pose proof (Z.mod_pos_bound N D HD) as Hr.
    destruct (Z.compare_spec (2 * (N mod D))%Z D) as [Hc|Hc|Hc];
      destruct (Z.compare_spec (2 * (D - N mod D))%Z D) as [Hc'|Hc'|Hc']; try lia.
    replace (- (N / D) - 1)%Z with (- (N / D + 1))%Z by lia.
    rewrite Z.even_opp, Z.even_add. cbn.
    destruct (Z.even (N / D)%Z); cbn; lia.
Qed.

Lemma py_round_comp q q' : q == q' -> py_round q = py_round q'.
Proof. intros E. unfold py_round. by rewrite (Qred_complete q q' E). Qed.

Lemma py_round_bounds q :
  (q - (1 # 2) <= inject_Z (py_round q) <= q + (1 # 2))%Q.
Proof.
  unfold py_round.
  pose proof (div_half_even_bounds (Qnum (Qred q)) (Zpos (Qden (Qred q))) ltac:(done))
    as [H1 H2].
  set (u := div_half_even _ _) in *. clearbody u.
  assert (H : (Qred q - (1 # 2) <= inject_Z u <= Qred q + (1 # 2))%Q).
  { destruct (Qred q) as [n d]. cbn [Qnum Qden] in *.
    unfold Qle, Qminus, Qplus, Qopp. cbn. split; nia. }
  by rewrite (Qred_correct q) in H.
Qed.

Lemma py_round_Z k : py_round (inject_Z k) = k.
Proof.
  destruct (py_round_bounds (inject_Z k)) as [H1 H2].
  revert H1 H2. generalize (py_round (inject_Z k)). intros r.
  unfold Qle, Qminus, Qplus, Qopp. cbn. lia.
Qed.

Lemma py_round_opp q : py_round (- q) = (- py_round q)%Z.
Proof.
  unfold py_round. rewrite Qred_opp. cbn. by apply div_half_even_opp.
Qed.

(** A half is rounded to the even neighbour. *)
Lemma div_half_even_tie N D :
  (0 < D)%Z ->
  (2 * (D * div_half_even N D - N) = D \/ 2 * (N - D * div_half_even N D) = D)%Z ->
  Z.even (div_half_even N D) = true.
Proof.
  intros HD. unfold div_half_even.
  pose proof (Z.div_mod N D ltac:(lia)) as E.
  pose proof (Z.mod_pos_bound N D HD) as Hr.
  destruct (Z.compare_spec (2 * (N mod D))%Z D) as [Hc|Hc|Hc].
  - intros _. destruct (Z.even (N / D)%Z) eqn:Ev; [done|].
    by rewrite Z.even_add, Ev.
  - intros [Hq|Hq]; nia.
  - intros [Hq|Hq]; nia.
Qed.

Lemma py_round_tie q :
  (Qabs (inject_Z (py_round q) - q) == 1 # 2)%Q -> Z.even (py_round q) = true.
Proof.
  unfold py_round. intros Ht. apply div_half_even_tie; [done|].
  set (u := div_half_even _ _) in *. clearbody u.
  rewrite <- (Qred_correct q) in Ht.
  destruct (Qred q) as [n d]. cbn [Qnum Qden].
  revert Ht. apply Qabs_case; intros _ Ht; [left|right];
    unfold Qeq, Qminus, Qplus, Qopp in Ht; cbn in Ht; nia.
Qed.

Lemma rnd_at_opp e q : rnd_at e (- q) = (- rnd_at e q)%Q.
Proof.
  unfold rnd_at. cbn [Qopp Qnum Qden].
  destruct (Z.leb_spec 0 e) as [He|He].
  - rewrite div_half_even_opp.
    + unfold inject_Z, Qopp. cbn. f_equal. lia.
    + assert (0 < 2 ^ e)%Z by (apply Z.pow_pos_nonneg; lia). lia.
  - rewrite Z.mul_opp_l, div_half_even_opp by done. reflexivity.
Qed.

Lemma rnd_opp q : rnd (- q) = (- rnd q)%Q.
Proof.
  unfold rnd. rewrite Qred_opp.
  destruct (Qred q) as [[|n|n] d]; [done|..].
  - change (Qred (rnd_at (ulp_exp n d) (- (Zpos n # d))) =
            (- Qred (rnd_at (ulp_exp n d) (Zpos n # d)))%Q).
    by rewrite rnd_at_opp, Qred_opp.
  - change (Qred (rnd_at (ulp_exp n d) (- (Zneg n # d))) =
            (- Qred (rnd_at (ulp_exp n d) (Zneg n # d)))%Q).
    by rewrite rnd_at_opp, Qred_opp.
Qed.

Lemma finite_comp q q' : q == q' -> finite q = finite q'.
Proof.
  intros E. unfold finite. f_equal.
  destruct (Qle_bool _ (Qabs q)) eqn:H1, (Qle_bool _ (Qabs q')) eqn:H2; try done.
  - apply Qle_bool_iff in H1. rewrite E in H1. apply Qle_bool_iff in H1. congruence.
  - apply Qle_bool_iff in H2. rewrite <- E in H2. apply Qle_bool_iff in H2. congruence.
Qed.

Lemma finite_opp q : finite (- q) = finite q.
Proof.
  unfold finite. f_equal.
  destruct (Qle_bool _ (Qabs (- q))) eqn:H1, (Qle_bool _ (Qabs q)) eqn:H2; try done.
  - apply Qle_bool_iff in H1. rewrite Qabs_opp in H1. apply Qle_bool_iff in H1. congruence.
  - apply Qle_bool_iff in H2. rewrite <- Qabs_opp in H2. apply Qle_bool_iff in H2. congruence.
Qed.

Lemma between_num a b :
  between (VNum a) (VNum b) t_default = Ok (VNum (midpoint a b)).
Proof. reflexivity. Qed.

(** ** Initializers *)

Lemma apply_kwargs_app setattr kw keys1 : forall keys2 self,
  apply_kwargs setattr kw (keys1 ++ keys2) self =
  (self ← apply_kwargs setattr kw keys1 self; apply_kwargs setattr kw keys2 self).
Proof.
  induction keys1 as [|k keys1 IH]; intros keys2 self; [done|].
  cbn [app apply_kwargs].
  destruct (if is_none (kwargs_get kw k) then Ok self
            else setattr self k (kwargs_get kw k)) as [self1|e]; [|done].
  apply IH.
Qed.

(** Over keys that are stored as they are, the keyword loop writes each
    keyword that is not [None] and leaves the rest of the dictionary. *)
Lemma apply_kwargs_plain setattr kw keys :
  (forall k, k ∈ keys -> forall self v, setattr self k v = Ok (<[k := v]> self)) ->
  forall self : gmap string value, exists self' : gmap string value,
    apply_kwargs setattr kw keys self = Ok self' /\
    forall k, self' !! k =
      if bool_decide (k ∈ keys) && negb (is_none (kwargs_get kw k))
      then Some (kwargs_get kw k) else self !! k.
Proof.
  induction keys as [|key keys IH]; intros Hplain self.
  - exists self. split; [done|]. intros k. by rewrite bool_decide_eq_false_2 by set_solver.
  - cbn [apply_kwargs].
    set (self1 := if is_none (kwargs_get kw key) then self
                  else <[key := kwargs_get kw key]> self).
    assert (E : (if is_none (kwargs_get kw key) then Ok self
                 else setattr self key (kwargs_get kw key)) = Ok self1).
    { subst self1. destruct (is_none (kwargs_get kw key)); [done|].
      apply Hplain. set_solver. }
    rewrite E.
    destruct (IH (fun k Hk => Hplain k (proj2 (elem_of_cons _ _ _) (or_intror Hk))) self1) as (self' & Hrun & Hlook).
    exists self'. split; [exact Hrun|].
    intros k. rewrite Hlook. subst self1.
    destruct (decide (k = key)) as [->|Hne].
    + rewrite (bool_decide_eq_true_2 (key ∈ key :: keys)) by set_solver.
      destruct (is_none (kwargs_get kw key)) eqn:Hn; simpl.
      * by rewrite andb_false_r.
      * rewrite andb_true_r, lookup_insert_eq. by destruct (bool_decide (key ∈ keys)).
    + assert (Hiff : bool_decide (k ∈ key :: keys) = bool_decide (k ∈ keys)).
      { apply bool_decide_ext. rewrite elem_of_cons. tauto. }
      rewrite Hiff.
      destruct (bool_decide (k ∈ keys) && negb (is_none (kwargs_get kw k))); [done|].
      destruct (is_none (kwargs_get kw key)); [done|].
      by rewrite lookup_insert_ne.
Qed.

Lemma Pad_setattr_plain k self v :
  pad_property k = false -> Pad.setattr self k v = Ok (<[k := v]> self).
Proof.
  unfold pad_property, Pad.setattr. intros H.
  destruct (String.eqb k "right"), (String.eqb k "x"), (String.eqb k "bottom"),
    (String.eqb k "y"); done.
Qed.

Lemma Pin_setattr_plain k self v :
  pin_property k = false -> Pin.setattr self k v = Ok (<[k := v]> self).
Proof.
  unfold pin_property, Pin.setattr. intros H.
  destruct (String.eqb k "left"), (String.eqb k "right"), (String.eqb k "top"),
    (String.eqb k "bottom"); done.
Qed.

Lemma Pad_getattr_plain k self :
  pad_property k = false ->
  Pad.getattr self k =
    match self !! k with
    | Some v => Ok v
    | None => if String.eqb k "clearance" then Ok Pad.clearance
              else Err (AttributeError k)
    end.
Proof.
  unfold pad_property, Pad.getattr. intros H.
  destruct (String.eqb k "right"), (String.eqb k "x"), (String.eqb k "bottom"),
    (String.eqb k "y"); done.
Qed.

Lemma Pin_getattr_plain k self :
  pin_property k = false ->
  Pin.getattr self k =
    match self !! k with
    | Some v => Ok v
    | None => if String.eqb k "clearance" then Ok Pin.clearance
              else if String.eqb k "mask_offset" then Ok Pin.mask_offset
              else Err (AttributeError k)
    end.
Proof.
  unfold pin_property, Pin.getattr. intros H.
  destruct (String.eqb k "left"), (String.eqb k "right"), (String.eqb k "top"),
    (String.eqb k "bottom"); done.
Qed.

Lemma inheritable_keys_plain k :
  k ∈ Pad.inheritable_keys -> pad_property k = false.
Proof.
  unfold Pad.inheritable_keys. rewrite !elem_of_cons, elem_of_nil.
  intros H. repeat (destruct H as [->|H]; [reflexivity|]). done.
Qed.

Lemma Pin_keys_plain k : k ∈ Pin.keys -> pin_property k = false.
Proof.
  unfold Pin.keys. rewrite !elem_of_cons, elem_of_nil.
  intros H. repeat (destruct H as [->|H]; [reflexivity|]). done.
Qed.

(** A pad built without a base and without derived keywords stores the
    keywords among [left, width, top, height, number, name, round] that are
    not [None]. *)
Lemma Pad_init_stored g kw :
  kwargs_get kw "base" = VNone ->
  kwargs_get kw "right" = VNone -> kwargs_get kw "x" = VNone ->
  kwargs_get kw "bottom" = VNone -> kwargs_get kw "y" = VNone ->
  exists a : gmap string value, Pad.init g kw = Ok a /\
    forall k, a !! k =
      if bool_decide (k ∈ Pad.inheritable_keys) && negb (is_none (kwargs_get kw k))
      then Some (kwargs_get kw k) else Pad_blank !! k.
Proof.
  intros Hb Hr Hx Hbo Hy.
  unfold Pad.init, init_from. rewrite Hb. cbn [is_none mbind res_bind].
  unfold Pad.all_keys. rewrite apply_kwargs_app.
  destruct (apply_kwargs_plain Pad.setattr kw Pad.inheritable_keys
              (fun k Hk self v => Pad_setattr_plain k self v (inheritable_keys_plain k Hk))
              Pad_blank) as (a & Hrun & Hlook).
  fold Pad_blank. rewrite Hrun. cbn [mbind res_bind apply_kwargs].
  rewrite Hr, Hx, Hbo, Hy. cbn [is_none mbind res_bind].
  by exists a.
Qed.

(** ** Pads *)

Lemma Pad_blank_lookup k :
  Pad_blank !! k =
    if String.eqb k "round" then Some (VBool false)
    else if String.eqb k "number" then Some (VStr "")
    else if String.eqb k "name" then Some (VStr "")
    else None.
Proof.
  unfold Pad_blank, Shape_init.
  destruct (String.eqb_spec k "round") as [->|H1]; [by rewrite lookup_insert_eq|].
  rewrite lookup_insert_ne by done.
  destruct (String.eqb_spec k "number") as [->|H2]; [by rewrite lookup_insert_eq|].
  rewrite lookup_insert_ne by done.
  destruct (String.eqb_spec k "name") as [->|H3]; [by rewrite lookup_insert_eq|].
  by rewrite lookup_insert_ne.
Qed.

(** C3: the docstring of [Pad.__init__] lists [left] and [right] as a valid
    pair, but without a base the pad has no [width] attribute when the
    setter of [right] tests it: construction raises [AttributeError]. *)
Theorem Pad_left_right_raises (g : value -> string -> res value)
    (kw : gmap string value) :
  kwargs_get kw "base" = VNone ->
  kwargs_get kw "width" = VNone ->
  is_none (kwargs_get kw "right") = false ->
  Pad.init g kw = Err (AttributeError "width").
Proof.
  intros Hb Hw Hr.
  unfold Pad.init, init_from. rewrite Hb. cbn [is_none mbind res_bind].
  unfold Pad.all_keys. rewrite apply_kwargs_app.
  destruct (apply_kwargs_plain Pad.setattr kw Pad.inheritable_keys
              (fun k Hk self v => Pad_setattr_plain k self v (inheritable_keys_plain k Hk))
              Pad_blank) as (a & Hrun & Hlook).
  fold Pad_blank. rewrite Hrun. cbn [mbind res_bind apply_kwargs].
  rewrite Hr. cbn [Pad.setattr String.eqb Ascii.eqb Bool.eqb].
  unfold Pad.set_right, attr.
  rewrite (Hlook "width"), Hw, andb_false_r, Pad_blank_lookup. reflexivity.
Qed.

Lemma Pad_left_right_raises_witness :
  Pad.init (getattr3 [])
    (<["left" := VNum (Int 0)]> (<["right" := VNum (Int 10)]>
     (<["top" := VNum (Int 0)]> (<["height" := VNum (Int 5)]> ∅))))
  = Err (AttributeError "width").
Proof. apply Pad_left_right_raises; reflexivity. Defined.

Section ResolvedPad.
Variables (a : gmap string value) (L W T H : num).
Hypothesis Hres : resolved a L W T H.

Lemma resolved_right : Pad.right a = Ok (VNum (num_add L W)).
Proof. destruct Hres as (Hl & Hw & _). unfold Pad.right, attr. by rewrite Hl, Hw. Qed.

Lemma resolved_bottom : Pad.bottom a = Ok (VNum (num_add T H)).
Proof. destruct Hres as (_ & _ & Ht & Hh). unfold Pad.bottom, attr. by rewrite Ht, Hh. Qed.

Lemma resolved_x : Pad.x a = Ok (VNum (midpoint L (num_add L W))).
Proof.
  unfold Pad.x. rewrite resolved_right.
  destruct Hres as (Hl & _). unfold attr. by rewrite Hl.
Qed.

Lemma resolved_y : Pad.y a = Ok (VNum (midpoint T (num_add T H))).
Proof.
  unfold Pad.y. rewrite resolved_bottom.
  destruct Hres as (_ & _ & Ht & _). unfold attr. by rewrite Ht.
Qed.

Lemma resolved_segment :
  Pad.pcb_segment a =
    if negb (Qle_bool (num_Q W) (num_Q H)) then
      Ok (VNum (num_add L (half H)), VNum (midpoint T (num_add T H)),
          VNum (num_sub (num_add L W) (half H)), VNum (midpoint T (num_add T H)),
          VNum H)
    else
      Ok (VNum (midpoint L (num_add L W)), VNum (num_add T (half W)),
          VNum (midpoint L (num_add L W)), VNum (num_sub (num_add T H) (half W)),
          VNum W).
Proof.
  unfold Pad.pcb_segment.
  rewrite resolved_x, resolved_y, resolved_right, resolved_bottom.
  destruct Hres as (Hl & Hw & Ht & Hh). unfold attr.
  rewrite Hl, Hw, Ht, Hh. cbn [mbind res_bind py_gt as_num].
  by destruct (negb (Qle_bool (num_Q W) (num_Q H))).
Qed.
End ResolvedPad.

Lemma resolved_insert_left a L W T H l :
  resolved a L W T H -> resolved (<["left" := VNum l]> a) l W T H.
Proof.
  intros (Hl & Hw & Ht & Hh). unfold resolved.
  rewrite lookup_insert_eq, !lookup_insert_ne by done. done.
Qed.

Lemma resolved_set_x a L W T H V :
  resolved a L W T H ->
  Pad.setattr a "x" (VNum V) = Ok (<["left" := VNum (num_sub V (half W))]> a).
Proof.
  intros (_ & Hw & _). change (Pad.setattr a "x" (VNum V)) with (Pad.set_x a (VNum V)).
  unfold Pad.set_x, attr. by rewrite Hw.
Qed.

(** C7, as stated, fails on floats.  A pad with [left = 0.1] and
    [width = 0.2] has [right = 0.30000000000000004], so that [x], which
    reads 0.2, is not the midpoint of [left] and [right]; and after
    [x = 10.0] the left edge has moved by more than the right edge. *)
Lemma Pad_float_shift_unequal :
  let kw : gmap string value :=
    <["left" := VNum (lit 0.1)]> (<["width" := VNum (lit 0.2)]>
    (<["top" := VNum (Int 0)]> (<["height" := VNum (Int 1)]> ∅))) in
  exists a a' l r cx l' r',
    Pad.init (getattr3 []) kw = Ok a /\
    Pad.getattr a "left" = Ok (VNum l) /\ Pad.getattr a "right" = Ok (VNum r) /\
    Pad.getattr a "x" = Ok (VNum cx) /\
    ~ (num_Q cx == (num_Q l + num_Q r) / 2)%Q /\
    Pad.setattr a "x" (VNum (lit 10)) = Ok a' /\
    Pad.getattr a' "left" = Ok (VNum l') /\ Pad.getattr a' "right" = Ok (VNum r') /\
    (num_Q r' - num_Q r < num_Q l' - num_Q l)%Q.
Proof.
  intros kw.
  set (a := <["left" := VNum (lit 0.1)]> (<["width" := VNum (lit 0.2)]>
            (<["top" := VNum (Int 0)]> (<["height" := VNum (Int 1)]> Pad_blank)))
       : gmap string value).
  set (l' := num_sub (lit 10) (half (lit 0.2))).
  assert (Hres : resolved a (lit 0.1) (lit 0.2) (Int 0) (Int 1))
    by (repeat split; reflexivity).
  pose proof (resolved_insert_left a _ _ _ _ l' Hres) as Hres'.
  exists a, (<["left" := VNum l']> a), (lit 0.1), (num_add (lit 0.1) (lit 0.2)),
    (midpoint (lit 0.1) (num_add (lit 0.1) (lit 0.2))), l', (num_add l' (lit 0.2)).
  split; [vm_compute; reflexivity|].
  split; [reflexivity|].
  split; [exact (resolved_right _ _ _ _ _ Hres)|].
  split; [exact (resolved_x _ _ _ _ _ Hres)|].
  split; [by vm_compute|].
  split; [exact (resolved_set_x _ _ _ _ _ (lit 10) Hres)|].
  split; [rewrite Pad_getattr_plain by done; by rewrite (proj1 Hres')|].
  split; [exact (resolved_right _ _ _ _ _ Hres')|].
  by vm_compute.
Qed.

(** C7, amended.  A pad built from [left], [width], [top], [height]
    reads [right] and [bottom] as the sums [left + width] and
    [top + height], and [x] and [y] as [left + (right - left) * 0.5] and
    [top + (bottom - top) * 0.5], every operation on a float rounded to a
    double; assigning [x] stores [left = x - width/2.] and keeps [width],
    [top] and [height].  When the four values and the [x] assigned are small
    ints nothing is rounded: [right] and [bottom] are the exact sums, [x]
    and [y] the exact midpoints, [x] reads back the value assigned, and
    [left] and [right] have moved by one and the same amount. *)
Theorem Pad_derived_attributes (g : value -> string -> res value)
    (kw : gmap string value) (L W T H V : num) :
  kwargs_get kw "base" = VNone ->
  kw !! "left" = Some (VNum L) -> kw !! "width" = Some (VNum W) ->
  kw !! "top" = Some (VNum T) -> kw !! "height" = Some (VNum H) ->
  kwargs_get kw "right" = VNone -> kwargs_get kw "x" = VNone ->
  kwargs_get kw "bottom" = VNone -> kwargs_get kw "y" = VNone ->
  exists a, Pad.init g kw = Ok a /\
    Pad.getattr a "right" = Ok (VNum (num_add L W)) /\
    Pad.getattr a "bottom" = Ok (VNum (num_add T H)) /\
    Pad.getattr a "x" = Ok (VNum (midpoint L (num_add L W))) /\
    Pad.getattr a "y" = Ok (VNum (midpoint T (num_add T H))) /\
    (exists a' l' r' cx',
       Pad.setattr a "x" (VNum V) = Ok a' /\
       resolved a' l' W T H /\ l' = num_sub V (half W) /\
       Pad.getattr a' "right" = Ok (VNum r') /\
       Pad.getattr a' "x" = Ok (VNum cx') /\
       forall l w t h v,
         L = Int l -> W = Int w -> T = Int t -> H = Int h -> V = Int v ->
         small l -> small w -> small t -> small h -> small v ->
         num_add L W = Int (l + w) /\ num_add T H = Int (t + h) /\
         (num_Q (midpoint L (num_add L W)) ==
            (inject_Z l + inject_Z (l + w)) / 2)%Q /\
         (num_Q (midpoint T (num_add T H)) ==
            (inject_Z t + inject_Z (t + h)) / 2)%Q /\
         (num_Q cx' == inject_Z v)%Q /\
         (num_Q l' - inject_Z l == num_Q r' - inject_Z (l + w))%Q).
Proof.
  intros Hb Hl Hw Ht Hh Hr Hx Hbo Hy.
  destruct (Pad_init_stored g kw Hb Hr Hx Hbo Hy) as (a & Hinit & Hlook).
  assert (Hres : resolved a L W T H).
  { unfold resolved. rewrite !Hlook. unfold kwargs_get.
    rewrite Hl, Hw, Ht, Hh. done. }
  exists a. split; [done|].
  split; [exact (resolved_right a L W T H Hres)|].
  split; [exact (resolved_bottom a L W T H Hres)|].
  split; [exact (resolved_x a L W T H Hres)|].
  split; [exact (resolved_y a L W T H Hres)|].
  set (l' := num_sub V (half W)).
  pose proof (resolved_insert_left a L W T H l' Hres) as Hres'.
  exists (<["left" := VNum l']> a), l', (num_add l' W), (midpoint l' (num_add l' W)).
  split; [exact (resolved_set_x a L W T H V Hres)|].
  split; [exact Hres'|]. split; [done|].
  split; [exact (resolved_right _ _ _ _ _ Hres')|].
  split; [exact (resolved_x _ _ _ _ _ Hres')|].
  intros l w t h v -> -> -> -> -> Sl Sw St Sh Sv. subst l'.
  split; [done|]. split; [done|]. cbn [num_add].
  split; [grid_value (l + (l + w))%Z|].
  split; [grid_value (t + (t + h))%Z|].
  split; [grid_value (2 * v)%Z|].
  assert (El : (num_Q (num_sub (Int v) (half (Int w))) == (2 * v - w) # 2)%Q)
    by grid_value (2 * v - w)%Z.
  assert (Er : (num_Q (num_add (num_sub (Int v) (half (Int w))) (Int w)) ==
                (2 * v + w) # 2)%Q) by grid_value (2 * v + w)%Z.
  rewrite El, Er. unfold Qeq, Qminus, Qplus, Qopp. cbn. lia.
Qed.

Lemma Pad_derived_attributes_witness :
  exists a a' l' r' cx',
    Pad.init (getattr3 [])
      (<["left" := VNum (Int 10)]> (<["width" := VNum (Int 4)]>
       (<["top" := VNum (Int 0)]> (<["height" := VNum (Int 6)]> ∅)))) = Ok a /\
    Pad.getattr a "right" = Ok (VNum (Int 14)) /\
    Pad.getattr a "bottom" = Ok (VNum (Int 6)) /\
    Pad.setattr a "x" (VNum (Int 100)) = Ok a' /\
    Pad.getattr a' "right" = Ok (VNum r') /\
    Pad.getattr a' "x" = Ok (VNum cx') /\
    (num_Q cx' == 100)%Q /\
    l' = num_sub (Int 100) (half (Int 4)) /\
    (num_Q l' - 10 == num_Q r' - 14)%Q.
Proof.
  destruct (Pad_derived_attributes (getattr3 [])
    (<["left" := VNum (Int 10)]> (<["width" := VNum (Int 4)]>
     (<["top" := VNum (Int 0)]> (<["height" := VNum (Int 6)]> ∅))))
    (Int 10) (Int 4) (Int 0) (Int 6) (Int 100))
    as (a & Hi & Hr & Hb & _ & _ & a' & l' & r' & cx' & Hs & _ & Hl' & Hr' & Hx' & Hex);
    try reflexivity.
  destruct (Hex 10 4 0 6 100)%Z as (_ & _ & _ & _ & Ecx & Esh);
    try reflexivity; try (unfold small; lia).
  exists a, a', l', r', cx'. repeat split; assumption.
Defined.

(** ** Serialization under the module's own names *)

Lemma call_global_unbound cls arg :
  footprint_globals !! mangle cls "__mil_to_unit" = None ->
  call_global footprint_globals cls "__mil_to_unit" arg =
    Err (NameError (mangle cls "__mil_to_unit")).
Proof. intros H. unfold call_global, load_global. by rewrite H. Qed.

Lemma Pin_pcb_repr_raises g a tx ty :
  Pin.pcb_repr footprint_globals g a tx ty = Err (NameError "_Pin__mil_to_unit").
Proof.
  unfold Pin.pcb_repr. rewrite call_global_unbound by (vm_compute; reflexivity).
  reflexivity.
Qed.

Lemma Pad_pcb_repr_raises a tx ty :
  Pad.pcb_repr footprint_globals a tx ty = Err (NameError "_Pad__mil_to_unit") \/
  exists e, Pad.pcb_segment a ≫= (fun s => c ← Pad.getattr a "clearance"; py_add (s.2) c)
            = Err e /\
            Pad.pcb_repr footprint_globals a tx ty = Err e.
Proof.
  unfold Pad.pcb_repr.
  destruct (Pad.pcb_segment a) as [[[[[x1 y1] x2] y2] th]|e]; cbn [mbind res_bind snd];
    [|right; by exists e].
  destruct (Pad.getattr a "clearance") as [c|e]; cbn [mbind res_bind];
    [|right; by exists e].
  destruct (py_add th c) as [m|e]; cbn [mbind res_bind]; [|right; by exists e].
  left. rewrite call_global_unbound by (vm_compute; reflexivity). reflexivity.
Qed.

(** C9: no record, and so no flags field, is ever produced.  Inside
    class [Pin] the helper is looked up as [_Pin__mil_to_unit], inside class
    [Pad] as [_Pad__mil_to_unit]; the module binds neither, so [pcb_repr]
    raises [NameError] on every pin and on every resolved pad, and never
    returns on any pad. *)
Theorem pcb_repr_never_returns :
  (forall g a tx ty,
     Pin.pcb_repr footprint_globals g a tx ty = Err (NameError "_Pin__mil_to_unit")) /\
  (forall a tx ty, is_ok (Pad.pcb_repr footprint_globals a tx ty) = false) /\
  (forall a L W T H tx ty, resolved a L W T H -> a !! "clearance" = None ->
     Pad.pcb_repr footprint_globals a tx ty = Err (NameError "_Pad__mil_to_unit")).
Proof.
  split; [exact Pin_pcb_repr_raises|]. split.
  - intros a tx ty.
    destruct (Pad_pcb_repr_raises a tx ty) as [E | (e & _ & E)]; by rewrite E.
  - intros a L W T H tx ty Hres Hc. unfold Pad.pcb_repr.
    rewrite (resolved_segment a L W T H Hres).
    destruct (negb (Qle_bool (num_Q W) (num_Q H))); cbn [mbind res_bind];
      rewrite (Pad_getattr_plain "clearance") by done; rewrite Hc;
      cbn [mbind res_bind String.eqb];
      rewrite call_global_unbound by (vm_compute; reflexivity); reflexivity.
Qed.

Lemma pcb_repr_never_returns_witness :
  Pad.pcb_repr footprint_globals
    (<["left" := VNum (Int 0)]> (<["width" := VNum (Int 10)]>
     (<["top" := VNum (Int 0)]> (<["height" := VNum (Int 20)]> Pad_blank))))
    (VNum (Int 0)) (VNum (Int 0))
  = Err (NameError "_Pad__mil_to_unit").
Proof.
  apply (proj2 (proj2 pcb_repr_never_returns)) with
    (L := Int 0) (W := Int 10) (T := Int 0) (H := Int 20).
  - repeat split; reflexivity.
  - reflexivity.
Defined.

Lemma Footprint_str_raises f h :
  Footprint.str footprint_globals f h = Err (NameError "_Footprint__mil_to_unit").
Proof.
  unfold Footprint.str. rewrite call_global_unbound by (vm_compute; reflexivity).
  reflexivity.
Qed.

(** C8 on the module as it is: for a resolved pad [pcb_repr] computes the
    segment that the claim describes, horizontal and as thick as the height
    by the strict test [width > height], vertical and as thick as the width
    otherwise, equal sides included; and then raises [NameError] at the
    first conversion, so that no pad is serialized in either
    orientation. *)
Theorem Pad_pcb_repr_orientation_lost (a : gmap string value) (L W T H : num)
    (tx ty : value) :
  resolved a L W T H -> a !! "clearance" = None ->
  (exists cx cy, Pad.x a = Ok cx /\ Pad.y a = Ok cy /\
     Pad.pcb_segment a =
       Ok (if negb (Qle_bool (num_Q W) (num_Q H))
           then (VNum (num_add L (half H)), cy,
                 VNum (num_sub (num_add L W) (half H)), cy, VNum H)
           else (cx, VNum (num_add T (half W)),
                 cx, VNum (num_sub (num_add T H) (half W)), VNum W))) /\
  ((num_Q W == num_Q H)%Q -> Qle_bool (num_Q W) (num_Q H) = true) /\
  Pad.pcb_repr footprint_globals a tx ty = Err (NameError "_Pad__mil_to_unit").
Proof.
  intros Hres Hc. split; [|split].
  - exists (VNum (midpoint L (num_add L W))), (VNum (midpoint T (num_add T H))).
    split; [exact (resolved_x a L W T H Hres)|].
    split; [exact (resolved_y a L W T H Hres)|].
    rewrite (resolved_segment a L W T H Hres).
    by destruct (negb (Qle_bool (num_Q W) (num_Q H))).
  - intros E. apply Qle_bool_iff. rewrite E. apply Qle_refl.
  - unfold Pad.pcb_repr. rewrite (resolved_segment a L W T H Hres).
    destruct (negb (Qle_bool (num_Q W) (num_Q H))); cbn [mbind res_bind];
      rewrite (Pad_getattr_plain "clearance") by done; rewrite Hc;
      cbn [mbind res_bind String.eqb];
      rewrite call_global_unbound by (vm_compute; reflexivity); reflexivity.
Qed.

Lemma Pad_pcb_repr_orientation_lost_witness :
  let a : gmap string value :=
    <["left" := VNum (Int 0)]> (<["width" := VNum (Int 10)]>
    (<["top" := VNum (Int 0)]> (<["height" := VNum (Int 10)]> Pad_blank))) in
  (exists cx y1 y2, Pad.pcb_segment a = Ok (cx, y1, cx, y2, VNum (Int 10))) /\
  Pad.pcb_repr footprint_globals a (VNum (Int 0)) (VNum (Int 0)) =
    Err (NameError "_Pad__mil_to_unit").
Proof.
  intros a.
  destruct (Pad_pcb_repr_orientation_lost a (Int 0) (Int 10) (Int 0) (Int 10)
              (VNum (Int 0)) (VNum (Int 0)))
    as ((cx & cy & _ & _ & Hseg) & _ & Hrepr).
  - repeat split; reflexivity.
  - reflexivity.
  - split; [|exact Hrepr]. rewrite Hseg. by eexists _, _, _.
Defined.

(** C2 on the module as it is: take a new footprint, add one pad and mark
    it.  The footprint then holds that one pad, converting the footprint to
    text raises [NameError] before any record is formatted, and so does
    every attempt to serialize the pad itself, whatever the translation: no
    Pad record exists whose coordinates could be (0, 0). *)
Theorem marked_pad_never_serialized (name : value) (kwf kw : gmap string value)
    (l : nat) (f1 f2 : Footprint.t) (h1 : list obj) :
  Footprint.add_pad kw (Footprint.init name kwf) [] = Ok (l, f1, h1) ->
  Footprint.mark (VObj l) f1 h1 = Ok f2 ->
  Footprint.shapes f2 = [l] /\
  (exists a, h1 = [OPad a] /\
     forall tx ty, is_ok (Pad.pcb_repr footprint_globals a tx ty) = false) /\
  Footprint.str footprint_globals f2 h1 =
    Err (NameError "_Footprint__mil_to_unit").
Proof.
  unfold Footprint.add_pad.
  destruct (Pad.init _ _) as [a|e]; [|done]. cbn [mbind res_bind].
  intros [= <- <- <-]. unfold Footprint.mark.
  destruct (getattr _ _ "x") as [mx|e]; [|done]. cbn [mbind res_bind].
  destruct (getattr _ _ "y") as [my|e]; [|done]. cbn [mbind res_bind].
  intros [= <-]. split; [done|]. split; [|apply Footprint_str_raises].
  exists a. split; [done|]. intros tx ty.
  destruct (Pad_pcb_repr_raises a tx ty) as [E | (e & _ & E)]; by rewrite E.
Qed.

Lemma marked_pad_never_serialized_witness :
  exists l f1 h1 f2,
    Footprint.add_pad
      (<["x" := VNum (Int 0)]> (<["y" := VNum (Int 0)]>
       (<["width" := VNum (Int 100)]> (<["height" := VNum (Int 100)]> ∅))))
      (Footprint.init (VStr "P") ∅) [] = Ok (l, f1, h1) /\
    Footprint.mark (VObj l) f1 h1 = Ok f2 /\
    Footprint.mark_x f2 = VNum (Float 0) /\ Footprint.mark_y f2 = VNum (Float 0) /\
    Footprint.str footprint_globals f2 h1 =
      Err (NameError "_Footprint__mil_to_unit").
Proof.
  evaluated (Footprint.add_pad
      (<["x" := VNum (Int 0)]> (<["y" := VNum (Int 0)]>
       (<["width" := VNum (Int 100)]> (<["height" := VNum (Int 100)]> ∅))))
      (Footprint.init (VStr "P") ∅) []) Hadd.
  match type of Hadd with _ = Ok (?l, ?f1, ?h1) =>
    evaluated (Footprint.mark (VObj l) f1 h1) Hmark;
    match type of Hmark with _ = Ok ?f2 =>
      exists l, f1, h1, f2;
      split; [exact Hadd|]; split; [exact Hmark|];
      split; [reflexivity|]; split; [reflexivity|];
      exact (proj2 (proj2 (marked_pad_never_serialized _ _ _ l f1 f2 h1 Hadd Hmark)))
    end
  end.
Defined.

(** ** Inheritance from a base *)

Lemma copy_from_base_plain g setattr base keys (val : string -> value) :
  (forall k, k ∈ keys -> forall self v, setattr self k v = Ok (<[k := v]> self)) ->
  (forall k, k ∈ keys -> g base k = Ok (val k)) ->
  forall self : gmap string value, exists self' : gmap string value,
    copy_from_base g setattr base keys self = Ok self' /\
    forall k, self' !! k = if bool_decide (k ∈ keys) then Some (val k) else self !! k.
Proof.
  induction keys as [|key keys IH]; intros Hplain Hval self.
  - exists self. split; [done|]. intros k. by rewrite bool_decide_eq_false_2 by apply not_elem_of_nil.
  - cbn [copy_from_base].
    rewrite (Hval key) by (apply elem_of_cons; by left). cbn [mbind res_bind].
    rewrite (Hplain key) by (apply elem_of_cons; by left). cbn [mbind res_bind].
    destruct (IH (fun k Hk => Hplain k (proj2 (elem_of_cons _ _ _) (or_intror Hk)))
                 (fun k Hk => Hval k (proj2 (elem_of_cons _ _ _) (or_intror Hk)))
                 (<[key := val key]> self)) as (self' & Hrun & Hlook).
    exists self'. split; [exact Hrun|].
    intros k. rewrite Hlook.
    destruct (decide (k = key)) as [->|Hne].
    + rewrite (bool_decide_eq_true_2 (key ∈ key :: keys)) by (apply elem_of_cons; by left).
      rewrite lookup_insert_eq. by destruct (bool_decide (key ∈ keys)).
    + assert (Hiff : bool_decide (k ∈ key :: keys) = bool_decide (k ∈ keys)).
      { apply bool_decide_ext. rewrite elem_of_cons. tauto. }
      rewrite Hiff. by rewrite lookup_insert_ne.
Qed.

(** What [getattr(base, k, None)] reads from a pad or pin for one of its
    inheritable keys: the stored value, or [None] when there is none. *)
Lemma getattr3_stored kd h l a k :
  h !! l = Some (shape_obj kd a) -> k ∈ shape_keys kd ->
  getattr3 h (VObj l) k = Ok (default VNone (a !! k)).
Proof.
  intros Hl Hk. unfold getattr3, getattr. rewrite Hl.
  destruct kd; cbn [shape_obj obj_getattr shape_keys] in *.
  - rewrite Pad_getattr_plain by by apply inheritable_keys_plain.
    destruct (a !! k); [done|].
    replace (String.eqb k "clearance") with false; [done|].
    symmetry. apply String.eqb_neq. intros ->. key_out Hk.
  - rewrite Pin_getattr_plain by by apply Pin_keys_plain.
    destruct (a !! k); [done|].
    replace (String.eqb k "clearance") with false.
    2:{ symmetry. apply String.eqb_neq. intros ->. key_out Hk. }
    replace (String.eqb k "mask_offset") with false; [done|].
    symmetry. apply String.eqb_neq. intros ->. key_out Hk.
Qed.






(** ** Serialization once the helper resolves *)

Lemma call_global_resolved G cls arg :
  resolves G cls ->
  call_global G cls "__mil_to_unit" arg = (v ← arg; mil_to_unit v).
Proof. intros H. unfold call_global, load_global. unfold resolves in H. by rewrite H. Qed.

Lemma Pad_getattr_stored a k v :
  pad_property k = false -> a !! k = Some v -> Pad.getattr a k = Ok v.
Proof. intros Hk Hv. rewrite Pad_getattr_plain by done. by rewrite Hv. Qed.

Lemma Pad_getattr_clearance a :
  a !! "clearance" = None -> Pad.getattr a "clearance" = Ok (VNum (Int 1)).
Proof. intros Hc. rewrite Pad_getattr_plain by done. by rewrite Hc. Qed.

(** The record of a resolved pad, field by field. *)
Lemma resolved_pcb_repr G a L W T H tx ty nm nb rd :
  resolves G "Pad" -> resolved a L W T H -> a !! "clearance" = None ->
  a !! "name" = Some nm -> a !! "number" = Some nb -> a !! "round" = Some rd ->
  Pad.pcb_repr G a (VNum tx) (VNum ty) =
    if negb (Qle_bool (num_Q W) (num_Q H)) then
      u1 ← units (num_add (num_add L (half H)) tx);
      u2 ← units (num_add (midpoint T (num_add T H)) ty);
      u3 ← units (num_add (num_sub (num_add L W) (half H)) tx);
      u4 ← units (num_add (midpoint T (num_add T H)) ty);
      u5 ← units H; u6 ← units (Int 1); u7 ← units (num_add H (Int 1));
      Ok (PadRecord u1 u2 u3 u4 u5 u6 u7 nm nb (Pad.flags rd))
    else
      u1 ← units (num_add (midpoint L (num_add L W)) tx);
      u2 ← units (num_add (num_add T (half W)) ty);
      u3 ← units (num_add (midpoint L (num_add L W)) tx);
      u4 ← units (num_add (num_sub (num_add T H) (half W)) ty);
      u5 ← units W; u6 ← units (Int 1); u7 ← units (num_add W (Int 1));
      Ok (PadRecord u1 u2 u3 u4 u5 u6 u7 nm nb (Pad.flags rd)).
Proof.
  intros HG Hres Hc Hnm Hnb Hrd. unfold Pad.pcb_repr.
  rewrite (resolved_segment a L W T H Hres).
  rewrite (Pad_getattr_clearance a Hc), (Pad_getattr_stored a "name" nm),
    (Pad_getattr_stored a "number" nb), (Pad_getattr_stored a "round" rd) by done.
  destruct (negb (Qle_bool (num_Q W) (num_Q H)));
    cbn [mbind res_bind py_add as_num];
    rewrite !(call_global_resolved G "Pad") by done;
    reflexivity.
Qed.

(** An assignment to an attribute of a pad writes one entry of its
    dictionary: the attribute's, or the stored coordinate a property
    rewrites. *)
Lemma Pad_setattr_insert self k v self' :
  Pad.setattr self k v = Ok self' ->
  exists k' v', self' = <[k' := v']> self /\
    (k' = k \/ k' ∈ ["left"; "width"; "top"; "height"]).
Proof.
  unfold Pad.setattr, Pad.set_right, Pad.set_x, Pad.set_bottom, Pad.set_y, attr.
  unfold mbind, res_bind.
  intros E.
  repeat (case_match; simplify_eq);
    eexists _, _; (split; [reflexivity|]); rewrite ?elem_of_cons; tauto.
Qed.

Lemma apply_kwargs_inv (P : gmap string value -> Prop) setattr kw keys :
  (forall k self v self', k ∈ keys -> P self -> setattr self k v = Ok self' -> P self') ->
  forall self self', P self -> apply_kwargs setattr kw keys self = Ok self' -> P self'.
Proof.
  induction keys as [|key keys IH]; intros Hstep self self' HP.
  - by intros [= <-].
  - cbn [apply_kwargs].
    destruct (is_none (kwargs_get kw key)).
    + cbn [mbind res_bind]. apply IH; [|done].
      intros k s v s' Hk. apply Hstep. apply elem_of_cons. by right.
    + destruct (setattr self key (kwargs_get kw key)) as [s1|e] eqn:E; [|done].
      cbn [mbind res_bind]. apply IH.
      * intros k s v s' Hk. apply Hstep. apply elem_of_cons. by right.
      * eapply Hstep; [|exact HP|exact E]. apply elem_of_cons. by left.
Qed.

(** ** Array placement *)

Lemma nth_number_Int z i : nth_number (Int z) i = Int (z + Z.of_nat i).
Proof.
  induction i as [|i IH].
  - cbn. f_equal. lia.
  - cbn [nth_number]. rewrite IH. cbn. f_equal. lia.
Qed.

(** Counting up from a number on the grid is exact while the numbers stay
    doubles; beyond, a float number stops counting: 1e16 + 1 is 1e16. *)
Lemma grid_nth_number n k i :
  on_grid n k -> (Z.abs k + 2 * Z.of_nat i < 2 ^ 53)%Z ->
  on_grid (nth_number n i) (k + 2 * Z.of_nat i).
Proof.
  intros Hn. induction i as [|i IH]; intros Hi.
  - cbn [nth_number]. apply (on_grid_eq _ _ _ Hn). lia.
  - cbn [nth_number]. apply (on_grid_eq _ (k + 2 * Z.of_nat i + 2 * 1)); [|lia].
    apply grid_add; [apply IH; lia|apply grid_Int; bnd|bnd].
Qed.

Lemma num_Q_nth_number n k i :
  on_grid n k -> (Z.abs k + 2 * Z.of_nat i < 2 ^ 53)%Z ->
  (num_Q (nth_number n i) == num_Q n + inject_Z (Z.of_nat i))%Q.
Proof.
  intros Hn Hi. rewrite (grid_Q _ _ (grid_nth_number n k i Hn Hi)), (grid_Q _ _ Hn).
  unfold Qeq, Qplus. cbn. lia.
Qed.

Example float_number_stalls :
  nth_number (lit (inject_Z (10 ^ 16))) 1 = lit (inject_Z (10 ^ 16)).
Proof. by vm_compute. Qed.

Lemma step_is_step d i :
  is_step d = true -> Footprint.step d i = Ok (VNum (step_num d i)).
Proof.
  destruct d as [| | n | |l|]; try done. cbn [is_step Footprint.step step_num].
  intros [Hlen Hall]%andb_true_iff.
  destruct (length l) as [|k] eqn:El; [done|]. rewrite <- El.
  assert (Hlt : (i mod length l < length l)%nat).
  { apply Nat.mod_upper_bound. lia. }
  destruct (lookup_lt_is_Some_2 l _ Hlt) as [v Hv]. rewrite Hv.
  rewrite forallb_forall in Hall.
  assert (Hn : is_num v = true).
  { apply Hall. apply list_elem_of_In. by eapply list_elem_of_lookup_2. }
  by destruct v.
Qed.

(** Alternation: with a pair of steps, the shape of even index is followed
    by the first step and the shape of odd index by the second. *)
Lemma step_num_pair a b i :
  step_num (VTuple [VNum a; VNum b]) i = if Nat.even i then a else b.
Proof.
  cbn [step_num length].
  assert (E : (i mod 2)%nat = if Nat.even i then 0%nat else 1%nat).
  { destruct (Nat.even i) eqn:Ev.
    - apply Nat.even_spec in Ev as [k ->].
      rewrite Nat.mul_comm. apply Nat.Div0.mod_mul.
    - rewrite <- Nat.negb_odd in Ev. apply negb_false_iff in Ev.
      apply Nat.odd_spec in Ev as [k ->].
      rewrite Nat.add_comm, Nat.mul_comm, Nat.Div0.mod_add. reflexivity. }
  rewrite E. by destruct (Nat.even i).
Qed.

Lemma Pin_init_stored g kw :
  kwargs_get kw "base" = VNone ->
  exists a : gmap string value, Pin.init g kw = Ok a /\
    forall k, a !! k =
      if bool_decide (k ∈ Pin.keys) && negb (is_none (kwargs_get kw k))
      then Some (kwargs_get kw k) else Pin_blank !! k.
Proof.
  intros Hb. unfold Pin.init, init_from. rewrite Hb. cbn [is_none mbind res_bind].
  apply (apply_kwargs_plain Pin.setattr kw Pin.keys
           (fun k Hk self v => Pin_setattr_plain k self v (Pin_keys_plain k Hk))).
Qed.

(** One shape of an array: the initializer succeeds, the shape carries the
    number passed, and a pin the centre passed. *)
Lemma shape_init_array kd g kw m x y :
  kw !! "base" = None -> kw !! "number" = Some (VNum m) ->
  kw !! "x" = Some (VNum x) -> kw !! "y" = Some (VNum y) ->
  array_kwargs kd kw ->
  exists a : gmap string value, shape_init kd g kw = Ok a /\
    a !! "number" = Some (VNum m) /\
    (kd = KPin -> a !! "x" = Some (VNum x) /\ a !! "y" = Some (VNum y)).
Proof.
  intros Hb Hn Hx Hy Hkw.
  assert (Hb' : kwargs_get kw "base" = VNone) by (unfold kwargs_get; by rewrite Hb).
  destruct kd; cbn [shape_init array_kwargs] in *.
  - destruct Hkw as ([w Hw] & [hh Hh] & Hl & Ht & Hr & Hbo).
    unfold Pad.init, init_from. rewrite Hb'. cbn [is_none mbind res_bind].
    unfold Pad.all_keys. rewrite apply_kwargs_app.
    destruct (apply_kwargs_plain Pad.setattr kw Pad.inheritable_keys
                (fun k Hk self v => Pad_setattr_plain k self v (inheritable_keys_plain k Hk))
                (<["round" := VBool false]> Shape_init)) as (a1 & Hrun & Hlook).
    rewrite Hrun. cbn [mbind res_bind apply_kwargs].
    assert (Hx' : kwargs_get kw "x" = VNum x) by (unfold kwargs_get; by rewrite Hx).
    assert (Hy' : kwargs_get kw "y" = VNum y) by (unfold kwargs_get; by rewrite Hy).
    rewrite Hr, Hbo, Hx', Hy'.
    cbn [is_none mbind res_bind].
    assert (Hw1 : a1 !! "width" = Some (VNum w)).
    { rewrite Hlook. unfold kwargs_get. by rewrite Hw. }
    assert (Hh1 : a1 !! "height" = Some (VNum hh)).
    { rewrite Hlook. unfold kwargs_get. by rewrite Hh. }
    assert (Hn1 : a1 !! "number" = Some (VNum m)).
    { rewrite Hlook. unfold kwargs_get. by rewrite Hn. }
    change (Pad.setattr a1 "x" (VNum x)) with (Pad.set_x a1 (VNum x)).
    unfold Pad.set_x, attr. rewrite Hw1. cbn [mbind res_bind py_div_float as_num Qeq_bool].
    change (Qeq_bool 2 0) with false. cbn [mbind res_bind py_sub as_num].
    match goal with |- context [Pad.setattr ?s "y" ?v] =>
      change (Pad.setattr s "y" v) with (Pad.set_y s v) end.
    unfold Pad.set_y, attr. rewrite lookup_insert_ne by done. rewrite Hh1.
    cbn [mbind res_bind py_div_float as_num].
    change (Qeq_bool 2 0) with false. cbn [mbind res_bind py_sub as_num].
    eexists. split; [reflexivity|]. split; [|done].
    by rewrite !lookup_insert_ne.
  - destruct (Pin_init_stored g kw Hb') as (a & Hinit & Hlook).
    exists a. split; [done|]. rewrite !Hlook. unfold kwargs_get.
    rewrite Hn, Hx, Hy. done.
Qed.

Lemma array_kwargs_insert kd kw k v :
  k ∈ ["number"; "x"; "y"] -> array_kwargs kd kw -> array_kwargs kd (<[k := v]> kw).
Proof.
  intros Hk. destruct kd; [|done]. cbn [array_kwargs]. unfold kwargs_get.
  assert (Hne : forall k', k' ∈ ["width"; "height"; "left"; "top"; "right"; "bottom"] ->
            k <> k').
  { intros k' Hk' ->. revert Hk Hk'. rewrite !elem_of_cons, !elem_of_nil.
    intros H1 H2.
    repeat (destruct H1 as [H1|H1]; [subst; repeat (destruct H2 as [H2|H2]; [discriminate|]); done|]).
    done. }
  rewrite !lookup_insert_ne by (apply Hne; rewrite !elem_of_cons; tauto).
  done.
Qed.

Lemma numbered_id (self : Footprint.t) (kw : gmap string value) v :
  Footprint.numbered self (<["number" := v]> kw) = <["number" := v]> kw.
Proof.
  unfold Footprint.numbered.
  destruct (<["number" := v]> kw !! "base"); [done|].
  rewrite lookup_insert_eq. cbn [default]. apply insert_insert_eq.
Qed.

Lemma add_shape_unfold kd kw self h :
  add_shape kd kw self h =
    (a ← shape_init kd (getattr3 h) (Footprint.numbered self kw);
     Ok (length h, Footprint.count_up (Footprint.append self (length h)),
         h ++ [shape_obj kd a])).
Proof. by destruct kd. Qed.

(** The loop of [__add_shapes], started at index [i] with the number and
    the centre of that index: it places [n] shapes at the end of the heap,
    numbered and centred as the specification's sequences say, and counts
    up once for each. *)
Lemma add_shapes_loop_spec kd dx dy x0 y0 m0 :
  is_step dx = true -> is_step dy = true ->
  forall n i added kw self h,
    kw !! "base" = None ->
    kw !! "x" = Some (VNum (position dx x0 i)) ->
    kw !! "y" = Some (VNum (position dy y0 i)) ->
    array_kwargs kd kw ->
    exists objs self',
      Footprint.add_shapes_loop (add_shape kd) dx dy n i added
        (VNum (nth_number m0 i)) kw self h =
        Ok (added ++ seq (length h) n, self', h ++ objs) /\
      length objs = n /\
      Footprint.pinpadcounter self' = (Footprint.pinpadcounter self + Z.of_nat n)%Z /\
      Footprint.shapes self' = Footprint.shapes self ++ seq (length h) n /\
      forall j, (j < n)%nat -> exists a,
        objs !! j = Some (shape_obj kd a) /\
        a !! "number" = Some (VNum (nth_number m0 (i + j))) /\
        (kd = KPin ->
           a !! "x" = Some (VNum (position dx x0 (i + j))) /\
           a !! "y" = Some (VNum (position dy y0 (i + j)))).
Proof.
  intros Hdx Hdy. induction n as [|n IH]; intros i added kw self h Hb Hx Hy Hkw.
  - exists [], self. cbn [Footprint.add_shapes_loop seq length].
    rewrite !app_nil_r. repeat split; try done; try lia.
  - cbn [Footprint.add_shapes_loop].
    set (kw1 := <["number" := VNum (nth_number m0 i)]> kw).
    rewrite add_shape_unfold. subst kw1. rewrite numbered_id.
    set (kw1 := <["number" := VNum (nth_number m0 i)]> kw).
    assert (Hb1 : kw1 !! "base" = None) by (subst kw1; by rewrite lookup_insert_ne).
    assert (Hx1 : kw1 !! "x" = Some (VNum (position dx x0 i)))
      by (subst kw1; by rewrite lookup_insert_ne).
    assert (Hy1 : kw1 !! "y" = Some (VNum (position dy y0 i)))
      by (subst kw1; by rewrite lookup_insert_ne).
    assert (Hn1 : kw1 !! "number" = Some (VNum (nth_number m0 i)))
      by (subst kw1; by rewrite lookup_insert_eq).
    assert (Hkw1 : array_kwargs kd kw1).
    { apply array_kwargs_insert; [key_in | done]. }
    destruct (shape_init_array kd (getattr3 h) kw1 _ _ _ Hb1 Hn1 Hx1 Hy1 Hkw1)
      as (a & Hinit & Han & Hap).
    rewrite Hinit. cbn [mbind res_bind].
    unfold Footprint.item. rewrite Hx1. cbn [mbind res_bind].
    rewrite (step_is_step dx i Hdx). cbn [mbind res_bind py_add as_num].
    rewrite lookup_insert_ne by done. rewrite Hy1. cbn [mbind res_bind].
    rewrite (step_is_step dy i Hdy). cbn [mbind res_bind py_add as_num].
    set (kw3 := <["y" := VNum (num_add (position dy y0 i) (step_num dy i))]>
                (<["x" := VNum (num_add (position dx x0 i) (step_num dx i))]> kw1)).
    destruct (IH (S i) (added ++ [length h]) kw3
                (Footprint.count_up (Footprint.append self (length h)))
                (h ++ [shape_obj kd a]))
      as (objs & self' & Hrun & Hlen & Hcnt & Hsh & Hobjs).
    + subst kw3. by rewrite !lookup_insert_ne.
    + subst kw3. rewrite lookup_insert_ne by done. by rewrite lookup_insert_eq.
    + subst kw3. by rewrite lookup_insert_eq.
    + subst kw3. do 2 (apply array_kwargs_insert; [key_in|]). done.
    + exists (shape_obj kd a :: objs), self'.
      change (nth_number m0 (S i)) with (num_add (nth_number m0 i) (Int 1)) in Hrun.
      rewrite Hrun. rewrite length_app in *. cbn [length] in *.
      replace (length h + 1)%nat with (S (length h)) in * by lia.
      split; [|split; [|split; [|split]]].
      * cbn [seq]. by rewrite <- !app_assoc.
      * lia.
      * rewrite Hcnt. cbn. lia.
      * rewrite Hsh. cbn [Footprint.shapes Footprint.count_up Footprint.append seq].
        by rewrite <- app_assoc.
      * intros [|j] Hj.
        -- exists a. rewrite Nat.add_0_r. split; [done|]. split; [done|exact Hap].
        -- destruct (Hobjs j ltac:(lia)) as (a' & Ho & Hn' & Hp').
           exists a'. replace (i + S j)%nat with (S i + j)%nat by lia.
           split; [exact Ho|]. split; [exact Hn'|exact Hp'].
Qed.

(** Reading a stored attribute of a shape placed in the heap. *)
Lemma getattr_placed kd (h objs : list obj) j a k v :
  objs !! j = Some (shape_obj kd a) -> k ∈ shape_keys kd -> a !! k = Some v ->
  getattr (h ++ objs) (VObj (length h + j)) k = Ok v.
Proof.
  intros Ho Hk Hv. unfold getattr.
  rewrite lookup_app_r by lia.
  replace (length h + j - length h)%nat with j by lia. rewrite Ho.
  destruct kd; cbn [shape_obj obj_getattr shape_keys] in *.
  - rewrite Pad_getattr_plain by by apply inheritable_keys_plain. by rewrite Hv.
  - rewrite Pin_getattr_plain by by apply Pin_keys_plain. by rewrite Hv.
Qed.

Lemma number_in_keys kd : "number" ∈ shape_keys kd.
Proof.
  destruct kd; key_in.
Qed.

(** C1, as stated, fails: the three pads of the example are numbered 7, 8
    and 9, not 7, 7 and 7; the counter goes from 1 to 4. *)
Lemma add_pads_explicit_number_increments :
  exists added f' h',
    Footprint.add_pads 3
      (<["number" := VNum (Int 7)]> (<["x" := VNum (Int 0)]>
       (<["y" := VNum (Int 0)]> (<["dx" := VNum (Int 1)]>
       (<["width" := VNum (Int 1)]> (<["height" := VNum (Int 1)]> ∅))))))
      (Footprint.init (VStr "P") ∅) [] = Ok (added, f', h') /\
    map (fun l => getattr h' (VObj l) "number") added =
      [Ok (VNum (Int 7)); Ok (VNum (Int 8)); Ok (VNum (Int 9))] /\
    Footprint.pinpadcounter f' = 4%Z.
Proof.
  eexists _, _, _. split; [vm_compute; reflexivity|].
  split; vm_compute; reflexivity.
Qed.

(** C1, amended: an array placement that passes the number [n] (and no
    base) numbers the shape of index [j] with the result of adding 1 to [n]
    [j] times, which is [n + j] for an int [n] and for a float [n] as long as
    the sums are exact, and counts the footprint's counter up [count]
    times. *)
Theorem array_explicit_number (kd : kind) (count : nat)
    (kw : gmap string value) (f : Footprint.t) (h : list obj) (n x0 y0 : num) :
  kw !! "base" = None ->
  kw !! "number" = Some (VNum n) ->
  kw !! "x" = Some (VNum x0) -> kw !! "y" = Some (VNum y0) ->
  is_step (default (VNum (Int 0)) (kw !! "dx")) = true ->
  is_step (default (VNum (Int 0)) (kw !! "dy")) = true ->
  array_kwargs kd kw ->
  exists added f' h',
    Footprint.add_shapes count (add_shape kd) kw f h = Ok (added, f', h') /\
    length added = count /\
    Footprint.pinpadcounter f' = (Footprint.pinpadcounter f + Z.of_nat count)%Z /\
    forall j l, added !! j = Some l ->
      getattr h' (VObj l) "number" = Ok (VNum (nth_number n j)) /\
      (forall k, on_grid n k -> (Z.abs k + 2 * Z.of_nat j < 2 ^ 53)%Z ->
         (num_Q (nth_number n j) == num_Q n + inject_Z (Z.of_nat j))%Q) /\
      forall z, n = Int z -> nth_number n j = Int (z + Z.of_nat j).
Proof.
  intros Hb Hn Hx Hy Hdx Hdy Hkw.
  destruct (add_shapes_loop_spec kd _ _ x0 y0 n Hdx Hdy count 0 [] kw f h
              Hb Hx Hy Hkw) as (objs & f' & Hrun & Hlen & Hcnt & _ & Hobjs).
  cbn [nth_number app] in Hrun.
  assert (Hcall : Footprint.add_shapes count (add_shape kd) kw f h =
                  Ok (seq (length h) count, f', h ++ objs)).
  { unfold Footprint.add_shapes. rewrite Hn. exact Hrun. }
  rewrite Hcall.
  exists (seq (length h) count), f', (h ++ objs).
  split; [done|]. split; [by rewrite length_seq|]. split; [done|].
  intros j l Hl. apply lookup_seq in Hl as [-> Hj].
  destruct (Hobjs j Hj) as (a & Ho & Hna & _). cbn [Nat.add] in Hna.
  split; [|split].
  - by apply (getattr_placed kd h objs j a "number" _ Ho (number_in_keys kd)).
  - intros k. apply num_Q_nth_number.
  - intros z ->. apply nth_number_Int.
Qed.

Lemma array_explicit_number_witness :
  exists added f' h',
    Footprint.add_pads 3
      (<["number" := VNum (Int 7)]> (<["x" := VNum (Int 0)]>
       (<["y" := VNum (Int 0)]> (<["dx" := VNum (Int 1)]>
       (<["width" := VNum (Int 1)]> (<["height" := VNum (Int 1)]> ∅))))))
      (Footprint.init (VStr "P") ∅) [] = Ok (added, f', h') /\
    length added = 3%nat /\
    Footprint.pinpadcounter f' = (1 + 3)%Z.
Proof.
  destruct (array_explicit_number KPad 3
    (<["number" := VNum (Int 7)]> (<["x" := VNum (Int 0)]>
     (<["y" := VNum (Int 0)]> (<["dx" := VNum (Int 1)]>
     (<["width" := VNum (Int 1)]> (<["height" := VNum (Int 1)]> ∅))))))
    (Footprint.init (VStr "P") ∅) [] (Int 7) (Int 0) (Int 0))
    as (added & f' & h' & Hrun & Hlen & Hcnt & _); try reflexivity.
  - cbn [array_kwargs]. unfold kwargs_get.
    repeat split; try (eexists; reflexivity); reflexivity.
  - exists added, f', h'. split; [exact Hrun|]. split; [exact Hlen|exact Hcnt].
Defined.

Lemma position_pair a b x0 j :
  position (VTuple [VNum a; VNum b]) x0 (S j) =
  num_add (position (VTuple [VNum a; VNum b]) x0 j) (if Nat.even j then a else b).
Proof. cbn [position]. by rewrite step_num_pair. Qed.

(** A constructed pin stores every keyword of its key list that is not
    [None], whatever it inherited from a base. *)
Lemma Pin_init_lookup g kw a k :
  Pin.init g kw = Ok a -> k ∈ Pin.keys -> is_none (kwargs_get kw k) = false ->
  a !! k = Some (kwargs_get kw k).
Proof.
  unfold Pin.init, init_from. intros Hinit Hk Hv.
  destruct (if is_none (kwargs_get kw "base") then Ok (<["round" := VBool true]> Shape_init)
            else copy_from_base g Pin.setattr (kwargs_get kw "base") Pin.keys
                   (<["round" := VBool true]> Shape_init)) as [s1|e]; [|done].
  cbn [mbind res_bind] in Hinit.
  destruct (apply_kwargs_plain Pin.setattr kw Pin.keys
              (fun k Hk self v => Pin_setattr_plain k self v (Pin_keys_plain k Hk)) s1)
    as (a' & Hrun & Hlook).
  rewrite Hrun in Hinit. injection Hinit as <-.
  by rewrite Hlook, (bool_decide_eq_true_2 _ Hk), Hv.
Qed.

(** The loop of [__add_shapes] over pins, with or without a base: when it
    returns, the pins it placed are numbered and centred as the
    specification's sequences say. *)
Lemma add_pins_loop_sound dx dy x0 y0 m0 :
  is_step dx = true -> is_step dy = true ->
  forall n i added kw self h r,
    kw !! "x" = Some (VNum (position dx x0 i)) ->
    kw !! "y" = Some (VNum (position dy y0 i)) ->
    Footprint.add_shapes_loop Footprint.add_pin dx dy n i added
      (VNum (nth_number m0 i)) kw self h = Ok r ->
    exists objs self',
      r = (added ++ seq (length h) n, self', h ++ objs) /\
      length objs = n /\
      Footprint.pinpadcounter self' = (Footprint.pinpadcounter self + Z.of_nat n)%Z /\
      forall j, (j < n)%nat -> exists a,
        objs !! j = Some (OPin a) /\
        a !! "number" = Some (VNum (nth_number m0 (i + j))) /\
        a !! "x" = Some (VNum (position dx x0 (i + j))) /\
        a !! "y" = Some (VNum (position dy y0 (i + j))).
Proof.
  intros Hdx Hdy. induction n as [|n IH]; intros i added kw self h r Hx Hy.
  - cbn [Footprint.add_shapes_loop]. intros [= <-]. exists [], self.
    cbn [seq length]. rewrite !app_nil_r. repeat split; try done; try lia.
  - cbn [Footprint.add_shapes_loop].
    change Footprint.add_pin with (add_shape KPin).
    rewrite add_shape_unfold, numbered_id. cbn [shape_init shape_obj].
    set (kw1 := <["number" := VNum (nth_number m0 i)]> kw).
    assert (Hx1 : kw1 !! "x" = Some (VNum (position dx x0 i)))
      by (subst kw1; by rewrite lookup_insert_ne).
    assert (Hy1 : kw1 !! "y" = Some (VNum (position dy y0 i)))
      by (subst kw1; by rewrite lookup_insert_ne).
    assert (Hn1 : kw1 !! "number" = Some (VNum (nth_number m0 i)))
      by (subst kw1; by rewrite lookup_insert_eq).
    destruct (Pin.init (getattr3 h) kw1) as [a|e] eqn:Hinit; [|done].
    cbn [mbind res_bind].
    unfold Footprint.item. rewrite Hx1. cbn [mbind res_bind].
    rewrite (step_is_step dx i Hdx). cbn [mbind res_bind py_add as_num].
    rewrite lookup_insert_ne by done. rewrite Hy1. cbn [mbind res_bind].
    rewrite (step_is_step dy i Hdy). cbn [mbind res_bind py_add as_num].
    intros Hrun.
    change (num_add (nth_number m0 i) (Int 1)) with (nth_number m0 (S i)) in Hrun.
    apply IH in Hrun as (objs & self' & -> & Hlen & Hcnt & Hobjs).
    2:{ rewrite lookup_insert_ne by done. by rewrite lookup_insert_eq. }
    2:{ by rewrite lookup_insert_eq. }
    exists (OPin a :: objs), self'.
    rewrite length_app in *. cbn [length] in *.
    replace (length h + 1)%nat with (S (length h)) in * by lia.
    split; [|split; [|split]].
    + cbn [seq]. by rewrite <- !app_assoc.
    + lia.
    + rewrite Hcnt. cbn. lia.
    + intros [|j] Hj.
      * exists a. rewrite Nat.add_0_r. split; [done|].
        rewrite !(Pin_init_lookup _ _ _ _ Hinit) by
          (first [key_in | unfold kwargs_get; by rewrite ?Hn1, ?Hx1, ?Hy1]).
        unfold kwargs_get. by rewrite Hn1, Hx1, Hy1.
      * destruct (Hobjs j ltac:(lia)) as (a' & Ho & Hn' & Hp').
        exists a'. replace (i + S j)%nat with (S i + j)%nat by lia.
        split; [exact Ho|]. split; [exact Hn'|exact Hp'].
Qed.

(** The example of the source's documentation and of the specification:
    four pins at x = 0, 10, 20, 30 and y = 0, 5, 0, 5, numbered 1 to 4. *)
Example add_pins_example :
  exists added f' h',
    Footprint.add_pins 4
      (<["x" := VNum (Int 0)]> (<["y" := VNum (Int 0)]>
       (<["dx" := VNum (Int 10)]>
       (<["dy" := VTuple [VNum (Int 5); VNum (Int (-5))]]>
       (<["hole" := VNum (Int 1)]> (<["diameter" := VNum (Int 2)]> ∅))))))
      (Footprint.init (VStr "P") ∅) [] = Ok (added, f', h') /\
    map (fun l => getattr h' (VObj l) "x") added =
      [Ok (VNum (Int 0)); Ok (VNum (Int 10)); Ok (VNum (Int 20)); Ok (VNum (Int 30))] /\
    map (fun l => getattr h' (VObj l) "y") added =
      [Ok (VNum (Int 0)); Ok (VNum (Int 5)); Ok (VNum (Int 0)); Ok (VNum (Int 5))] /\
    map (fun l => getattr h' (VObj l) "number") added =
      [Ok (VNum (Int 1)); Ok (VNum (Int 2)); Ok (VNum (Int 3)); Ok (VNum (Int 4))] /\
    Footprint.pinpadcounter f' = 5%Z.
Proof.
  eexists _, _, _. split; [vm_compute; reflexivity|].
  repeat split; vm_compute; reflexivity.
Qed.

(** C5: take an array of pins placed without a number, from a numeric
    centre and by steps that are numbers or tuples of numbers.  When the call
    returns, and without a base it always does, the pin of index [j] is
    numbered with the counter's value plus [j] and centred at the start plus
    the steps taken after the pins before it; a pair of steps is taken
    alternately, its first element after the pins of even index and its
    second after those of odd index. *)
Theorem add_pins_auto_number (count : nat) (kw : gmap string value)
    (f : Footprint.t) (h : list obj) (x0 y0 : num) :
  let dx := default (VNum (Int 0)) (kw !! "dx") in
  let dy := default (VNum (Int 0)) (kw !! "dy") in
  kw !! "number" = None ->
  kw !! "x" = Some (VNum x0) -> kw !! "y" = Some (VNum y0) ->
  is_step dx = true -> is_step dy = true ->
  (forall added f' h',
     Footprint.add_pins count kw f h = Ok (added, f', h') ->
     length added = count /\
     Footprint.pinpadcounter f' = (Footprint.pinpadcounter f + Z.of_nat count)%Z /\
     forall j l, added !! j = Some l ->
       getattr h' (VObj l) "number" =
         Ok (VNum (Int (Footprint.pinpadcounter f + Z.of_nat j))) /\
       getattr h' (VObj l) "x" = Ok (VNum (position dx x0 j)) /\
       getattr h' (VObj l) "y" = Ok (VNum (position dy y0 j))) /\
  (kw !! "base" = None -> is_ok (Footprint.add_pins count kw f h) = true) /\
  (forall a b j, dx = VTuple [VNum a; VNum b] ->
     position dx x0 (S j) =
     num_add (position dx x0 j) (if Nat.even j then a else b)) /\
  (forall a b j, dy = VTuple [VNum a; VNum b] ->
     position dy y0 (S j) =
     num_add (position dy y0 j) (if Nat.even j then a else b)).
Proof.
  intros dx dy Hn Hx Hy Hdx Hdy.
  assert (Hcall : Footprint.add_pins count kw f h =
            Footprint.add_shapes_loop Footprint.add_pin dx dy count 0 []
              (VNum (nth_number (Int (Footprint.pinpadcounter f)) 0)) kw f h).
  { unfold Footprint.add_pins, Footprint.add_shapes. by rewrite Hn. }
  split; [|split; [|split]].
  - intros added f' h' Hrun. rewrite Hcall in Hrun.
    apply (add_pins_loop_sound dx dy x0 y0 _ Hdx Hdy) in Hrun
      as (objs & self' & [= -> -> ->] & Hlen & Hcnt & Hobjs); [|done..].
    cbn [app]. split; [by rewrite length_seq|]. split; [done|].
    intros j l Hl. apply lookup_seq in Hl as [-> Hj].
    destruct (Hobjs j Hj) as (a & Ho & Hna & Hxa & Hya). cbn [Nat.add] in *.
    rewrite nth_number_Int in Hna.
    repeat split;
      (eapply (getattr_placed KPin h objs j a); [exact Ho | key_in | done]).
  - intros Hb. rewrite Hcall.
    destruct (add_shapes_loop_spec KPin dx dy x0 y0 (Int (Footprint.pinpadcounter f))
                Hdx Hdy count 0 [] kw f h Hb Hx Hy I) as (objs & f' & Hrun & _).
    cbn [add_shape] in Hrun. by rewrite Hrun.
  - intros a b j ->. apply position_pair.
  - intros a b j ->. apply position_pair.
Qed.

Lemma add_pins_auto_number_witness :
  let kw : gmap string value :=
    <["x" := VNum (Int 0)]> (<["y" := VNum (Int 0)]>
    (<["dx" := VNum (Int 10)]>
    (<["dy" := VTuple [VNum (Int 5); VNum (Int (-5))]]>
    (<["hole" := VNum (Int 1)]> (<["diameter" := VNum (Int 2)]> ∅))))) in
  is_ok (Footprint.add_pins 4 kw (Footprint.init (VStr "P") ∅) []) = true /\
  forall added f' h',
    Footprint.add_pins 4 kw (Footprint.init (VStr "P") ∅) [] = Ok (added, f', h') ->
    length added = 4%nat /\
    (forall l, added !! 3%nat = Some l ->
       getattr h' (VObj l) "number" = Ok (VNum (Int 4)) /\
       getattr h' (VObj l) "x" = Ok (VNum (Int 30)) /\
       getattr h' (VObj l) "y" = Ok (VNum (Int 5))).
Proof.
  intros kw.
  destruct (add_pins_auto_number 4 kw (Footprint.init (VStr "P") ∅) []
              (Int 0) (Int 0)) as (Hsound & Hok & _); try reflexivity.
  split; [apply Hok; reflexivity|].
  intros added f' h' Hrun.
  destruct (Hsound added f' h' Hrun) as (Hlen & _ & Hat).
  split; [exact Hlen|]. intros l Hl. exact (Hat 3%nat l Hl).
Defined.

(** ** The flags the records would carry *)

Lemma Pad_flags_spec rd : Pad.flags rd = if py_truthy rd then 0%Z else 256%Z.
Proof. reflexivity. Qed.

Lemma Pin_flags_spec rd :
  Z.testbit (Pin.flags rd) 0 = true /\
  Z.land (Pin.flags rd) 256 = if py_truthy rd then 0%Z else 256%Z.
Proof. unfold Pin.flags. by destruct (py_truthy rd). Qed.

Lemma Pin_getattr_stored a k v :
  pin_property k = false -> a !! k = Some v -> Pin.getattr a k = Ok v.
Proof. intros Hk Hv. rewrite Pin_getattr_plain by done. by rewrite Hv. Qed.

(** Once the helper resolves inside class [Pin] and the global [__self]
    is bound to an object with a name, a pin is written with the flags of
    its roundness, and with the name of that object. *)
Lemma Pin_pcb_repr_resolved G g this a x y d hole nb rd nm tx ty :
  resolves G "Pin" -> G !! "_Pin__self" = Some (BConst this) ->
  g this "name" = Ok nm ->
  a !! "x" = Some (VNum x) -> a !! "y" = Some (VNum y) ->
  a !! "diameter" = Some (VNum d) -> a !! "hole" = Some (VNum hole) ->
  a !! "number" = Some nb -> a !! "round" = Some rd ->
  a !! "clearance" = None -> a !! "mask_offset" = None ->
  Pin.pcb_repr G g a (VNum tx) (VNum ty) =
    (u1 ← units (num_add x tx); u2 ← units (num_add y ty); u3 ← units d;
     u4 ← units (Int 2); u5 ← units (num_add d (Int 1)); u6 ← units hole;
     Ok (PinRecord u1 u2 u3 u4 u5 u6 nm nb (Pin.flags rd))).
Proof.
  intros HG Hself Hnm Hx Hy Hd Hh Hnb Hrd Hc Hm. unfold Pin.pcb_repr.
  rewrite !(call_global_resolved G "Pin") by done.
  rewrite (Pin_getattr_stored a "x" _ eq_refl Hx),
    (Pin_getattr_stored a "y" _ eq_refl Hy),
    (Pin_getattr_stored a "diameter" _ eq_refl Hd),
    (Pin_getattr_stored a "hole" _ eq_refl Hh),
    (Pin_getattr_stored a "number" _ eq_refl Hnb),
    (Pin_getattr_stored a "round" _ eq_refl Hrd).
  rewrite (Pin_getattr_plain "clearance"), (Pin_getattr_plain "mask_offset") by done.
  rewrite Hc, Hm. unfold load_global.
  change (mangle "Pin" "__self") with "_Pin__self". rewrite Hself.
  cbn [mbind res_bind py_add as_num String.eqb]. rewrite Hnm.
  reflexivity.
Qed.

(** * Further properties of the library *)

(** ** Interpolation and unit conversion *)

(** X1: [between(a, b, t)] evaluates [a + (b-a)*t] from the inside out.
    On ints it is exact and returns an int, so [a] at [t = 0] and [b] at
    [t = 1]; with the default [t = 0.5] it returns the float halfway between
    two small ints.  On floats every step is rounded, and the docstring's
    "if t=1, b is returned" does not hold: [between(1e16, 1.0, 1.0)] is
    [0.0].  It raises [TypeError] when an endpoint is not a number. *)
Theorem between_interpolates :
  (forall a b t,
     between (VNum a) (VNum b) (VNum t) =
       Ok (VNum (num_add a (num_mul (num_sub b a) t)))) /\
  (forall a b t : Z,
     between (VNum (Int a)) (VNum (Int b)) (VNum (Int t)) =
       Ok (VNum (Int (a + (b - a) * t)))) /\
  (forall a b : Z,
     between (VNum (Int a)) (VNum (Int b)) (VNum (Int 0)) = Ok (VNum (Int a)) /\
     between (VNum (Int a)) (VNum (Int b)) (VNum (Int 1)) = Ok (VNum (Int b))) /\
  (forall a b : Z, small a -> small b ->
     exists m, between (VNum (Int a)) (VNum (Int b)) t_default = Ok (VNum m) /\
       (num_Q m == (inject_Z a + inject_Z b) / 2)%Q) /\
  between (VNum (lit (inject_Z (10 ^ 16)))) (VNum (lit 1)) (VNum (lit 1)) =
    Ok (VNum (Float 0)) /\
  (forall a b t, as_num a = None \/ as_num b = None ->
     between a b t = Err TypeError).
Proof.
  split; [done|]. split; [done|]. split; [|split; [|split]].
  - intros a b. split; cbn; do 3 f_equal; lia.
  - intros a b Sa Sb. rewrite between_num. eexists. split; [reflexivity|].
    grid_value (a + b)%Z.
  - by vm_compute.
  - intros a b t [H|H]; unfold between, py_sub; rewrite H;
      [by destruct (as_num b) | by destruct (as_num a)].
Qed.

Lemma between_interpolates_witness :
  (exists m, between (VNum (Int 1)) (VNum (Int 4)) t_default = Ok (VNum m) /\
     (num_Q m == 5 # 2)%Q) /\
  between VNone (VNum (Int 3)) t_default = Err TypeError.
Proof.
  destruct between_interpolates as (_ & _ & _ & Hmid & _ & Herr). split.
  - destruct (Hmid 1 4)%Z as (m & Hm & E); [unfold small; lia..|].
    exists m. split; [exact Hm|]. by rewrite E.
  - apply Herr. by left.
Defined.

(** X2: [__mil_to_unit] is exact on an int: a hundred times the argument.
    On a float it rounds the double product [mil * 100], not the exact
    one, to the nearest integer, a half going to the even neighbour, and
    raises [OverflowError] when the product overflows; so 0.015, a double
    below 15/1000 whose product with 100 is the double 1.5, gives 2.  It is
    odd, so negative lengths round like positive ones, and it raises
    [TypeError] on [None] and on strings. *)
Theorem mil_to_unit_nearest :
  (forall z, mil_to_unit (VNum (Int z)) = Ok (z * 100)%Z) /\
  (forall q, let p := num_Q (num_mul (Float q) (Int 100)) in
     if finite p then
       exists u, mil_to_unit (VNum (Float q)) = Ok u /\
         (p - (1 # 2) <= inject_Z u <= p + (1 # 2))%Q /\
         ((Qabs (inject_Z u - p) == 1 # 2)%Q -> Z.even u = true)
     else mil_to_unit (VNum (Float q)) = Err OverflowError) /\
  (mil_to_unit (VNum (lit 0.015)) = Ok 2%Z /\
   (num_Q (lit 0.015) * 100 < 3 # 2)%Q) /\
  (forall n, mil_to_unit (VNum (num_neg n)) =
             (u ← mil_to_unit (VNum n); Ok (- u)%Z)) /\
  mil_to_unit VNone = Err TypeError /\
  (forall s, mil_to_unit (VStr s) = Err TypeError).
Proof.
  split; [done|]. split; [|split; [|split; [|done]]].
  - intros q p. cbn [mil_to_unit as_num round_num num_mul].
    change (rnd (num_F (Float q) * num_F (Int 100))) with p.
    destruct (finite p); [|done].
    exists (py_round p). split; [done|].
    split; [apply py_round_bounds|apply py_round_tie].
  - split; by vm_compute.
  - intros [z|q]; cbn [mil_to_unit as_num round_num num_mul num_neg mbind res_bind].
    + f_equal. lia.
    + cbn [num_F].
      rewrite (rnd_comp (Qred (- q) * rnd (inject_Z 100))
                        (- (q * rnd (inject_Z 100))))
        by (rewrite Qred_correct; ring).
      rewrite rnd_opp, finite_opp, py_round_opp.
      by destruct (finite _).
Qed.

(** ** Pads: edges, centres and the pairs of the docstring *)

Lemma resolved_insert_top a L W T H t :
  resolved a L W T H -> resolved (<["top" := VNum t]> a) L W t H.
Proof.
  intros (Hl & Hw & Ht & Hh). unfold resolved.
  rewrite lookup_insert_eq, !lookup_insert_ne by done. done.
Qed.

(** X3: on a resolved pad, assigning [right], [bottom] or [y] keeps the
    width and the height and moves the pad: the left edge becomes
    [right - width], the top edge [bottom - height] or [y - height/2.].
    When the width, the height and the value assigned are ints, [right] and
    [bottom] then read the value assigned, and so does [y] when they are
    small.  On floats the value read has been rounded twice: after
    [right = 0.1] a pad of width 0.4 does not read 0.1. *)
Theorem Pad_edge_setters (a : gmap string value) (L W T H v : num) :
  resolved a L W T H ->
  (exists a',
     Pad.setattr a "right" (VNum v) = Ok a' /\
     resolved a' (num_sub v W) W T H /\
     Pad.getattr a' "right" = Ok (VNum (num_add (num_sub v W) W))) /\
  (exists a',
     Pad.setattr a "bottom" (VNum v) = Ok a' /\
     resolved a' L W (num_sub v H) H /\
     Pad.getattr a' "bottom" = Ok (VNum (num_add (num_sub v H) H))) /\
  (exists a' cy,
     Pad.setattr a "y" (VNum v) = Ok a' /\
     resolved a' L W (num_sub v (half H)) H /\
     Pad.getattr a' "y" = Ok (VNum cy) /\
     forall h z, H = Int h -> v = Int z -> small h -> small z ->
       (num_Q cy == inject_Z z)%Q) /\
  (forall w z, num_add (num_sub (Int z) (Int w)) (Int w) = Int z) /\
  num_add (num_sub (lit 0.1) (lit 0.4)) (lit 0.4) <> lit 0.1.
Proof.
  intros Hres. pose proof Hres as (Hl & Hw & Ht & Hh).
  split; [|split; [|split; [|split]]].
  - pose proof (resolved_insert_left a L W T H (num_sub v W) Hres) as Hres'.
    eexists.
    split; [change (Pad.setattr a "right" (VNum v)) with (Pad.set_right a (VNum v));
            unfold Pad.set_right, attr; by rewrite Hw|].
    split; [exact Hres'|]. exact (resolved_right _ _ _ _ _ Hres').
  - pose proof (resolved_insert_top a L W T H (num_sub v H) Hres) as Hres'.
    eexists.
    split; [change (Pad.setattr a "bottom" (VNum v)) with (Pad.set_bottom a (VNum v));
            unfold Pad.set_bottom, attr; by rewrite Hh|].
    split; [exact Hres'|]. exact (resolved_bottom _ _ _ _ _ Hres').
  - pose proof (resolved_insert_top a L W T H (num_sub v (half H)) Hres) as Hres'.
    eexists _, _.
    split; [change (Pad.setattr a "y" (VNum v)) with (Pad.set_y a (VNum v));
            unfold Pad.set_y, attr; by rewrite Hh|].
    split; [exact Hres'|].
    split; [exact (resolved_y _ _ _ _ _ Hres')|].
    intros h z -> -> Sh Sz. grid_value (2 * z)%Z.
  - intros w z. cbn. f_equal. lia.
  - by vm_compute.
Qed.

Lemma Pad_edge_setters_witness :
  let a : gmap string value :=
    <["left" := VNum (Int 0)]> (<["width" := VNum (Int 10)]>
    (<["top" := VNum (Int 0)]> (<["height" := VNum (Int 4)]> Pad_blank))) in
  (exists a',
     Pad.setattr a "right" (VNum (Int 25)) = Ok a' /\
     resolved a' (num_sub (Int 25) (Int 10)) (Int 10) (Int 0) (Int 4) /\
     Pad.getattr a' "right" = Ok (VNum (Int 25))) /\
  (exists a' cy,
     Pad.setattr a "y" (VNum (Int 7)) = Ok a' /\
     Pad.getattr a' "y" = Ok (VNum cy) /\ (num_Q cy == 7)%Q).
Proof.
  intros a.
  destruct (Pad_edge_setters a (Int 0) (Int 10) (Int 0) (Int 4) (Int 25)
              ltac:(repeat split; reflexivity)) as (Hr & _).
  destruct (Pad_edge_setters a (Int 0) (Int 10) (Int 0) (Int 4) (Int 7)
              ltac:(repeat split; reflexivity))
    as (_ & _ & (a' & cy & Hs & _ & Hy & Ex) & _).
  split; [exact Hr|]. exists a', cy. split; [exact Hs|]. split; [exact Hy|].
  apply (Ex 4 7)%Z; try reflexivity; unfold small; lia.
Defined.

(** The pad as the keyword loop leaves it after the stored keys, when
    there is no base. *)
Lemma Pad_init_no_base g kw :
  kwargs_get kw "base" = VNone ->
  exists a1 : gmap string value,
    (forall k, a1 !! k =
       if bool_decide (k ∈ Pad.inheritable_keys) && negb (is_none (kwargs_get kw k))
       then Some (kwargs_get kw k) else Pad_blank !! k) /\
    Pad.init g kw =
      apply_kwargs Pad.setattr kw ["right"; "x"; "bottom"; "y"] a1.
Proof.
  intros Hb. unfold Pad.init, init_from. rewrite Hb. cbn [is_none mbind res_bind].
  unfold Pad.all_keys. rewrite apply_kwargs_app.
  destruct (apply_kwargs_plain Pad.setattr kw Pad.inheritable_keys
              (fun k Hk self v => Pad_setattr_plain k self v (inheritable_keys_plain k Hk))
              Pad_blank) as (a1 & Hrun & Hlook).
  fold Pad_blank. rewrite Hrun. by exists a1.
Qed.

(** X4: the pairs [x]/[width] and [y]/[height] of the docstring: without
    a base such a pad is constructed, and its left and top edges are
    [x - width/2.] and [y - height/2.].  Its centre, computed back from the
    edges, reads the [x] and [y] passed when the four values are small ints;
    on floats it can differ in the last place. *)
Theorem Pad_from_centre (g : value -> string -> res value)
    (kw : gmap string value) (X W Y H : num) :
  kwargs_get kw "base" = VNone ->
  kw !! "x" = Some (VNum X) -> kw !! "width" = Some (VNum W) ->
  kw !! "y" = Some (VNum Y) -> kw !! "height" = Some (VNum H) ->
  kwargs_get kw "left" = VNone -> kwargs_get kw "top" = VNone ->
  kwargs_get kw "right" = VNone -> kwargs_get kw "bottom" = VNone ->
  exists a cx cy,
    Pad.init g kw = Ok a /\
    resolved a (num_sub X (half W)) W (num_sub Y (half H)) H /\
    Pad.getattr a "x" = Ok (VNum cx) /\ Pad.getattr a "y" = Ok (VNum cy) /\
    forall x w y h,
      X = Int x -> W = Int w -> Y = Int y -> H = Int h ->
      small x -> small w -> small y -> small h ->
      (num_Q cx == inject_Z x)%Q /\ (num_Q cy == inject_Z y)%Q.
Proof.
  intros Hb Hx Hw Hy Hh Hl Ht Hr Hbo.
  destruct (Pad_init_no_base g kw Hb) as (a1 & Hlook & ->).
  assert (Hx' : kwargs_get kw "x" = VNum X) by (unfold kwargs_get; by rewrite Hx).
  assert (Hy' : kwargs_get kw "y" = VNum Y) by (unfold kwargs_get; by rewrite Hy).
  assert (Hw1 : a1 !! "width" = Some (VNum W))
    by (rewrite Hlook; unfold kwargs_get; by rewrite Hw).
  assert (Hh1 : a1 !! "height" = Some (VNum H))
    by (rewrite Hlook; unfold kwargs_get; by rewrite Hh).
  cbn [apply_kwargs]. rewrite Hr, Hbo, Hx', Hy'. cbn [is_none mbind res_bind].
  change (Pad.setattr a1 "x" (VNum X)) with (Pad.set_x a1 (VNum X)).
  unfold Pad.set_x, attr. rewrite Hw1. cbn [mbind res_bind py_div_float as_num].
  change (Qeq_bool 2 0) with false. cbn [mbind res_bind py_sub as_num].
  match goal with |- context [Pad.setattr ?s "y" ?v] =>
    change (Pad.setattr s "y" v) with (Pad.set_y s v) end.
  unfold Pad.set_y, attr. rewrite lookup_insert_ne by done. rewrite Hh1.
  cbn [mbind res_bind py_div_float as_num].
  change (Qeq_bool 2 0) with false. cbn [mbind res_bind py_sub as_num].
  fold (half W) (half H).
  set (a := <["top" := VNum (num_sub Y (half H))]>
            (<["left" := VNum (num_sub X (half W))]> a1)).
  assert (Hres : resolved a (num_sub X (half W)) W (num_sub Y (half H)) H).
  { subst a. unfold resolved. repeat split; by simplify_map_eq. }
  exists a, (midpoint (num_sub X (half W)) (num_add (num_sub X (half W)) W)),
    (midpoint (num_sub Y (half H)) (num_add (num_sub Y (half H)) H)).
  split; [done|]. split; [done|].
  split; [exact (resolved_x _ _ _ _ _ Hres)|].
  split; [exact (resolved_y _ _ _ _ _ Hres)|].
  intros x w y h -> -> -> -> Sx Sw Sy Sh.
  split; [grid_value (2 * x)%Z|grid_value (2 * y)%Z].
Qed.

Lemma Pad_from_centre_witness :
  exists a cx cy,
    Pad.init (getattr3 [])
      (<["x" := VNum (Int 0)]> (<["width" := VNum (Int 100)]>
       (<["y" := VNum (Int 0)]> (<["height" := VNum (Int 200)]> ∅)))) = Ok a /\
    resolved a (num_sub (Int 0) (half (Int 100))) (Int 100)
      (num_sub (Int 0) (half (Int 200))) (Int 200) /\
    Pad.getattr a "x" = Ok (VNum cx) /\ (num_Q cx == 0)%Q /\
    Pad.getattr a "y" = Ok (VNum cy) /\ (num_Q cy == 0)%Q.
Proof.
  destruct (Pad_from_centre (getattr3 [])
    (<["x" := VNum (Int 0)]> (<["width" := VNum (Int 100)]>
     (<["y" := VNum (Int 0)]> (<["height" := VNum (Int 200)]> ∅))))
    (Int 0) (Int 100) (Int 0) (Int 200))
    as (a & cx & cy & Hi & Hres & Hx & Hy & Ex); try reflexivity.
  destruct (Ex 0 100 0 200)%Z as [Ecx Ecy]; try reflexivity; try (unfold small; lia).
  by exists a, cx, cy.
Defined.

(** X5: the pairs [right]/[width] and [bottom]/[height] of the
    docstring: without a base such a pad is constructed with left edge
    [right - width] and top edge [bottom - height]. *)
Theorem Pad_from_far_edges (g : value -> string -> res value)
    (kw : gmap string value) (R W B H : num) :
  kwargs_get kw "base" = VNone ->
  kw !! "right" = Some (VNum R) -> kw !! "width" = Some (VNum W) ->
  kw !! "bottom" = Some (VNum B) -> kw !! "height" = Some (VNum H) ->
  kwargs_get kw "left" = VNone -> kwargs_get kw "top" = VNone ->
  kwargs_get kw "x" = VNone -> kwargs_get kw "y" = VNone ->
  exists a,
    Pad.init g kw = Ok a /\
    resolved a (num_sub R W) W (num_sub B H) H.
Proof.
  intros Hb Hr Hw Hbo Hh Hl Ht Hx Hy.
  destruct (Pad_init_no_base g kw Hb) as (a1 & Hlook & ->).
  assert (Hr' : kwargs_get kw "right" = VNum R) by (unfold kwargs_get; by rewrite Hr).
  assert (Hbo' : kwargs_get kw "bottom" = VNum B) by (unfold kwargs_get; by rewrite Hbo).
  assert (Hw1 : a1 !! "width" = Some (VNum W))
    by (rewrite Hlook; unfold kwargs_get; by rewrite Hw).
  assert (Hh1 : a1 !! "height" = Some (VNum H))
    by (rewrite Hlook; unfold kwargs_get; by rewrite Hh).
  cbn [apply_kwargs]. rewrite Hr', Hbo', Hx, Hy. cbn [is_none mbind res_bind].
  change (Pad.setattr a1 "right" (VNum R)) with (Pad.set_right a1 (VNum R)).
  unfold Pad.set_right, attr. rewrite Hw1.
  cbn [mbind res_bind is_none negb py_sub as_num].
  match goal with |- context [Pad.setattr ?s "bottom" ?v] =>
    change (Pad.setattr s "bottom" v) with (Pad.set_bottom s v) end.
  unfold Pad.set_bottom, attr.
  rewrite (lookup_insert_ne a1 "left" "height") by done. rewrite Hh1.
  cbn [mbind res_bind is_none negb py_sub as_num].
  eexists. split; [reflexivity|]. unfold resolved.
  repeat split; by simplify_map_eq.
Qed.

Lemma Pad_from_far_edges_witness :
  exists a,
    Pad.init (getattr3 [])
      (<["right" := VNum (Int 30)]> (<["width" := VNum (Int 10)]>
       (<["bottom" := VNum (Int 8)]> (<["height" := VNum (Int 5)]> ∅)))) = Ok a /\
    resolved a (num_sub (Int 30) (Int 10)) (Int 10) (num_sub (Int 8) (Int 5)) (Int 5).
Proof.
  apply (Pad_from_far_edges (getattr3 [])
    (<["right" := VNum (Int 30)]> (<["width" := VNum (Int 10)]>
     (<["bottom" := VNum (Int 8)]> (<["height" := VNum (Int 5)]> ∅))))
    (Int 30) (Int 10) (Int 8) (Int 5)); reflexivity.
Defined.

(** X6: the pair [top]/[bottom] of the docstring: without a base, and
    once the x axis is settled, the setter of [bottom] finds no [height]
    attribute and construction raises [AttributeError]. *)
Theorem Pad_top_bottom_raises (g : value -> string -> res value)
    (kw : gmap string value) (L W : num) :
  kwargs_get kw "base" = VNone ->
  kw !! "left" = Some (VNum L) -> kw !! "width" = Some (VNum W) ->
  kwargs_get kw "right" = VNone -> kwargs_get kw "x" = VNone ->
  kwargs_get kw "height" = VNone ->
  is_none (kwargs_get kw "bottom") = false ->
  Pad.init g kw = Err (AttributeError "height").
Proof.
  intros Hb Hl Hw Hr Hx Hh Hbo.
  destruct (Pad_init_no_base g kw Hb) as (a1 & Hlook & ->).
  cbn [apply_kwargs]. rewrite Hr, Hx, Hbo. cbn [is_none mbind res_bind].
  change (Pad.setattr a1 "bottom" (kwargs_get kw "bottom"))
    with (Pad.set_bottom a1 (kwargs_get kw "bottom")).
  unfold Pad.set_bottom, attr.
  rewrite (Hlook "height"), Hh, andb_false_r, Pad_blank_lookup. reflexivity.
Qed.

Lemma Pad_top_bottom_raises_witness :
  Pad.init (getattr3 [])
    (<["left" := VNum (Int 0)]> (<["width" := VNum (Int 10)]>
     (<["top" := VNum (Int 0)]> (<["bottom" := VNum (Int 5)]> ∅))))
  = Err (AttributeError "height").
Proof.
  apply (Pad_top_bottom_raises (getattr3 []) _ (Int 0) (Int 10)); reflexivity.
Defined.

(** The pad as the loops leave it after the stored keys, when the base is
    a pad of the heap. *)
Lemma Pad_init_with_base h l0 a0 kw :
  kwargs_get kw "base" = VObj l0 -> h !! l0 = Some (OPad a0) ->
  exists a1 : gmap string value,
    (forall k, k ∈ Pad.inheritable_keys ->
       a1 !! k = Some (if is_none (kwargs_get kw k) then default VNone (a0 !! k)
                       else kwargs_get kw k)) /\
    Pad.init (getattr3 h) kw =
      apply_kwargs Pad.setattr kw ["right"; "x"; "bottom"; "y"] a1.
Proof.
  intros Hb Hl. unfold Pad.init, init_from. rewrite Hb. cbn [is_none].
  destruct (copy_from_base_plain (getattr3 h) Pad.setattr (VObj l0)
              Pad.inheritable_keys (fun k => default VNone (a0 !! k))
              (fun k Hk self v => Pad_setattr_plain k self v (inheritable_keys_plain k Hk))
              (fun k Hk => getattr3_stored KPad h l0 a0 k Hl Hk)
              (<["round" := VBool false]> Shape_init)) as (s1 & Hcopy & Hl1).
  rewrite Hcopy. cbn [mbind res_bind].
  unfold Pad.all_keys. rewrite apply_kwargs_app.
  destruct (apply_kwargs_plain Pad.setattr kw Pad.inheritable_keys
              (fun k Hk self v => Pad_setattr_plain k self v (inheritable_keys_plain k Hk))
              s1) as (a1 & Hrun & Hl2).
  rewrite Hrun. exists a1. split; [|done].
  intros k Hk. rewrite Hl2, Hl1, !(bool_decide_eq_true_2 _ Hk).
  by destruct (is_none (kwargs_get kw k)).
Qed.

(** X7: with a base of known width, [left] and [right] passed together do
    not both hold: [right] is applied last and, the width being known, moves
    the left edge to [right - width]; the [left] passed is lost and the width
    stays the base's. *)
Theorem Pad_base_right_overrides_left (h : list obj) (l0 : nat)
    (a0 kw : gmap string value) (L0 W0 T0 H0 L R : num) :
  h !! l0 = Some (OPad a0) -> resolved a0 L0 W0 T0 H0 ->
  kwargs_get kw "base" = VObj l0 ->
  kw !! "left" = Some (VNum L) -> kw !! "right" = Some (VNum R) ->
  kwargs_get kw "width" = VNone -> kwargs_get kw "top" = VNone ->
  kwargs_get kw "height" = VNone -> kwargs_get kw "x" = VNone ->
  kwargs_get kw "bottom" = VNone -> kwargs_get kw "y" = VNone ->
  exists a,
    Pad.init (getattr3 h) kw = Ok a /\
    resolved a (num_sub R W0) W0 T0 H0.
Proof.
  intros Hl (Hl0 & Hw0 & Ht0 & Hh0) Hb Hle Hri Hw Ht Hh Hx Hbo Hy.
  destruct (Pad_init_with_base h l0 a0 kw Hb Hl) as (a1 & Hlook & ->).
  assert (Hri' : kwargs_get kw "right" = VNum R) by (unfold kwargs_get; by rewrite Hri).
  assert (Hw1 : a1 !! "width" = Some (VNum W0)) by (rewrite Hlook by key_in; by rewrite Hw, Hw0).
  assert (Ht1 : a1 !! "top" = Some (VNum T0)) by (rewrite Hlook by key_in; by rewrite Ht, Ht0).
  assert (Hh1 : a1 !! "height" = Some (VNum H0)) by (rewrite Hlook by key_in; by rewrite Hh, Hh0).
  cbn [apply_kwargs]. rewrite Hri', Hx, Hbo, Hy. cbn [is_none mbind res_bind].
  change (Pad.setattr a1 "right" (VNum R)) with (Pad.set_right a1 (VNum R)).
  unfold Pad.set_right, attr. rewrite Hw1.
  cbn [mbind res_bind is_none negb py_sub as_num].
  eexists. split; [reflexivity|]. unfold resolved.
  repeat split; by simplify_map_eq.
Qed.

Lemma Pad_base_right_overrides_left_witness :
  let a0 : gmap string value :=
    <["left" := VNum (Int 0)]> (<["width" := VNum (Int 10)]>
    (<["top" := VNum (Int 0)]> (<["height" := VNum (Int 4)]> Pad_blank))) in
  exists a,
    Pad.init (getattr3 [OPad a0])
      (<["base" := VObj 0]> (<["left" := VNum (Int 50)]>
       (<["right" := VNum (Int 70)]> ∅))) = Ok a /\
    resolved a (num_sub (Int 70) (Int 10)) (Int 10) (Int 0) (Int 4).
Proof.
  intros a0.
  apply (Pad_base_right_overrides_left [OPad a0] 0 a0 _
           (Int 0) (Int 10) (Int 0) (Int 4) (Int 50) (Int 70));
    first [reflexivity | repeat split; reflexivity].
Defined.

(** X8: the pairs [left]/[right] and [top]/[bottom] of the docstring do
    work over a base that has no width and no height, such as a pad built
    from no keyword: the inherited [None] makes the setters compute
    [width = right - left] and [height = bottom - top]. *)
Theorem Pad_edges_over_blank_base (h : list obj) (l0 : nat)
    (a0 kw : gmap string value) (L R T B : num) :
  h !! l0 = Some (OPad a0) -> a0 !! "width" = None -> a0 !! "height" = None ->
  kwargs_get kw "base" = VObj l0 ->
  kw !! "left" = Some (VNum L) -> kw !! "right" = Some (VNum R) ->
  kw !! "top" = Some (VNum T) -> kw !! "bottom" = Some (VNum B) ->
  kwargs_get kw "width" = VNone -> kwargs_get kw "height" = VNone ->
  kwargs_get kw "x" = VNone -> kwargs_get kw "y" = VNone ->
  exists a,
    Pad.init (getattr3 h) kw = Ok a /\
    resolved a L (num_sub R L) T (num_sub B T).
Proof.
  intros Hl Hw0 Hh0 Hb Hle Hri Hto Hbo Hw Hh Hx Hy.
  destruct (Pad_init_with_base h l0 a0 kw Hb Hl) as (a1 & Hlook & ->).
  assert (Hri' : kwargs_get kw "right" = VNum R) by (unfold kwargs_get; by rewrite Hri).
  assert (Hbo' : kwargs_get kw "bottom" = VNum B) by (unfold kwargs_get; by rewrite Hbo).
  assert (Hl1 : a1 !! "left" = Some (VNum L)).
  { rewrite Hlook by key_in. unfold kwargs_get. by rewrite Hle. }
  assert (Ht1 : a1 !! "top" = Some (VNum T)).
  { rewrite Hlook by key_in. unfold kwargs_get. by rewrite Hto. }
  assert (Hw1 : a1 !! "width" = Some VNone) by (rewrite Hlook by key_in; by rewrite Hw, Hw0).
  assert (Hh1 : a1 !! "height" = Some VNone) by (rewrite Hlook by key_in; by rewrite Hh, Hh0).
  cbn [apply_kwargs]. rewrite Hri', Hx, Hbo', Hy. cbn [is_none mbind res_bind].
  change (Pad.setattr a1 "right" (VNum R)) with (Pad.set_right a1 (VNum R)).
  unfold Pad.set_right, attr. rewrite Hw1, Hl1.
  cbn [mbind res_bind is_none negb py_sub as_num].
  match goal with |- context [Pad.setattr ?s "bottom" ?v] =>
    change (Pad.setattr s "bottom" v) with (Pad.set_bottom s v) end.
  unfold Pad.set_bottom, attr.
  rewrite (lookup_insert_ne a1 "width" "height"), (lookup_insert_ne a1 "width" "top")
    by done.
  rewrite Hh1, Ht1. cbn [mbind res_bind is_none negb py_sub as_num].
  eexists. split; [reflexivity|]. unfold resolved.
  repeat split; by simplify_map_eq.
Qed.

Lemma Pad_edges_over_blank_base_witness :
  exists a,
    Pad.init (getattr3 [OPad Pad_blank])
      (<["base" := VObj 0]> (<["left" := VNum (Int 0)]>
       (<["right" := VNum (Int 10)]> (<["top" := VNum (Int 0)]>
       (<["bottom" := VNum (Int 5)]> ∅))))) = Ok a /\
    resolved a (Int 0) (num_sub (Int 10) (Int 0)) (Int 0) (num_sub (Int 5) (Int 0)).
Proof.
  apply (Pad_edges_over_blank_base [OPad Pad_blank] 0 Pad_blank _
           (Int 0) (Int 10) (Int 0) (Int 5)); reflexivity.
Defined.

(** ** Keywords an initializer does not read *)

Lemma apply_kwargs_ext setattr kw kw' keys :
  (forall k, k ∈ keys -> kwargs_get kw k = kwargs_get kw' k) ->
  forall self, apply_kwargs setattr kw keys self = apply_kwargs setattr kw' keys self.
Proof.
  induction keys as [|key keys IH]; intros Hext self; [done|].
  cbn [apply_kwargs]. rewrite (Hext key) by (apply elem_of_cons; by left).
  destruct (if is_none (kwargs_get kw' key) then Ok self
            else setattr self key (kwargs_get kw' key)) as [s1|e]; [|done].
  cbn [mbind res_bind]. apply IH. intros k Hk. apply Hext.
  apply elem_of_cons. by right.
Qed.

(** X9: an initializer reads [base] and the keys of its list and nothing
    else: any other keyword, such as [dx] for a pad or [left] for a pin,
    changes nothing in the shape constructed or in the error raised. *)
Theorem init_ignores_other_keywords (kd : kind)
    (g : value -> string -> res value) (kw : gmap string value)
    (k : string) (v : value) :
  k ∉ accepted_keys kd ->
  shape_init kd g (<[k := v]> kw) = shape_init kd g kw.
Proof.
  intros Hk.
  assert (Hget : forall k', k' ∈ accepted_keys kd ->
            kwargs_get (<[k := v]> kw) k' = kwargs_get kw k').
  { intros k' Hk'. unfold kwargs_get. rewrite lookup_insert_ne; [done|].
    intros ->. by apply Hk. }
  destruct kd; cbn [shape_init accepted_keys] in *;
    unfold Pad.init, Pin.init, init_from;
    rewrite (Hget "base") by (apply elem_of_cons; by left);
    (destruct (if is_none (kwargs_get kw "base") then _ else _) as [s1|e]; [|done]);
    cbn [mbind res_bind]; apply apply_kwargs_ext;
    intros k' Hk'; apply Hget; apply elem_of_cons; by right.
Qed.

Lemma init_ignores_other_keywords_witness :
  Pin.init (getattr3 [])
    (<["left" := VNum (Int 5)]> (<["x" := VNum (Int 1)]> ∅)) =
  Pin.init (getattr3 []) (<["x" := VNum (Int 1)]> ∅).
Proof.
  apply (init_ignores_other_keywords KPin).
  intros H. unfold accepted_keys, Pin.keys in H.
  rewrite !elem_of_cons, elem_of_nil in H.
  repeat (destruct H as [H|H]; [discriminate|]). done.
Defined.

(** ** Pins: the edges of the annulus *)

Section PinEdges.
Variables (a : gmap string value) (X Y D : num).
Hypothesis Hx : a !! "x" = Some (VNum X).
Hypothesis Hy : a !! "y" = Some (VNum Y).
Hypothesis Hd : a !! "diameter" = Some (VNum D).

Lemma Pin_left_value : Pin.getattr a "left" = Ok (VNum (num_sub X (half D))).
Proof.
  change (Pin.getattr a "left") with (Pin.left a).
  unfold Pin.left, attr. by rewrite Hx, Hd.
Qed.

Lemma Pin_right_value : Pin.getattr a "right" = Ok (VNum (num_add X (half D))).
Proof.
  change (Pin.getattr a "right") with (Pin.right a).
  unfold Pin.right, attr. by rewrite Hx, Hd.
Qed.

Lemma Pin_top_value : Pin.getattr a "top" = Ok (VNum (num_sub Y (half D))).
Proof.
  change (Pin.getattr a "top") with (Pin.top a).
  unfold Pin.top, attr. by rewrite Hy, Hd.
Qed.

Lemma Pin_bottom_value : Pin.getattr a "bottom" = Ok (VNum (num_add Y (half D))).
Proof.
  change (Pin.getattr a "bottom") with (Pin.bottom a).
  unfold Pin.bottom, attr. by rewrite Hy, Hd.
Qed.
End PinEdges.

(** X10: the four edges of a pin are computed half a diameter from its
    centre, [x -/+ diameter/2.] and [y -/+ diameter/2.]; assigning an edge
    moves the centre by half a diameter the other way and keeps the
    diameter.  When the centre, the diameter and the value assigned are small
    ints nothing is rounded: opposite edges are a diameter apart and centred
    on the hole, and the edge assigned reads the value assigned.  On floats
    it need not: after [left = 0.1] a pin of diameter 0.6 does not read
    0.1. *)
Theorem Pin_edges (a : gmap string value) (X Y D v : num) :
  a !! "x" = Some (VNum X) -> a !! "y" = Some (VNum Y) ->
  a !! "diameter" = Some (VNum D) ->
  (exists l r t b,
     Pin.getattr a "left" = Ok (VNum l) /\ Pin.getattr a "right" = Ok (VNum r) /\
     Pin.getattr a "top" = Ok (VNum t) /\ Pin.getattr a "bottom" = Ok (VNum b) /\
     l = num_sub X (half D) /\ r = num_add X (half D) /\
     t = num_sub Y (half D) /\ b = num_add Y (half D) /\
     forall x y d, X = Int x -> Y = Int y -> D = Int d ->
       small x -> small y -> small d ->
       (num_Q r - num_Q l == inject_Z d)%Q /\ (num_Q b - num_Q t == inject_Z d)%Q /\
       ((num_Q l + num_Q r) / 2 == inject_Z x)%Q /\
       ((num_Q t + num_Q b) / 2 == inject_Z y)%Q) /\
  (forall edge, edge ∈ ["left"; "right"; "top"; "bottom"] ->
     exists a' e,
       Pin.setattr a edge (VNum v) = Ok a' /\
       a' !! "diameter" = Some (VNum D) /\
       Pin.getattr a' edge = Ok (VNum e) /\
       forall d z, D = Int d -> v = Int z -> small d -> small z ->
         (num_Q e == inject_Z z)%Q) /\
  num_sub (num_add (lit 0.1) (half (lit 0.6))) (half (lit 0.6)) <> lit 0.1.
Proof.
  intros Hx Hy Hd. split; [|split].
  - exists (num_sub X (half D)), (num_add X (half D)),
      (num_sub Y (half D)), (num_add Y (half D)).
    split; [by apply Pin_left_value|]. split; [by apply Pin_right_value|].
    split; [by apply Pin_top_value|]. split; [by apply Pin_bottom_value|].
    do 4 (split; [done|]).
    intros x y d -> -> -> Sx Sy Sd.
    assert (El : (num_Q (num_sub (Int x) (half (Int d))) == (2 * x - d) # 2)%Q)
      by grid_value (2 * x - d)%Z.
    assert (Er : (num_Q (num_add (Int x) (half (Int d))) == (2 * x + d) # 2)%Q)
      by grid_value (2 * x + d)%Z.
    assert (Et : (num_Q (num_sub (Int y) (half (Int d))) == (2 * y - d) # 2)%Q)
      by grid_value (2 * y - d)%Z.
    assert (Eb : (num_Q (num_add (Int y) (half (Int d))) == (2 * y + d) # 2)%Q)
      by grid_value (2 * y + d)%Z.
    rewrite El, Er, Et, Eb.
    repeat split; unfold Qeq, Qdiv, Qminus, Qplus, Qopp, Qmult, Qinv; cbn; lia.
  - intros edge Hedge. rewrite !elem_of_cons, elem_of_nil in Hedge.
    destruct Hedge as [->|[->|[->|[->|[]]]]].
    + exists (<["x" := VNum (num_add v (half D))]> a),
        (num_sub (num_add v (half D)) (half D)).
      split; [change (Pin.setattr a "left" (VNum v)) with (Pin.set_left a (VNum v));
              unfold Pin.set_left, attr; by rewrite Hd|].
      split; [by rewrite lookup_insert_ne|].
      split; [apply Pin_left_value; by simplify_map_eq|].
      intros d z -> -> Sd Sz. grid_value (2 * z)%Z.
    + exists (<["x" := VNum (num_sub v (half D))]> a),
        (num_add (num_sub v (half D)) (half D)).
      split; [change (Pin.setattr a "right" (VNum v)) with (Pin.set_right a (VNum v));
              unfold Pin.set_right, attr; by rewrite Hd|].
      split; [by rewrite lookup_insert_ne|].
      split; [apply Pin_right_value; by simplify_map_eq|].
      intros d z -> -> Sd Sz. grid_value (2 * z)%Z.
    + exists (<["y" := VNum (num_add v (half D))]> a),
        (num_sub (num_add v (half D)) (half D)).
      split; [change (Pin.setattr a "top" (VNum v)) with (Pin.set_top a (VNum v));
              unfold Pin.set_top, attr; by rewrite Hd|].
      split; [by rewrite lookup_insert_ne|].
      split; [apply Pin_top_value; by simplify_map_eq|].
      intros d z -> -> Sd Sz. grid_value (2 * z)%Z.
    + exists (<["y" := VNum (num_sub v (half D))]> a),
        (num_add (num_sub v (half D)) (half D)).
      split; [change (Pin.setattr a "bottom" (VNum v)) with (Pin.set_bottom a (VNum v));
              unfold Pin.set_bottom, attr; by rewrite Hd|].
      split; [by rewrite lookup_insert_ne|].
      split; [apply Pin_bottom_value; by simplify_map_eq|].
      intros d z -> -> Sd Sz. grid_value (2 * z)%Z.
  - by vm_compute.
Qed.

Lemma Pin_edges_witness :
  let a : gmap string value :=
    <["x" := VNum (Int 10)]> (<["y" := VNum (Int 20)]>
    (<["hole" := VNum (Int 1)]> (<["diameter" := VNum (Int 4)]> Pin_blank))) in
  exists l r t b,
    Pin.getattr a "left" = Ok (VNum l) /\ Pin.getattr a "right" = Ok (VNum r) /\
    Pin.getattr a "top" = Ok (VNum t) /\ Pin.getattr a "bottom" = Ok (VNum b) /\
    (num_Q r - num_Q l == 4)%Q /\ (num_Q b - num_Q t == 4)%Q /\
    ((num_Q l + num_Q r) / 2 == 10)%Q /\ ((num_Q t + num_Q b) / 2 == 20)%Q.
Proof.
  intros a.
  destruct (Pin_edges a (Int 10) (Int 20) (Int 4) (Int 0) eq_refl eq_refl eq_refl)
    as ((l & r & t & b & Hl & Hr & Ht & Hb & _ & _ & _ & _ & Ex) & _).
  destruct (Ex 10 20 4)%Z as (E1 & E2 & E3 & E4);
    try reflexivity; try (unfold small; lia).
  by exists l, r, t, b.
Defined.

(** ** Arcs: the radii *)

(** X11: of the keywords that give the radii of an arc the last one
    applied wins.  A numeric [diameter] sets both radii to its half whatever
    [radius], [x_radius] and [y_radius] say; without it a [radius] sets both
    radii; without either the radii are [x_radius] and [y_radius], [None]
    when not passed. *)
Theorem SilkArc_radii (x y : value) (kw : gmap string value) :
  (forall d, kwargs_get kw "diameter" = VNum d ->
     exists arc, SilkArc.init x y kw = Ok arc /\
       SilkArc.x_radius arc = VNum (half d) /\
       SilkArc.y_radius arc = VNum (half d)) /\
  (kwargs_get kw "diameter" = VNone ->
   is_none (kwargs_get kw "radius") = false ->
     exists arc, SilkArc.init x y kw = Ok arc /\
       SilkArc.x_radius arc = kwargs_get kw "radius" /\
       SilkArc.y_radius arc = kwargs_get kw "radius") /\
  (kwargs_get kw "diameter" = VNone -> kwargs_get kw "radius" = VNone ->
     exists arc, SilkArc.init x y kw = Ok arc /\
       SilkArc.x_radius arc = kwargs_get kw "x_radius" /\
       SilkArc.y_radius arc = kwargs_get kw "y_radius").
Proof.
  unfold SilkArc.init. split; [|split].
  - intros d ->. cbn [is_none]. unfold SilkArc.set_diameter.
    cbn [py_div_float as_num]. change (Qeq_bool 2 0) with false.
    cbn [mbind res_bind]. eexists. split; [reflexivity|].
    by destruct (is_none (kwargs_get kw "radius")).
  - intros -> Hr. rewrite Hr. cbn [is_none]. eexists. by split.
  - intros -> ->. cbn [is_none]. eexists. by split.
Qed.

Lemma SilkArc_radii_witness :
  exists arc,
    SilkArc.init (VNum (Int 0)) (VNum (Int 0))
      (<["diameter" := VNum (Int 400)]> (<["radius" := VNum (Int 7)]> ∅)) = Ok arc /\
    SilkArc.x_radius arc = VNum (half (Int 400)) /\
    SilkArc.y_radius arc = VNum (half (Int 400)).
Proof.
  apply (proj1 (SilkArc_radii (VNum (Int 0)) (VNum (Int 0))
    (<["diameter" := VNum (Int 400)]> (<["radius" := VNum (Int 7)]> ∅)))).
  reflexivity.
Defined.

(** X12: read back, [radius] is [between(x_radius, y_radius)] and
    [diameter] is twice that; after [diameter] is assigned a number both
    radii are its half.  When the radii are small ints, [radius] is their
    exact mean and [diameter] their exact sum, and a small int assigned to
    [diameter] is read back.  On floats the mean is rounded: of the radii 0.1
    and 0.3, [radius] is not the exact mean. *)
Theorem SilkArc_radius_diameter (arc : SilkArc.t) (xr yr d : num) :
  SilkArc.x_radius arc = VNum xr -> SilkArc.y_radius arc = VNum yr ->
  (SilkArc.getattr arc "radius" = Ok (VNum (midpoint xr yr)) /\
   SilkArc.getattr arc "diameter" = Ok (VNum (num_mul (midpoint xr yr) (Int 2))) /\
   forall a b, xr = Int a -> yr = Int b -> small a -> small b ->
     (num_Q (midpoint xr yr) == (inject_Z a + inject_Z b) / 2)%Q /\
     (num_Q (num_mul (midpoint xr yr) (Int 2)) == inject_Z a + inject_Z b)%Q) /\
  (exists arc' dd,
     SilkArc.set_diameter arc (VNum d) = Ok arc' /\
     SilkArc.x_radius arc' = VNum (half d) /\
     SilkArc.y_radius arc' = VNum (half d) /\
     SilkArc.getattr arc' "diameter" = Ok (VNum dd) /\
     forall z, d = Int z -> small z -> (num_Q dd == inject_Z z)%Q) /\
  ~ (num_Q (midpoint (lit 0.1) (lit 0.3)) ==
     (num_Q (lit 0.1) + num_Q (lit 0.3)) / 2)%Q.
Proof.
  intros Hxr Hyr. split; [|split].
  - change (SilkArc.getattr arc "radius") with (SilkArc.radius arc).
    change (SilkArc.getattr arc "diameter") with (SilkArc.diameter arc).
    unfold SilkArc.diameter, SilkArc.radius. rewrite Hxr, Hyr, between_num.
    split; [done|]. split; [done|].
    intros a b -> -> Sa Sb.
    split; [grid_value (a + b)%Z|grid_value (2 * (a + b))%Z].
  - eexists _, (num_mul (midpoint (half d) (half d)) (Int 2)).
    split; [reflexivity|]. split; [done|]. split; [done|].
    split; [reflexivity|].
    intros z -> Sz. grid_value (2 * z)%Z.
  - by vm_compute.
Qed.

Lemma SilkArc_radius_diameter_witness :
  exists r dd,
    SilkArc.getattr
      (SilkArc.mk (VNum (Int 0)) (VNum (Int 0)) (VNum (Int 30)) (VNum (Int 10))
         (VNum (Int 0)) (VNum (Int 360)) (VNum (Int 10))) "radius" = Ok (VNum r) /\
    SilkArc.getattr
      (SilkArc.mk (VNum (Int 0)) (VNum (Int 0)) (VNum (Int 30)) (VNum (Int 10))
         (VNum (Int 0)) (VNum (Int 360)) (VNum (Int 10))) "diameter" = Ok (VNum dd) /\
    (num_Q r == 20)%Q /\ (num_Q dd == 40)%Q.
Proof.
  destruct (SilkArc_radius_diameter
    (SilkArc.mk (VNum (Int 0)) (VNum (Int 0)) (VNum (Int 30)) (VNum (Int 10))
       (VNum (Int 0)) (VNum (Int 360)) (VNum (Int 10)))
    (Int 30) (Int 10) (Int 1) eq_refl eq_refl) as ((Hr & Hd & Ex) & _).
  destruct (Ex 30 10)%Z as [E1 E2]; try reflexivity; try (unfold small; lia).
  eexists _, _. split; [exact Hr|]. split; [exact Hd|].
  split; [by rewrite E1|by rewrite E2].
Defined.

(** ** The footprint: construction and single placement *)

(** X13: a new footprint has the name and the description it was made
    with, no shape, the counter 1, the mark and the text at the origin, the
    text direction 0 and the text scale 100; and of its keywords it reads
    [description] only: the keywords [mark_x], [mark_y], [text_x], [text_y]
    and [text_direction] that the docstring lists change nothing. *)
Theorem Footprint_init_reads_description_only (name : value)
    (kw : gmap string value) (k : string) (v : value) :
  k <> "description" ->
  Footprint.init name (<[k := v]> kw) = Footprint.init name kw /\
  Footprint.name (Footprint.init name kw) = name /\
  Footprint.description (Footprint.init name kw) =
    default (VStr "") (kw !! "description") /\
  Footprint.shapes (Footprint.init name kw) = [] /\
  Footprint.pinpadcounter (Footprint.init name kw) = 1%Z /\
  Footprint.mark_x (Footprint.init name kw) = VNum (Int 0) /\
  Footprint.mark_y (Footprint.init name kw) = VNum (Int 0) /\
  Footprint.text_x (Footprint.init name kw) = VNum (Int 0) /\
  Footprint.text_y (Footprint.init name kw) = VNum (Int 0) /\
  Footprint.text_direction (Footprint.init name kw) = VNum (Int 0) /\
  Footprint.text_scale (Footprint.init name kw) = VNum (Int 100).
Proof.
  intros Hk. unfold Footprint.init. by rewrite lookup_insert_ne.
Qed.

Lemma Footprint_init_reads_description_only_witness :
  Footprint.init (VStr "P") (<["mark_x" := VNum (Int 50)]> ∅) =
  Footprint.init (VStr "P") ∅ /\
  Footprint.text_x (Footprint.init (VStr "P") ∅) = VNum (Int 0).
Proof.
  destruct (Footprint_init_reads_description_only (VStr "P") ∅ "mark_x"
              (VNum (Int 50))) as (E & _ & _ & _ & _ & _ & _ & Etx & _);
    [discriminate|].
  by split.
Defined.

Lemma copy_from_base_lookup g setattr base keys :
  (forall k, k ∈ keys -> forall self v, setattr self k v = Ok (<[k := v]> self)) ->
  forall self self' : gmap string value,
    copy_from_base g setattr base keys self = Ok self' ->
    (forall k, k ∈ keys -> exists v, g base k = Ok v /\ self' !! k = Some v) /\
    (forall k, k ∉ keys -> self' !! k = self !! k).
Proof.
  induction keys as [|key keys IH]; intros Hplain self self'.
  - intros [= <-]. split; [|done]. intros k Hk. by apply elem_of_nil in Hk.
  - cbn [copy_from_base].
    destruct (g base key) as [v|e] eqn:Hg; [|done]. cbn [mbind res_bind].
    rewrite (Hplain key) by (apply elem_of_cons; by left). cbn [mbind res_bind].
    intros Hrun.
    apply IH in Hrun as [Hin Hout];
      [|intros k Hk; apply Hplain; apply elem_of_cons; by right].
    split.
    + intros k Hk. destruct (decide (k ∈ keys)) as [Hk'|Hk']; [by apply Hin|].
      apply elem_of_cons in Hk as [->|Hk]; [|done].
      exists v. split; [done|]. rewrite (Hout key Hk'). apply lookup_insert_eq.
    + intros k Hk. rewrite not_elem_of_cons in Hk. destruct Hk as [Hne Hk].
      rewrite (Hout k Hk). by rewrite lookup_insert_ne.
Qed.

(** The number of a constructed shape: the keyword when it is not [None],
    else what the base reads, else the empty string of [Shape.__init__]. *)
Lemma shape_init_number kd g kw a :
  shape_init kd g kw = Ok a ->
  exists v0,
    (if is_none (kwargs_get kw "base") then v0 = VStr ""
     else g (kwargs_get kw "base") "number" = Ok v0) /\
    a !! "number" =
      Some (if is_none (kwargs_get kw "number") then v0 else kwargs_get kw "number").
Proof.
  destruct kd; cbn [shape_init]; unfold Pad.init, Pin.init, init_from.
  - set (s0 := <["round" := VBool false]> Shape_init).
    destruct (if is_none (kwargs_get kw "base") then Ok s0
              else copy_from_base g Pad.setattr (kwargs_get kw "base")
                     Pad.inheritable_keys s0) as [s1|e] eqn:E1; [|done].
    cbn [mbind res_bind].
    assert (H1 : exists v0,
      (if is_none (kwargs_get kw "base") then v0 = VStr ""
       else g (kwargs_get kw "base") "number" = Ok v0) /\ s1 !! "number" = Some v0).
    { destruct (is_none (kwargs_get kw "base")).
      - injection E1 as <-. by exists (VStr "").
      - apply copy_from_base_lookup in E1 as [Hin _].
        + apply Hin. key_in.
        + intros k Hk self v. apply Pad_setattr_plain. by apply inheritable_keys_plain. }
    destruct H1 as (v0 & Hv0 & Hs1). exists v0. split; [exact Hv0|].
    unfold Pad.all_keys in *. rewrite apply_kwargs_app in H.
    destruct (apply_kwargs_plain Pad.setattr kw Pad.inheritable_keys
                (fun k Hk self v => Pad_setattr_plain k self v (inheritable_keys_plain k Hk))
                s1) as (a1 & Hrun & Hlook).
    rewrite Hrun in H. cbn [mbind res_bind] in H.
    eapply (apply_kwargs_inv (fun s => s !! "number" = _)); [| |exact H].
    + intros k s v s' Hk Hs E.
      destruct (Pad_setattr_insert _ _ _ _ E) as (k' & v' & -> & Hk').
      rewrite lookup_insert_ne; [exact Hs|].
      intros ->. destruct Hk' as [<-|Hk']; [key_out Hk | key_out Hk'].
    + rewrite Hlook, Hs1, (bool_decide_eq_true_2 ("number" ∈ Pad.inheritable_keys))
        by key_in.
      by destruct (is_none (kwargs_get kw "number")).
  - set (s0 := <["round" := VBool true]> Shape_init).
    destruct (if is_none (kwargs_get kw "base") then Ok s0
              else copy_from_base g Pin.setattr (kwargs_get kw "base")
                     Pin.keys s0) as [s1|e] eqn:E1; [|done].
    cbn [mbind res_bind]. intros H.
    assert (H1 : exists v0,
      (if is_none (kwargs_get kw "base") then v0 = VStr ""
       else g (kwargs_get kw "base") "number" = Ok v0) /\ s1 !! "number" = Some v0).
    { destruct (is_none (kwargs_get kw "base")).
      - injection E1 as <-. by exists (VStr "").
      - apply copy_from_base_lookup in E1 as [Hin _].
        + apply Hin. key_in.
        + intros k Hk self v. apply Pin_setattr_plain. by apply Pin_keys_plain. }
    destruct H1 as (v0 & Hv0 & Hs1). exists v0. split; [exact Hv0|].
    destruct (apply_kwargs_plain Pin.setattr kw Pin.keys
                (fun k Hk self v => Pin_setattr_plain k self v (Pin_keys_plain k Hk))
                s1) as (a1 & Hrun & Hlook).
    rewrite Hrun in H. injection H as <-.
    rewrite Hlook, Hs1, (bool_decide_eq_true_2 ("number" ∈ Pin.keys)) by key_in.
    by destruct (is_none (kwargs_get kw "number")).
Qed.

(** X14: [add_pad] and [add_pin] put the new shape at the end of the
    footprint and count up once, whatever its number.  The number is the
    counter's value when neither [base] nor [number] is passed; the [number]
    passed when it is not [None]; and, when [base] is passed without a
    number, the number the base reads (the empty string for [base=None]),
    not the counter's. *)
Theorem add_shape_numbering (kd : kind) (kw : gmap string value)
    (f : Footprint.t) (h : list obj) (l : nat) (f' : Footprint.t) (h' : list obj) :
  add_shape kd kw f h = Ok (l, f', h') ->
  l = length h /\
  Footprint.pinpadcounter f' = (Footprint.pinpadcounter f + 1)%Z /\
  Footprint.shapes f' = Footprint.shapes f ++ [l] /\
  exists a, h' = h ++ [shape_obj kd a] /\
    (kw !! "base" = None -> kw !! "number" = None ->
       a !! "number" = Some (VNum (Int (Footprint.pinpadcounter f)))) /\
    (is_none (kwargs_get kw "number") = false ->
       a !! "number" = Some (kwargs_get kw "number")) /\
    (forall b, kw !! "base" = Some b -> kwargs_get kw "number" = VNone ->
       exists v0,
         (if is_none b then v0 = VStr "" else getattr3 h b "number" = Ok v0) /\
         a !! "number" = Some v0).
Proof.
  rewrite add_shape_unfold.
  destruct (shape_init kd (getattr3 h) (Footprint.numbered f kw)) as [a|e] eqn:Hinit;
    [|done].
  cbn [mbind res_bind]. intros [= <- <- <-].
  split; [done|]. split; [done|]. split; [done|].
  exists a. split; [done|].
  destruct (shape_init_number _ _ _ _ Hinit) as (v0 & Hv0 & Hnum).
  unfold Footprint.numbered in Hv0, Hnum. split; [|split].
  - intros Hb Hn. rewrite Hb, Hn in Hnum.
    unfold kwargs_get in Hnum. rewrite lookup_insert_eq in Hnum. exact Hnum.
  - intros Hn. destruct (kw !! "base") as [b|] eqn:Hb.
    + by rewrite Hn in Hnum.
    + unfold kwargs_get in Hnum, Hn |- *. rewrite lookup_insert_eq in Hnum.
      destruct (kw !! "number") as [n|]; [|done]. cbn [from_option id] in *.
      by rewrite Hn in Hnum.
  - intros b Hb Hn. rewrite Hb in Hv0, Hnum. rewrite Hn in Hnum.
    exists v0. split; [|done]. unfold kwargs_get in Hv0. by rewrite Hb in Hv0.
Qed.

Lemma add_shape_numbering_witness :
  let p1 : gmap string value :=
    <["x" := VNum (Int 3)]> (<["y" := VNum (Int 4)]>
    (<["hole" := VNum (Int 1)]> (<["diameter" := VNum (Int 2)]>
    (<["number" := VStr "S"]> Pin_blank)))) in
  let f := Footprint.count_up (Footprint.append (Footprint.init (VStr "P") ∅) 0) in
  exists l f' h',
    Footprint.add_pin (<["base" := VObj 0]> (<["x" := VNum (Int 9)]> ∅)) f [OPin p1]
      = Ok (l, f', h') /\
    l = 1%nat /\ Footprint.pinpadcounter f' = 3%Z /\
    exists a, h' = [OPin p1] ++ [OPin a] /\ a !! "number" = Some (VStr "S").
Proof.
  intros p1 f.
  assert (Hrun : exists r,
    Footprint.add_pin (<["base" := VObj 0]> (<["x" := VNum (Int 9)]> ∅)) f [OPin p1]
      = Ok r) by (eexists; vm_compute; reflexivity).
  destruct Hrun as [[[l f'] h'] Hrun]. exists l, f', h'. split; [exact Hrun|].
  destruct (add_shape_numbering KPin _ f [OPin p1] l f' h' Hrun)
    as (Hl & Hc & _ & a & Hh & _ & _ & Hbase).
  split; [exact Hl|]. split; [exact Hc|]. exists a. split; [exact Hh|].
  destruct (Hbase (VObj 0) eq_refl eq_refl) as (v0 & Hv0 & Ha).
  cbn [is_none] in Hv0. rewrite Ha. f_equal.
  assert (E : getattr3 [OPin p1] (VObj 0) "number" = Ok (VStr "S")) by reflexivity.
  rewrite E in Hv0. by injection Hv0.
Defined.

(** ** Array placement: what it touches and how it fails *)

Lemma grown_grown f start n k n' k' :
  grown (grown f start n k) (start + n) n' k' = grown f start (n + n') (k + k').
Proof.
  unfold grown. cbn. f_equal.
  - by rewrite <- app_assoc, seq_app.
  - lia.
Qed.

Lemma grown_one f start :
  Footprint.count_up (Footprint.append f start) = grown f start 1 1.
Proof. reflexivity. Qed.

(** The loop of [__add_shapes], for any keywords: when it returns, it has
    put [n] shapes of its kind at the end of the heap and of the footprint
    and counted up [n] times, and nothing else has changed. *)
Lemma add_shapes_loop_frame kd dx dy :
  forall n i added number kw f h r,
    Footprint.add_shapes_loop (add_shape kd) dx dy n i added number kw f h = Ok r ->
    exists objs,
      r = (added ++ seq (length h) n, grown f (length h) n n, h ++ objs) /\
      length objs = n /\
      Forall (fun o => exists a, o = shape_obj kd a) objs.
Proof.
  induction n as [|n IH]; intros i added number kw f h r.
  - cbn [Footprint.add_shapes_loop]. intros [= <-]. exists [].
    rewrite !app_nil_r. split; [|done]. f_equal. f_equal.
    destruct f. unfold grown. cbn. f_equal; [by rewrite app_nil_r | lia].
  - cbn [Footprint.add_shapes_loop]. rewrite add_shape_unfold.
    destruct (shape_init kd _ _) as [a|e]; [|done]. cbn [mbind res_bind].
    destruct (Footprint.item _ "x") as [x|e]; [|done]. cbn [mbind res_bind].
    destruct (Footprint.step dx i) as [sx|e]; [|done]. cbn [mbind res_bind].
    destruct (py_add x sx) as [x'|e]; [|done]. cbn [mbind res_bind].
    destruct (Footprint.item _ "y") as [y|e]; [|done]. cbn [mbind res_bind].
    destruct (Footprint.step dy i) as [sy|e]; [|done]. cbn [mbind res_bind].
    destruct (py_add y sy) as [y'|e]; [|done]. cbn [mbind res_bind].
    destruct (py_add number (VNum (Int 1))) as [number'|e]; [|done].
    cbn [mbind res_bind]. intros Hrun.
    apply IH in Hrun as (objs & -> & Hlen & Hall).
    exists (shape_obj kd a :: objs).
    rewrite length_app. cbn [length].
    replace (length h + 1)%nat with (S (length h)) by lia.
    split; [|split].
    + rewrite grown_one.
      replace (S (length h)) with (length h + 1)%nat by lia.
      rewrite grown_grown. cbn [seq Nat.add].
      replace (length h + 1)%nat with (S (length h)) by lia.
      by rewrite <- !app_assoc.
    + cbn [length]. lia.
    + constructor; [by exists a | done].
Qed.

(** X15: whatever its keywords, an array placement that returns has added
    [count] shapes of its kind after the objects of the heap and after the
    shapes of the footprint, returns their addresses in order, and has
    counted up [count] times; the objects already there, the mark and the
    other attributes of the footprint are as before. *)
Theorem array_placement_frame (kd : kind) (count : nat)
    (kw : gmap string value) (f : Footprint.t) (h : list obj)
    (added : list nat) (f' : Footprint.t) (h' : list obj) :
  Footprint.add_shapes count (add_shape kd) kw f h = Ok (added, f', h') ->
  added = seq (length h) count /\
  f' = grown f (length h) count count /\
  exists objs,
    h' = h ++ objs /\ length objs = count /\
    Forall (fun o => exists a, o = shape_obj kd a) objs /\
    forall l, (l < length h)%nat -> h' !! l = h !! l.
Proof.
  unfold Footprint.add_shapes. intros Hrun.
  apply add_shapes_loop_frame in Hrun as (objs & [= -> -> ->] & Hlen & Hall).
  split; [done|]. split; [done|]. exists objs.
  split; [done|]. split; [done|]. split; [done|].
  intros l Hl. by apply lookup_app_l.
Qed.

Lemma array_placement_frame_witness :
  let kw : gmap string value :=
    <["x" := VNum (Int 0)]> (<["y" := VNum (Int 0)]>
    (<["dx" := VNum (Int 10)]> ∅)) in
  exists added f' h',
    Footprint.add_pins 2 kw (Footprint.init (VStr "P") ∅) [] = Ok (added, f', h') /\
    added = [0; 1]%nat /\ Footprint.pinpadcounter f' = 3%Z /\ length h' = 2%nat.
Proof.
  intros kw.
  assert (Hrun : exists r,
    Footprint.add_pins 2 kw (Footprint.init (VStr "P") ∅) [] = Ok r)
    by (eexists; vm_compute; reflexivity).
  destruct Hrun as [[[added f'] h'] Hrun]. exists added, f', h'.
  split; [exact Hrun|].
  destruct (array_placement_frame KPin 2 kw _ [] added f' h' Hrun)
    as (Ha & Hf & objs & Hh & Hlen & _).
  split; [exact Ha|]. split; [by rewrite Hf|]. by rewrite Hh.
Defined.

Lemma add_pin_no_base kw f h :
  kw !! "base" = None ->
  exists a, Footprint.add_pin kw f h =
    Ok (length h, Footprint.count_up (Footprint.append f (length h)), h ++ [OPin a]).
Proof.
  intros Hb. unfold Footprint.add_pin.
  destruct (Pin_init_stored (getattr3 h) (Footprint.numbered f kw)) as (a & Hinit & _).
  - unfold Footprint.numbered, kwargs_get. rewrite Hb.
    rewrite lookup_insert_ne by done. by rewrite Hb.
  - rewrite Hinit. by exists a.
Qed.

(** X16: how an array of pins without a base fails.  Placing no pin
    always succeeds and changes nothing.  Placing at least one raises
    [KeyError] when [x], or then [y], is not among the keywords, since the
    step is added to it after the first placement; [ZeroDivisionError] when
    [dx] is the empty tuple; and [TypeError] when the number passed is a
    string, since 1 is added to it after the first placement, even if no
    second pin is asked for. *)
Theorem add_pins_failures (n : nat) (kw : gmap string value)
    (f : Footprint.t) (h : list obj) :
  Footprint.add_pins 0 kw f h = Ok ([], f, h) /\
  (kw !! "base" = None -> kw !! "x" = None ->
     Footprint.add_pins (S n) kw f h = Err (KeyError "x")) /\
  (forall x0, kw !! "base" = None -> kw !! "x" = Some (VNum x0) ->
     is_step (default (VNum (Int 0)) (kw !! "dx")) = true -> kw !! "y" = None ->
     Footprint.add_pins (S n) kw f h = Err (KeyError "y")) /\
  (forall x0, kw !! "base" = None -> kw !! "x" = Some x0 ->
     kw !! "dx" = Some (VTuple []) ->
     Footprint.add_pins (S n) kw f h = Err ZeroDivisionError) /\
  (forall x0 y0 s, kw !! "base" = None ->
     kw !! "x" = Some (VNum x0) -> kw !! "y" = Some (VNum y0) ->
     is_step (default (VNum (Int 0)) (kw !! "dx")) = true ->
     is_step (default (VNum (Int 0)) (kw !! "dy")) = true ->
     kw !! "number" = Some (VStr s) ->
     Footprint.add_pins (S n) kw f h = Err TypeError).
Proof.
  split; [done|].
  unfold Footprint.add_pins, Footprint.add_shapes. cbn [Footprint.add_shapes_loop].
  set (number := default (VNum (Int (Footprint.pinpadcounter f))) (kw !! "number")).
  assert (Hpin : kw !! "base" = None -> exists a,
    Footprint.add_pin (<["number" := number]> kw) f h =
    Ok (length h, Footprint.count_up (Footprint.append f (length h)), h ++ [OPin a])).
  { intros Hb. apply add_pin_no_base. by rewrite lookup_insert_ne. }
  split; [|split; [|split]].
  - intros Hb Hx. destruct (Hpin Hb) as (a & ->). cbn [mbind res_bind].
    unfold Footprint.item. rewrite lookup_insert_ne by done. by rewrite Hx.
  - intros x0 Hb Hx Hdx Hy. destruct (Hpin Hb) as (a & ->). cbn [mbind res_bind].
    unfold Footprint.item. rewrite lookup_insert_ne by done. rewrite Hx.
    cbn [mbind res_bind]. rewrite (step_is_step _ 0 Hdx).
    cbn [mbind res_bind py_add as_num].
    rewrite !lookup_insert_ne by done. by rewrite Hy.
  - intros x0 Hb Hx Hdx. destruct (Hpin Hb) as (a & ->). cbn [mbind res_bind].
    unfold Footprint.item. rewrite lookup_insert_ne by done. rewrite Hx, Hdx.
    reflexivity.
  - intros x0 y0 s Hb Hx Hy Hdx Hdy Hn. destruct (Hpin Hb) as (a & ->).
    cbn [mbind res_bind].
    unfold Footprint.item. rewrite lookup_insert_ne by done. rewrite Hx.
    cbn [mbind res_bind]. rewrite (step_is_step _ 0 Hdx).
    cbn [mbind res_bind py_add as_num].
    rewrite !lookup_insert_ne by done. rewrite Hy.
    cbn [mbind res_bind]. rewrite (step_is_step _ 0 Hdy).
    cbn [mbind res_bind py_add as_num].
    subst number. rewrite Hn. reflexivity.
Qed.

Lemma add_pins_failures_witness :
  Footprint.add_pins 1
    (<["x" := VNum (Int 0)]> (<["y" := VNum (Int 0)]>
     (<["number" := VStr "A"]> ∅)))
    (Footprint.init (VStr "P") ∅) [] = Err TypeError /\
  Footprint.add_pins 3 (<["y" := VNum (Int 0)]> ∅)
    (Footprint.init (VStr "P") ∅) [] = Err (KeyError "x").
Proof.
  split.
  - apply (proj2 (proj2 (proj2 (proj2 (add_pins_failures 0 _ _ _)))))
      with (x0 := Int 0) (y0 := Int 0) (s := "A"); reflexivity.
  - apply (proj1 (proj2 (add_pins_failures 2 _ _ _))); reflexivity.
Defined.

(** ** Scripts: what any sequence of builder calls maintains *)

Lemma numbered_count_app (a b : list obj) :
  numbered_count (a ++ b) = (numbered_count a + numbered_count b)%nat.
Proof. unfold numbered_count. by rewrite List.filter_app, length_app. Qed.

Lemma kind_numbered kd (objs : list obj) :
  Forall (fun o => exists a, o = shape_obj kd a) objs ->
  numbered_count objs = length objs.
Proof.
  induction 1 as [|o objs [a ->] _ IH]; [done|].
  unfold numbered_count in *. destruct kd; cbn; by rewrite IH.
Qed.

(** One builder call only appends: to the heap, and the addresses of what
    it appended to the shapes; it counts up once per pad or pin appended
    and keeps the name and the description. *)
Lemma run_call_frame c f h f' h' :
  run_call c f h = Ok (f', h') ->
  exists objs,
    h' = h ++ objs /\
    Footprint.name f' = Footprint.name f /\
    Footprint.description f' = Footprint.description f /\
    Footprint.shapes f' = Footprint.shapes f ++ seq (length h) (length objs) /\
    Footprint.pinpadcounter f' =
      (Footprint.pinpadcounter f + Z.of_nat (numbered_count objs))%Z.
Proof.
  destruct c as [kw|kw|n kw|n kw|x1 y1 x2 y2 kw|pts kw|x y kw|v]; cbn [run_call].
  - change Footprint.add_pad with (add_shape KPad). rewrite add_shape_unfold.
    destruct (shape_init _ _ _) as [a|e]; [|done]. cbn [mbind res_bind].
    intros [= <- <-]. by exists [OPad a].
  - change Footprint.add_pin with (add_shape KPin). rewrite add_shape_unfold.
    destruct (shape_init _ _ _) as [a|e]; [|done]. cbn [mbind res_bind].
    intros [= <- <-]. by exists [OPin a].
  - destruct (Footprint.add_pads n kw f h) as [[[l f1] h1]|e] eqn:E; [|done].
    cbn [mbind res_bind]. intros [= <- <-].
    unfold Footprint.add_pads, Footprint.add_shapes in E.
    apply (add_shapes_loop_frame KPad) in E as (objs & [= _ -> ->] & Hlen & Hall).
    exists objs. rewrite (kind_numbered _ _ Hall), Hlen. by cbn.
  - destruct (Footprint.add_pins n kw f h) as [[[l f1] h1]|e] eqn:E; [|done].
    cbn [mbind res_bind]. intros [= <- <-].
    unfold Footprint.add_pins, Footprint.add_shapes in E.
    apply (add_shapes_loop_frame KPin) in E as (objs & [= _ -> ->] & Hlen & Hall).
    exists objs. rewrite (kind_numbered _ _ Hall), Hlen. by cbn.
  - unfold Footprint.add_line. intros [= <- <-].
    eexists [_]. repeat split; try done.
    change (numbered_count [_]) with 0%nat. cbn. lia.
  - unfold Footprint.add_polyline.
    destruct (SilkPolyline.init pts kw) as [p|e]; [|done]. cbn [mbind res_bind].
    intros [= <- <-]. eexists [_]. repeat split; try done.
    change (numbered_count [_]) with 0%nat. cbn. lia.
  - unfold Footprint.add_arc.
    destruct (SilkArc.init x y kw) as [c|e]; [|done]. cbn [mbind res_bind].
    intros [= <- <-]. eexists [_]. repeat split; try done.
    change (numbered_count [_]) with 0%nat. cbn. lia.
  - unfold Footprint.mark.
    destruct (getattr h v "x") as [mx|e]; [|done]. cbn [mbind res_bind].
    destruct (getattr h v "y") as [my|e]; [|done]. cbn [mbind res_bind].
    intros [= <- <-]. exists []. cbn. rewrite !app_nil_r.
    repeat split; try done. lia.
Qed.

Lemma run_frame cs : forall f h f' h',
  run cs f h = Ok (f', h') ->
  exists objs,
    h' = h ++ objs /\
    Footprint.name f' = Footprint.name f /\
    Footprint.description f' = Footprint.description f /\
    Footprint.shapes f' = Footprint.shapes f ++ seq (length h) (length objs) /\
    Footprint.pinpadcounter f' =
      (Footprint.pinpadcounter f + Z.of_nat (numbered_count objs))%Z.
Proof.
  induction cs as [|c cs IH]; intros f h f' h'; cbn [run].
  - intros [= <- <-]. exists []. cbn. rewrite !app_nil_r.
    repeat split; try done. lia.
  - destruct (run_call c f h) as [[f1 h1]|e] eqn:E; [|done]. cbn [mbind res_bind].
    intros Hrun.
    apply run_call_frame in E as (objs1 & -> & Hn1 & Hd1 & Hs1 & Hc1).
    apply IH in Hrun as (objs2 & -> & Hn2 & Hd2 & Hs2 & Hc2).
    exists (objs1 ++ objs2).
    rewrite <- app_assoc, Hn2, Hd2, Hs2, Hc2, Hs1, Hc1, numbered_count_app.
    rewrite !length_app, seq_app, <- app_assoc.
    repeat split; try done. lia.
Qed.

(** X17: take any sequence of calls of the builder methods ([add_pad],
    [add_pin], [add_pads], [add_pins], [add_line], [add_polyline],
    [add_arc], [mark]) on a new footprint.  If none of them raises, the
    footprint's shapes are exactly the objects created, in the order of
    their creation; the counter is one more than the number of pads and pins
    among them, whatever numbers they were given; and the name and the
    description are those the footprint was made with. *)
Theorem script_invariant (cs : list call) (name : value)
    (kw : gmap string value) (f : Footprint.t) (h : list obj) :
  run cs (Footprint.init name kw) [] = Ok (f, h) ->
  Footprint.shapes f = seq 0 (length h) /\
  Footprint.pinpadcounter f = (1 + Z.of_nat (numbered_count h))%Z /\
  Footprint.name f = name /\
  Footprint.description f = default (VStr "") (kw !! "description").
Proof.
  intros Hrun. apply run_frame in Hrun as (objs & -> & Hn & Hd & Hs & Hc).
  cbn in *. by rewrite Hs, Hc, Hn, Hd.
Qed.

Lemma script_invariant_witness :
  let cs :=
    [AddPins 2 (<["x" := VNum (Int 0)]> (<["y" := VNum (Int 0)]>
                (<["dx" := VNum (Int 10)]> ∅)));
     AddLine (VNum (Int 0)) (VNum (Int 0)) (VNum (Int 5)) (VNum (Int 5)) ∅;
     AddPin (<["x" := VNum (Int 7)]> (<["y" := VNum (Int 7)]>
             (<["number" := VStr "S"]> ∅)));
     Mark (VObj 1)] in
  exists f h,
    run cs (Footprint.init (VStr "P") ∅) [] = Ok (f, h) /\
    Footprint.shapes f = [0; 1; 2; 3]%nat /\ Footprint.pinpadcounter f = 4%Z.
Proof.
  intros cs.
  assert (Hrun : exists r, run cs (Footprint.init (VStr "P") ∅) [] = Ok r /\
                           length r.2 = 4%nat /\ numbered_count r.2 = 3%nat)
    by (eexists; vm_compute; repeat split; reflexivity).
  destruct Hrun as [[f h] (Hrun & Hlen & Hcnt)]. exists f, h.
  split; [exact Hrun|].
  destruct (script_invariant cs _ _ f h Hrun) as (Hs & Hc & _).
  cbn [snd] in Hlen, Hcnt. rewrite Hs, Hc, Hlen, Hcnt. by split.
Defined.

(** ** Looking a shape up by its number *)

Lemma getattr3_number_total h l : exists v, getattr3 h (VObj l) "number" = Ok v.
Proof.
  unfold getattr3, getattr. destruct (h !! l) as [[a|a|s|p|c]|]; cbn [obj_getattr].
  - rewrite (Pad_getattr_plain "number") by reflexivity.
    destruct (a !! "number") as [v|]; [by exists v|]. by exists VNone.
  - rewrite (Pin_getattr_plain "number") by reflexivity.
    destruct (a !! "number") as [v|]; [by exists v|]. by exists VNone.
  - by exists VNone.
  - by exists VNone.
  - by exists VNone.
  - by exists VNone.
Qed.

Lemma first_numbered_spec h number : forall ls,
  (exists i l, ls !! i = Some l /\
     Footprint.first_numbered h number ls = Ok (VObj l) /\
     py_eq (number_of h l) number = true /\
     forall j l', (j < i)%nat -> ls !! j = Some l' ->
       py_eq (number_of h l') number = false) \/
  (Footprint.first_numbered h number ls = Ok VNone /\
   forall l, l ∈ ls -> py_eq (number_of h l) number = false).
Proof.
  induction ls as [|l ls IH].
  - right. split; [done|]. intros l Hl. by apply elem_of_nil in Hl.
  - cbn [Footprint.first_numbered].
    destruct (getattr3_number_total h l) as [v Hv].
    assert (Hnum : number_of h l = v) by (unfold number_of; by rewrite Hv).
    rewrite Hv. cbn [mbind res_bind].
    destruct (py_eq v number) eqn:E.
    + left. exists 0%nat, l. rewrite Hnum. repeat split; try done.
      intros j l' Hj. lia.
    + destruct IH as [(i & l0 & Hi & Hres & Heq & Hbefore)|[Hres Hnone]].
      * left. exists (S i), l0. repeat split; try done.
        intros [|j] l' Hj Hl'.
        -- injection Hl' as <-. by rewrite Hnum.
        -- apply (Hbefore j); [lia|done].
      * right. split; [done|]. intros l0 Hl0.
        apply elem_of_cons in Hl0 as [->|Hl0]; [by rewrite Hnum|by apply Hnone].
Qed.

(** X18: looking a number up never raises.  It returns the first shape,
    in the order of insertion, whose number equals the number asked for,
    where a shape without the attribute (a silkscreen shape) counts as
    numbered [None]; and it returns [None] when no shape of the footprint
    has that number. *)
Theorem getitem_first_match (number : value) (f : Footprint.t) (h : list obj) :
  (exists i l, Footprint.shapes f !! i = Some l /\
     Footprint.getitem number f h = Ok (VObj l) /\
     py_eq (number_of h l) number = true /\
     forall j l', (j < i)%nat -> Footprint.shapes f !! j = Some l' ->
       py_eq (number_of h l') number = false) \/
  (Footprint.getitem number f h = Ok VNone /\
   forall l, l ∈ Footprint.shapes f -> py_eq (number_of h l) number = false).
Proof.
  unfold Footprint.getitem.
  destruct (first_numbered_spec h number (Footprint.shapes f))
    as [(i & l & Hi & Hres & Heq & Hbefore)|[Hres Hnone]].
  - left. by exists i, l.
  - right. by split.
Qed.

Lemma getitem_first_match_witness :
  let a1 : gmap string value := <["number" := VNum (Int 1)]> Pin_blank in
  let a2 : gmap string value := <["number" := VNum (Float 1)]> Pin_blank in
  let f := Footprint.mk (VStr "P") (VStr "") (VNum (Int 0)) (VNum (Int 0))
             (VNum (Int 0)) (VNum (Int 0)) (VNum (Int 0)) (VNum (Int 100))
             [0; 1]%nat 3 in
  Footprint.getitem (VNum (Int 1)) f [OPin a1; OPin a2] = Ok (VObj 0) /\
  Footprint.getitem (VStr "1") f [OPin a1; OPin a2] = Ok VNone.
Proof.
  intros a1 a2 f. split.
  - destruct (getitem_first_match (VNum (Int 1)) f [OPin a1; OPin a2])
      as [(i & l & Hi & Hres & _ & Hbefore)|[_ Hnone]].
    + destruct i as [|i].
      * injection Hi as <-. exact Hres.
      * by specialize (Hbefore 0%nat 0%nat ltac:(lia) eq_refl).
    + by specialize (Hnone 0%nat (list_elem_of_here 0%nat [1%nat])).
  - destruct (getitem_first_match (VStr "1") f [OPin a1; OPin a2])
      as [(i & l & Hi & _ & Heq & _)|[Hres _]]; [|exact Hres].
    destruct i as [|[|i]]; [injection Hi as <-|injection Hi as <-|done];
      by vm_compute in Heq.
Defined.

Lemma py_eq_Int a b : py_eq (VNum (Int a)) (VNum (Int b)) = (a =? b)%Z.
Proof.
  cbn [py_eq as_num num_Q].
  destruct (Z.eqb_spec a b) as [->|Hne].
  - apply Qeq_bool_iff. reflexivity.
  - apply not_true_is_false. intros E%Qeq_bool_iff.
    apply Hne. unfold Qeq in E. cbn in E. lia.
Qed.

Lemma number_of_app_l h objs l :
  (l < length h)%nat -> number_of (h ++ objs) l = number_of h l.
Proof.
  intros Hl. unfold number_of, getattr3, getattr. by rewrite lookup_app_l.
Qed.

Lemma number_of_stored kd h l a v :
  h !! l = Some (shape_obj kd a) -> a !! "number" = Some v -> number_of h l = v.
Proof.
  intros Hl Ha. unfold number_of.
  rewrite (getattr3_stored kd h l a "number" Hl (number_in_keys kd)).
  by rewrite Ha.
Qed.

Lemma first_numbered_skip h number ls1 ls2 :
  (forall l, l ∈ ls1 -> py_eq (number_of h l) number = false) ->
  Footprint.first_numbered h number (ls1 ++ ls2) = Footprint.first_numbered h number ls2.
Proof.
  induction ls1 as [|l ls1 IH]; intros Hnone; [done|].
  cbn [app Footprint.first_numbered].
  destruct (getattr3_number_total h l) as [v Hv].
  assert (Hnum : number_of h l = v) by (unfold number_of; by rewrite Hv).
  rewrite Hv. cbn [mbind res_bind].
  rewrite <- Hnum, Hnone by (rewrite elem_of_cons; tauto).
  apply IH. intros l0 Hl0. apply Hnone. rewrite elem_of_cons. tauto.
Qed.

(** X19: an array of pins placed without a number can be looked up by the
    numbers it was given.  Take a footprint none of whose shapes has one of
    the numbers from the counter's value on; after [add_pins], looking up
    the counter's old value plus [j] returns the pin of index [j] of the
    array. *)
Theorem getitem_after_add_pins (count : nat) (kw : gmap string value)
    (f : Footprint.t) (h : list obj) (x0 y0 : num)
    (added : list nat) (f' : Footprint.t) (h' : list obj) :
  let dx := default (VNum (Int 0)) (kw !! "dx") in
  let dy := default (VNum (Int 0)) (kw !! "dy") in
  kw !! "number" = None ->
  kw !! "x" = Some (VNum x0) -> kw !! "y" = Some (VNum y0) ->
  is_step dx = true -> is_step dy = true ->
  (forall l, l ∈ Footprint.shapes f ->
     (l < length h)%nat /\
     forall j, (j < count)%nat ->
       py_eq (number_of h l)
             (VNum (Int (Footprint.pinpadcounter f + Z.of_nat j))) = false) ->
  Footprint.add_pins count kw f h = Ok (added, f', h') ->
  forall j l, added !! j = Some l ->
    Footprint.getitem (VNum (Int (Footprint.pinpadcounter f + Z.of_nat j))) f' h'
      = Ok (VObj l).
Proof.
  intros dx dy Hn Hx Hy Hdx Hdy Hfresh Hrun j l Hl.
  assert (Hcall : Footprint.add_pins count kw f h =
            Footprint.add_shapes_loop Footprint.add_pin dx dy count 0 []
              (VNum (nth_number (Int (Footprint.pinpadcounter f)) 0)) kw f h).
  { unfold Footprint.add_pins, Footprint.add_shapes. by rewrite Hn. }
  rewrite Hcall in Hrun.
  pose proof Hrun as Hframe.
  apply (add_shapes_loop_frame KPin) in Hframe as (objs' & [= -> -> ->] & _ & _).
  apply (add_pins_loop_sound dx dy x0 y0 _ Hdx Hdy) in Hrun
    as (objs & self' & [= _ Hobjs'] & Hlen & _ & Hobjs); [|done..].
  apply app_inv_head in Hobjs' as ->.
  cbn [app] in Hl. apply lookup_seq in Hl as [-> Hj]. cbn [Nat.add] in Hobjs.
  assert (Hnum : forall i, (i < count)%nat ->
            number_of (h ++ objs) (length h + i) =
            VNum (Int (Footprint.pinpadcounter f + Z.of_nat i))).
  { intros i Hi. destruct (Hobjs i Hi) as (a & Ho & Hna & _).
    rewrite nth_number_Int in Hna.
    apply (number_of_stored KPin _ _ a); [|done].
    rewrite lookup_app_r by lia.
    by replace (length h + i - length h)%nat with i by lia. }
  unfold Footprint.getitem, grown. cbn [Footprint.shapes].
  rewrite first_numbered_skip.
  2:{ intros l Hl. destruct (Hfresh l Hl) as [Hlt Hne].
      rewrite number_of_app_l by done. by apply Hne. }
  destruct (first_numbered_spec (h ++ objs)
              (VNum (Int (Footprint.pinpadcounter f + Z.of_nat j)))
              (seq (length h) count))
    as [(i & l & Hi & Hres & Heq & _)|[_ Hnone]].
  - apply lookup_seq in Hi as [-> Hi]. rewrite Hres.
    rewrite (Hnum i Hi), py_eq_Int in Heq. apply Z.eqb_eq in Heq.
    by replace i with j by lia.
  - specialize (Hnone (length h + j)%nat).
    rewrite (Hnum j Hj), py_eq_Int, Z.eqb_refl in Hnone.
    discriminate Hnone. apply elem_of_seq. lia.
Qed.

Lemma getitem_after_add_pins_witness :
  let kw : gmap string value :=
    <["x" := VNum (Int 0)]> (<["y" := VNum (Int 0)]>
    (<["dx" := VNum (Int 10)]> ∅)) in
  exists added f' h',
    Footprint.add_pins 3 kw (Footprint.init (VStr "P") ∅) [] = Ok (added, f', h') /\
    Footprint.getitem (VNum (Int 3)) f' h' = Ok (VObj 2).
Proof.
  intros kw.
  assert (Hrun : exists r,
    Footprint.add_pins 3 kw (Footprint.init (VStr "P") ∅) [] = Ok r /\
    r.1.1 !! 2%nat = Some 2%nat)
    by (eexists; vm_compute; split; reflexivity).
  destruct Hrun as [[[added f'] h'] [Hrun Hl]]. exists added, f', h'.
  split; [exact Hrun|]. cbn [fst] in Hl.
  change (Footprint.getitem
            (VNum (Int (Footprint.pinpadcounter (Footprint.init (VStr "P") ∅)
                        + Z.of_nat 2))) f' h' = Ok (VObj 2)).
  apply (getitem_after_add_pins 3 kw (Footprint.init (VStr "P") ∅) []
           (Int 0) (Int 0) added f' h'); try reflexivity; try done.
  intros l Hin. by apply elem_of_nil in Hin.
Defined.

(** ** Serializing and writing under the module's own names *)

Lemma SilkLine_pcb_repr_raises s tx ty :
  SilkLine.pcb_repr footprint_globals s tx ty =
    Err (NameError "_SilkLine__mil_to_unit").
Proof.
  unfold SilkLine.pcb_repr.
  rewrite call_global_unbound by (vm_compute; reflexivity). reflexivity.
Qed.

(** X20: converting a footprint to text raises [NameError] for the name
    [_Footprint__mil_to_unit], whatever the footprint holds, even no shape:
    the header is formatted first, and inside the class the conversion
    helper is looked up under its mangled name, which the module does not
    bind. *)
Theorem Footprint_str_never_returns (f : Footprint.t) (h : list obj) :
  Footprint.str footprint_globals f h = Err (NameError "_Footprint__mil_to_unit").
Proof.
  unfold Footprint.str.
  rewrite (call_global_unbound "Footprint") by (vm_compute; reflexivity).
  reflexivity.
Qed.

(** X21: the silkscreen shapes serialize no better.  A line and an arc
    raise [NameError] for the helper's name mangled with their class; a
    polyline raises the line's [NameError] as soon as it has a segment, and
    returns the empty text when it has none, as a polyline made from no
    point or one point has. *)
Theorem silk_pcb_repr_raises (tx ty : value) :
  (forall s, SilkLine.pcb_repr footprint_globals s tx ty =
     Err (NameError "_SilkLine__mil_to_unit")) /\
  (forall c, SilkArc.pcb_repr footprint_globals c tx ty =
     Err (NameError "_SilkArc__mil_to_unit")) /\
  (forall p, SilkPolyline.pcb_repr footprint_globals p tx ty =
     match SilkPolyline.segments p with
     | [] => Ok []
     | _ :: _ => Err (NameError "_SilkLine__mil_to_unit")
     end) /\
  (forall kw, kw !! "closed" = None ->
     SilkPolyline.init [] kw = Ok (SilkPolyline.mk []) /\
     forall pt, SilkPolyline.init [pt] kw = Ok (SilkPolyline.mk [])).
Proof.
  split; [exact (fun s => SilkLine_pcb_repr_raises s tx ty)|].
  split; [|split].
  - intros c. unfold SilkArc.pcb_repr.
    rewrite call_global_unbound by (vm_compute; reflexivity). reflexivity.
  - intros [[|s segs]]; [done|].
    unfold SilkPolyline.pcb_repr. cbn [SilkPolyline.segments SilkPolyline.pcb_repr_segments].
    by rewrite SilkLine_pcb_repr_raises.
  - intros kw Hc. unfold SilkPolyline.init, kwargs_get. rewrite Hc.
    split; [done|]. by intros [x y].
Qed.

Lemma silk_pcb_repr_raises_witness :
  SilkPolyline.init [(VNum (Int 1), VNum (Int 2))] ∅ = Ok (SilkPolyline.mk []) /\
  SilkPolyline.pcb_repr footprint_globals (SilkPolyline.mk [])
    (VNum (Int 0)) (VNum (Int 0)) = Ok [].
Proof.
  destruct (silk_pcb_repr_raises (VNum (Int 0)) (VNum (Int 0)))
    as (_ & _ & Hpoly & Hinit).
  split.
  - apply (proj2 (Hinit ∅ (lookup_empty "closed"))).
  - apply (Hpoly (SilkPolyline.mk [])).
Defined.

Section PersistenceFacts.
Variable render : header * list (list pcb_record) -> string.
Variable default_filename : string.
Variable writable : string -> bool.

Lemma write_raises path f h fs :
  writable path = true ->
  Footprint.write render default_filename writable footprint_globals
    (VStr path) f h fs =
  (<[path := ""]> fs, Raised (NameError "_Footprint__mil_to_unit")).
Proof.
  intros Hw. unfold Footprint.write. cbn [is_none].
  by rewrite Hw, Footprint_str_raises.
Qed.

(** X22: [write] opens the file before it converts the footprint, and the
    conversion raises.  So on a path that can be opened, [write] leaves an
    empty file, whatever the file held, and raises the [NameError]; without
    a file name it does so to the default path; and on a path that cannot be
    opened it fails there and touches nothing. *)
Theorem write_leaves_empty_file (f : Footprint.t) (h : list obj)
    (fs : gmap string string) :
  (forall path, writable path = true ->
     Footprint.write render default_filename writable footprint_globals
       (VStr path) f h fs =
     (<[path := ""]> fs, Raised (NameError "_Footprint__mil_to_unit"))) /\
  (writable default_filename = true ->
     Footprint.write render default_filename writable footprint_globals
       VNone f h fs =
     (<[default_filename := ""]> fs, Raised (NameError "_Footprint__mil_to_unit"))) /\
  (forall path, writable path = false ->
     Footprint.write render default_filename writable footprint_globals
       (VStr path) f h fs = (fs, IOFailed)).
Proof.
  split; [|split].
  - intros path Hw. by apply write_raises.
  - intros Hw. by apply (write_raises default_filename).
  - intros path Hw. unfold Footprint.write. cbn [is_none]. by rewrite Hw.
Qed.

(** X23: a [with] statement over a script of builder calls.  If the
    script raises, that exception leaves the statement and no file is
    touched.  If it does not and the name is the empty string, nothing is
    written.  If it does not and the name is a non-empty string, the file
    [name + ".fp"] is opened and the statement ends with the [NameError] of
    the conversion, the file left empty; no script makes the statement
    write a footprint. *)
Theorem with_footprint_outcome (s : string) (kw : gmap string value)
    (cs : list call) (fs : gmap string string) :
  (forall e, run cs (Footprint.init (VStr s) kw) [] = Err e ->
     Footprint.with_footprint render default_filename writable footprint_globals
       (VStr s) kw (run cs) [] fs = (fs, Raised e)) /\
  (is_ok (run cs (Footprint.init (VStr s) kw) []) = true -> s = "" ->
     Footprint.with_footprint render default_filename writable footprint_globals
       (VStr s) kw (run cs) [] fs = (fs, Returned)) /\
  (is_ok (run cs (Footprint.init (VStr s) kw) []) = true -> s <> "" ->
     writable (s ++ ".fp")%string = true ->
     Footprint.with_footprint render default_filename writable footprint_globals
       (VStr s) kw (run cs) [] fs =
     (<[(s ++ ".fp")%string := ""]> fs,
      Raised (NameError "_Footprint__mil_to_unit"))).
Proof.
  unfold Footprint.with_footprint. split; [|split].
  - intros e ->. reflexivity.
  - destruct (run cs _ []) as [[f h]|e] eqn:Hrun; [|done]. intros _ ->.
    apply run_frame in Hrun as (_ & _ & Hn & _).
    unfold Footprint.exit_. by rewrite Hn.
  - destruct (run cs _ []) as [[f h]|e] eqn:Hrun; [|done]. intros _ Hs Hw.
    apply run_frame in Hrun as (_ & _ & Hn & _).
    unfold Footprint.exit_. rewrite Hn. cbn [Footprint.name Footprint.init py_truthy].
    apply String.eqb_neq in Hs. rewrite Hs. cbn [negb py_add as_num].
    by apply write_raises.
Qed.
End PersistenceFacts.

Lemma write_leaves_empty_file_witness :
  Footprint.write (fun _ => "text") "script.fp" (fun _ => true) footprint_globals
    VNone (Footprint.init (VStr "P") ∅) [] (<["script.fp" := "old"]> ∅) =
  (<["script.fp" := ""]> (<["script.fp" := "old"]> ∅),
   Raised (NameError "_Footprint__mil_to_unit")).
Proof.
  apply (proj1 (proj2 (write_leaves_empty_file (fun _ => "text") "script.fp"
                         (fun _ => true) (Footprint.init (VStr "P") ∅) []
                         (<["script.fp" := "old"]> ∅)))).
  reflexivity.
Defined.

Lemma with_footprint_outcome_witness :
  Footprint.with_footprint (fun _ => "text") "script.fp" (fun _ => true)
    footprint_globals (VStr "USB") ∅
    (run [AddPin (<["x" := VNum (Int 0)]> (<["y" := VNum (Int 0)]> ∅))]) [] ∅ =
  (<["USB.fp" := ""]> ∅, Raised (NameError "_Footprint__mil_to_unit")).
Proof.
  apply (proj2 (proj2 (with_footprint_outcome (fun _ => "text") "script.fp"
                         (fun _ => true) "USB" ∅
                         [AddPin (<["x" := VNum (Int 0)]> (<["y" := VNum (Int 0)]> ∅))]
                         ∅))).
  - vm_compute. reflexivity.
  - discriminate.
  - reflexivity.
Defined.

(** ** Setting the mark *)

(** X24: what [mark] accepts.  A value that is not an object, a line and
    a polyline have no [x], so [mark] raises [AttributeError]; an arc is
    accepted and the mark goes to its centre; and a pin just placed with a
    centre puts the mark at that centre and leaves the shapes and the
    counter as they are. *)
Theorem mark_targets (f : Footprint.t) (h : list obj) :
  (forall v, (forall l, v <> VObj l) ->
     Footprint.mark v f h = Err (AttributeError "x")) /\
  (forall l s, h !! l = Some (OLine s) ->
     Footprint.mark (VObj l) f h = Err (AttributeError "x")) /\
  (forall l p, h !! l = Some (OPolyline p) ->
     Footprint.mark (VObj l) f h = Err (AttributeError "x")) /\
  (forall l c, h !! l = Some (OArc c) ->
     Footprint.mark (VObj l) f h =
       Ok (Footprint.set_mark f (SilkArc.x c) (SilkArc.y c))) /\
  (forall kw xv yv l f1 h1,
     kw !! "base" = None ->
     kw !! "x" = Some xv -> is_none xv = false ->
     kw !! "y" = Some yv -> is_none yv = false ->
     Footprint.add_pin kw f h = Ok (l, f1, h1) ->
     exists f2, Footprint.mark (VObj l) f1 h1 = Ok f2 /\
       Footprint.mark_x f2 = xv /\ Footprint.mark_y f2 = yv /\
       Footprint.shapes f2 = Footprint.shapes f1 /\
       Footprint.pinpadcounter f2 = Footprint.pinpadcounter f1).
Proof.
  unfold Footprint.mark. split; [|split; [|split; [|split]]].
  - intros v Hv. destruct v as [| | | | |l]; try done. by destruct (Hv l).
  - intros l s Hl. unfold getattr. by rewrite Hl.
  - intros l p Hl. unfold getattr. by rewrite Hl.
  - intros l c Hl. unfold getattr. by rewrite Hl.
  - intros kw xv yv l f1 h1 Hb Hx Hnx Hy Hny.
    change Footprint.add_pin with (add_shape KPin). rewrite add_shape_unfold.
    cbn [shape_init shape_obj].
    destruct (Pin.init _ _) as [a|e] eqn:Hinit; [|done]. cbn [mbind res_bind].
    intros [= <- <- <-].
    assert (Hkx : kwargs_get (Footprint.numbered f kw) "x" = xv).
    { unfold Footprint.numbered, kwargs_get. rewrite Hb.
      rewrite lookup_insert_ne by done. by rewrite Hx. }
    assert (Hky : kwargs_get (Footprint.numbered f kw) "y" = yv).
    { unfold Footprint.numbered, kwargs_get. rewrite Hb.
      rewrite lookup_insert_ne by done. by rewrite Hy. }
    assert (Hax : a !! "x" = Some xv).
    { rewrite <- Hkx. apply (Pin_init_lookup _ _ _ _ Hinit); [key_in|].
      by rewrite Hkx. }
    assert (Hay : a !! "y" = Some yv).
    { rewrite <- Hky. apply (Pin_init_lookup _ _ _ _ Hinit); [key_in|].
      by rewrite Hky. }
    replace (length h) with (length h + 0)%nat by lia.
    rewrite (getattr_placed KPin h [OPin a] 0 a "x" xv eq_refl ltac:(key_in) Hax).
    rewrite (getattr_placed KPin h [OPin a] 0 a "y" yv eq_refl ltac:(key_in) Hay).
    cbn [mbind res_bind]. eexists. split; [reflexivity|]. by cbn.
Qed.

Lemma mark_targets_witness :
  let kw : gmap string value :=
    <["x" := VNum (Int 30)]> (<["y" := VNum (Int 40)]> ∅) in
  exists l f1 h1 f2,
    Footprint.add_pin kw (Footprint.init (VStr "P") ∅) [] = Ok (l, f1, h1) /\
    Footprint.mark (VObj l) f1 h1 = Ok f2 /\
    Footprint.mark_x f2 = VNum (Int 30) /\ Footprint.mark_y f2 = VNum (Int 40).
Proof.
  intros kw.
  assert (Hrun : exists r,
    Footprint.add_pin kw (Footprint.init (VStr "P") ∅) [] = Ok r)
    by (eexists; vm_compute; reflexivity).
  destruct Hrun as [[[l f1] h1] Hrun].
  destruct (proj2 (proj2 (proj2 (proj2 (mark_targets (Footprint.init (VStr "P") ∅) []))))
              kw (VNum (Int 30)) (VNum (Int 40)) l f1 h1
              eq_refl eq_refl eq_refl eq_refl eq_refl Hrun)
    as (f2 & Hmark & Hmx & Hmy & _).
  by exists l, f1, h1, f2.
Defined.
